(** * schemInfoPy: format detection and tolerant extraction over NBT trees

    A shallow embedding of [src/schemInfoPy.py].  The Python functions are
    transcribed one by one; dynamic typing is made explicit by a tagged
    union of NBT nodes, and every Python operation that can raise is a
    function into [outcome].  The analysis itself mutates two accumulators
    ([result] and [output]); it is written in a small state-and-exception
    monad that keeps the state reached when an exception escapes, exactly
    as the [except] handler of the source sees it. *)

From Stdlib Require Import ZArith List String Ascii Bool Lia DecimalString.
From Stdlib.Strings Require Import Byte.
Set Warnings "-register-all".
Import ListNotations.
Open Scope string_scope.
Open Scope Z_scope.

(** ** NBT nodes

    The tags of the decoded tree.  The tag classes of the NBT library are
    subclasses of the Python built-ins and of NumPy's array: a compound is
    a [dict] (insertion ordered), a list a [list], the three array tags
    are one-dimensional [numpy.ndarray]s, a string a [str], the four
    integer tags [int]s and the two real tags [float]s.  The model gives
    every node the behaviour of its base type.  A real scalar is kept as
    its IEEE-754 double bit pattern; no arithmetic is done on it here.
    Plain Python values that flow through the same variables (the
    defaults [0], ['?'] and [{}]) are the corresponding nodes. *)
Inductive Node : Type :=
| TagCompound (fields : list (string * Node))
| TagList (items : list Node)
| TagByteArray (elems : list Z)
| TagIntArray (elems : list Z)
| TagLongArray (elems : list Z)
| TagString (s : string)
| TagInt (z : Z)
| TagFloat (bits : Z).

(** ** Ordered dictionaries *)
Module Dict.
Section Ops.
Context {V : Type}.
Definition t := list (string * V).

Fixpoint get (k : string) (d : t) : option V :=
  match d with
  | [] => None
  | (k', v) :: rest => if String.eqb k k' then Some v else get k rest
  end.

Definition mem (k : string) (d : t) : bool :=
  match get k d with Some _ => true | None => false end.

(** [d[k] = v]: replaces in place, or appends a new last entry. *)
Fixpoint set (k : string) (v : V) (d : t) : t :=
  match d with
  | [] => [(k, v)]
  | (k', v') :: rest =>
      if String.eqb k k' then (k, v) :: rest else (k', v') :: set k v rest
  end.

Definition keys (d : t) : list string := map fst d.
End Ops.
Arguments t : clear implicits.
End Dict.

(** ** Exceptions and outcomes *)
Inductive exn : Type :=
| AttributeError (msg : string)
| TypeError (msg : string)
| ValueError (msg : string)
| IndexError (msg : string)
| KeyError (msg : string)
| LibraryError (msg : string).

(** [str(e)] *)
Definition exn_str (e : exn) : string :=
  match e with
  | AttributeError m | TypeError m | ValueError m
  | IndexError m | KeyError m | LibraryError m => m
  end.

Inductive outcome (A : Type) : Type :=
| Returns (a : A)
| Raises (e : exn).
Arguments Returns {A} a.
Arguments Raises {A} e.

Definition obind {A B} (m : outcome A) (k : A -> outcome B) : outcome B :=
  match m with
  | Returns a => k a
  | Raises e => Raises e
  end.

Declare Scope outcome_scope.
Delimit Scope outcome_scope with outcome.
Notation "x <-- m ;; k" := (obind m (fun x => k))
  (at level 61, m at next level, right associativity) : outcome_scope.
Open Scope outcome_scope.

(** ** Python operations on nodes *)
Module Py.

Definition type_name (obj : Node) : string :=
  match obj with
  | TagCompound _ => "Compound"
  | TagList _ => "List"
  | TagByteArray _ => "ByteArray"
  | TagIntArray _ => "IntArray"
  | TagLongArray _ => "LongArray"
  | TagString _ => "String"
  | TagInt _ => "Int"
  | TagFloat _ => "Double"
  end.

(** [isinstance(obj, dict)] *)
Definition is_dict (obj : Node) : bool :=
  match obj with TagCompound _ => true | _ => false end.

(** [isinstance(obj, (int, float))] *)
Definition is_number (obj : Node) : bool :=
  match obj with TagInt _ | TagFloat _ => true | _ => false end.

Definition is_string_equal (key : string) (item : Node) : bool :=
  match item with TagString s => String.eqb s key | _ => false end.

(** [key in obj] for a string key: key membership in a dict, element
    equality in a list (NBT lists are homogeneous, so only a list of
    strings can hold an equal element), substring search in a string,
    no match in a numeric array, and a [TypeError] on a scalar. *)
Definition contains (obj : Node) (key : string) : outcome bool :=
  match obj with
  | TagCompound fields => Returns (Dict.mem key fields)
  | TagList items => Returns (existsb (is_string_equal key) items)
  | TagString s =>
      Returns (match String.index 0 key s with Some _ => true | None => false end)
  | TagByteArray _ | TagIntArray _ | TagLongArray _ => Returns false
  | TagInt _ | TagFloat _ =>
      Raises (TypeError ("argument of type '" ++ type_name obj ++ "' is not iterable"))
  end.

Definition no_attribute (obj : Node) (attr : string) : exn :=
  AttributeError ("'" ++ type_name obj ++ "' object has no attribute '" ++ attr ++ "'").

(** [obj.get(key)] with a string key: [None] is the result when the key
    is missing.  A list tag has a [get] of its own, which looks up an
    index or a path and gives the default for anything else, so a
    string key always finds nothing there.  No other node has a
    [get]. *)
Definition get_opt (obj : Node) (key : string) : outcome (option Node) :=
  match obj with
  | TagCompound fields => Returns (Dict.get key fields)
  | TagList _ => Returns None
  | _ => Raises (no_attribute obj "get")
  end.

(** [obj.get(key, default)]; the default is an already evaluated value. *)
Definition get (obj : Node) (key : string) (default : Node) : outcome Node :=
  v <-- get_opt obj key ;;
  Returns (match v with Some n => n | None => default end).

(** [obj[key]] with a string key. *)
Definition getitem (obj : Node) (key : string) : outcome Node :=
  match obj with
  | TagCompound fields =>
      match Dict.get key fields with
      | Some n => Returns n
      | None => Raises (KeyError ("'" ++ key ++ "'"))
      end
  | TagList _ => Raises (TypeError "list indices must be integers or slices, not str")
  | TagString _ => Raises (TypeError "string indices must be integers, not 'str'")
  | TagByteArray _ | TagIntArray _ | TagLongArray _ =>
      Raises (IndexError "only integers, slices, ellipsis, numpy.newaxis and integer or boolean arrays are valid indices")
  | TagInt _ | TagFloat _ =>
      Raises (TypeError ("'" ++ type_name obj ++ "' object is not subscriptable"))
  end.

(** The elements of an array tag, [None] for any other node. *)
Definition array_elems (obj : Node) : option (list Z) :=
  match obj with
  | TagByteArray l | TagIntArray l | TagLongArray l => Some l
  | _ => None
  end.

(** A real scalar is zero when all bits but the sign are clear. *)
Definition float_is_zero (bits : Z) : bool :=
  Z.land bits (Z.ones 63) =? 0.

(** [bool(obj)].  Compounds, lists and strings are true when they are
    not empty and numbers when they are not zero.  The array tags
    define their truth value as [all(self)]: an array is true when none
    of its elements is zero, so the empty array is true.  The test
    returns on every node. *)
Definition truth (obj : Node) : bool :=
  match obj with
  | TagCompound fields => negb (Nat.eqb (List.length fields) 0)
  | TagList items => negb (Nat.eqb (List.length items) 0)
  | TagByteArray l | TagIntArray l | TagLongArray l => forallb (fun z => negb (z =? 0)) l
  | TagString s => negb (Nat.eqb (String.length s) 0)
  | TagInt z => negb (z =? 0)
  | TagFloat bits => negb (float_is_zero bits)
  end.

(** [hasattr(obj, '__len__')] *)
Definition has_len (obj : Node) : bool :=
  match obj with TagInt _ | TagFloat _ => false | _ => true end.

(** [len(obj)]; a string is measured in characters. *)
Definition len (obj : Node) : outcome Z :=
  match obj with
  | TagCompound fields => Returns (Z.of_nat (List.length fields))
  | TagList items => Returns (Z.of_nat (List.length items))
  | TagByteArray l | TagIntArray l | TagLongArray l => Returns (Z.of_nat (List.length l))
  | TagString s => Returns (Z.of_nat (String.length s))
  | TagInt _ | TagFloat _ =>
      Raises (TypeError ("object of type '" ++ type_name obj ++ "' has no len()"))
  end.

(** [obj.shape] when [hasattr(obj, 'shape')]: the arrays are
    one-dimensional, so the shape is the one-element tuple of the
    length. *)
Definition shape (obj : Node) : option (list Z) :=
  match array_elems obj with
  | Some l => Some [Z.of_nat (List.length l)]
  | None => None
  end.

(** [obj.size] of an array: the product of its shape. *)
Definition size (dims : list Z) : Z := fold_right Z.mul 1 dims.

(** [obj.items()] and [obj.keys()] *)
Definition items (obj : Node) : outcome (list (string * Node)) :=
  match obj with
  | TagCompound fields => Returns fields
  | _ => Raises (no_attribute obj "items")
  end.

Definition keys (obj : Node) : outcome (list string) :=
  match obj with
  | TagCompound fields => Returns (Dict.keys fields)
  | _ => Raises (no_attribute obj "keys")
  end.

(** [str(n)] of a Python integer. *)
Definition str_int (z : Z) : string := NilZero.string_of_int (Z.to_int z).

End Py.

(** ** [safe_check] (lines 41-46) *)
Definition safe_check (obj : Node) (key : string) : bool :=
  match Py.contains obj key with
  | Returns b => b
  | Raises _ => false
  end.

(** ** Format detection (lines 108-125) *)
Inductive Format : Type :=
| modern_worldedit
| modern_worldedit_nested
| modern_alternate
| classic_worldedit
| litematica
| unknown.

Definition format_name (f : Format) : string :=
  match f with
  | modern_worldedit => "modern_worldedit"
  | modern_worldedit_nested => "modern_worldedit_nested"
  | modern_alternate => "modern_alternate"
  | classic_worldedit => "classic_worldedit"
  | litematica => "litematica"
  | unknown => "unknown"
  end.

(** The second [elif] condition: [safe_check(schematic, 'Blocks') and
    isinstance(schematic.get('Blocks'), dict) and
    safe_check(schematic.get('Blocks', {}), 'Palette')]. *)
Definition nested_palette_probe (schematic : Node) : outcome bool :=
  if safe_check schematic "Blocks" then
    blocks <-- Py.get_opt schematic "Blocks" ;;
    match blocks with
    | Some b =>
        if Py.is_dict b then
          blocks' <-- Py.get schematic "Blocks" (TagCompound []) ;;
          Returns (safe_check blocks' "Palette")
        else Returns false
    | None => Returns false
    end
  else Returns false.

Definition detect_format (schematic : Node) : outcome Format :=
  if safe_check schematic "Palette" && safe_check schematic "BlockData" then
    Returns modern_worldedit
  else
    nested <-- nested_palette_probe schematic ;;
    if nested then Returns modern_worldedit_nested
    else if safe_check schematic "BlockData" || safe_check schematic "blocks" then
      Returns modern_alternate
    else if safe_check schematic "Blocks" && safe_check schematic "Data" then
      Returns classic_worldedit
    else if safe_check schematic "Regions" then Returns litematica
    else Returns unknown.

(** The six probes as the specification words them, over the fields of a
    root compound. *)
Module DetectorSpec.
Definition present (key : string) (fields : list (string * Node)) : bool :=
  existsb (fun kv => String.eqb key (fst kv)) fields.

Definition probe1 fields := present "Palette" fields && present "BlockData" fields.

Definition probe2 (fields : list (string * Node)) : bool :=
  match Dict.get "Blocks" fields with
  | Some (TagCompound inner) => present "Palette" inner
  | _ => false
  end.

Definition probe3 fields := present "BlockData" fields || present "blocks" fields.
Definition probe4 fields := present "Blocks" fields && present "Data" fields.
Definition probe5 fields := present "Regions" fields.

Definition first_match (fields : list (string * Node)) : Format :=
  if probe1 fields then modern_worldedit
  else if probe2 fields then modern_worldedit_nested
  else if probe3 fields then modern_alternate
  else if probe4 fields then classic_worldedit
  else if probe5 fields then litematica
  else unknown.
End DetectorSpec.

(** ** The analysis result and the report

    [result] is the dictionary that the analysis fills and [output] the
    list of report lines.  Values stored in [result] are strings, Python
    integers, nodes taken from the tree as they are, lists and nested
    dictionaries. *)
Inductive Value : Type :=
| VStr (s : string)
| VInt (z : Z)
| VTag (n : Node)
| VList (items : list Value)
| VDict (entries : list (string * Value)).

Record State : Type := mkState {
  result : Dict.t Value;
  output : list string
}.

(** Computations that read and update [result] and [output] and may
    raise; the state is kept on both paths. *)
Definition M (A : Type) : Type := State -> outcome A * State.

Definition ret {A} (a : A) : M A := fun st => (Returns a, st).

Definition bind {A B} (m : M A) (k : A -> M B) : M B :=
  fun st =>
    match m st with
    | (Returns a, st') => k a st'
    | (Raises e, st') => (Raises e, st')
    end.

Definition lift {A} (o : outcome A) : M A := fun st => (o, st).

Declare Scope analysis_scope.
Delimit Scope analysis_scope with analysis.
Notation "x <- m ;; k" := (bind m (fun x => k))
  (at level 61, m at next level, right associativity) : analysis_scope.
Notation "m ;; k" := (bind m (fun _ => k))
  (at level 61, right associativity) : analysis_scope.
Open Scope analysis_scope.

(** [output.append(line)] *)
Definition emit (line : string) : M unit :=
  fun st => (Returns tt, mkState (result st) (output st ++ [line])).

(** [result[key] = v] *)
Definition set_result (key : string) (v : Value) : M unit :=
  fun st => (Returns tt, mkState (Dict.set key v (result st)) (output st)).

(** [result[outer][inner] = v] *)
Definition set_result_in (outer inner : string) (v : Value) : M unit :=
  fun st =>
    match Dict.get outer (result st) with
    | Some (VDict sub) =>
        (Returns tt,
         mkState (Dict.set outer (VDict (Dict.set inner v sub)) (result st)) (output st))
    | Some _ => (Raises (TypeError "object does not support item assignment"), st)
    | None => (Raises (KeyError ("'" ++ outer ++ "'")), st)
    end.

(** [try: body except Exception as e: handler e] *)
Definition try_except {A} (body : M A) (handler : exn -> M A) : M A :=
  fun st =>
    match body st with
    | (Raises e, st') => handler e st'
    | r => r
    end.

(** [for x in xs: body x] *)
Fixpoint for_each {A} (xs : list A) (body : A -> M unit) : M unit :=
  match xs with
  | [] => ret tt
  | x :: rest => body x ;; for_each rest body
  end.

(** A loop that threads a local variable. *)
Fixpoint fold_m {A B} (body : B -> A -> M B) (xs : list A) (acc : B) : M B :=
  match xs with
  | [] => ret acc
  | x :: rest => acc' <- body acc x ;; fold_m body rest acc'
  end.

(** The newline character of the report's section headings. *)
Definition nl : string := String (ascii_of_nat 10) EmptyString.

(** The object that the NBT library's parser returns: a compound with a
    [gzipped] attribute. *)
Record NbtFile : Type := mkNbtFile {
  file_tag : list (string * Node);
  gzipped : bool
}.

(** What [analyze_schematic] reads from its arguments and the operating
    system: the path and its base name, the size of the file, the clock,
    what reading the file gives, and the optional log file. *)
Record FileEnv : Type := mkFileEnv {
  basename : string;
  path_str : string;
  getsize : Z;
  now : string;
  read : outcome (list byte);
  output_file : option string
}.

(** The value [analyze_schematic] returns, with what it appended to the
    log file. *)
Record Analysis : Type := mkAnalysis {
  analysis_result : Dict.t Value;
  report_lines : list string;
  logged : option string
}.

Definition report_text (a : Analysis) : string := String.concat nl (report_lines a).

(** The reserved keys of the residual scan (line 322). *)
Definition reserved_keys : list string :=
  ["Palette"; "BlockData"; "Blocks"; "Data"; "Regions"; "Metadata"].

Definition is_reserved (key : string) : bool := existsb (String.eqb key) reserved_keys.

(** The root keys that the extraction routines of a variant read: the
    dimension keys or [Regions] (lines 131-185) and the keys of the
    block-statistics branch taken for the variant (lines 188-260). *)
Definition dimension_keys : list string :=
  ["Width"; "width"; "Height"; "height"; "Length"; "length"].

Definition consumed_keys (f : Format) : list string :=
  match f with
  | modern_worldedit | modern_worldedit_nested =>
      dimension_keys ++ ["Palette"; "BlockData"]
  | classic_worldedit =>
      dimension_keys ++ ["Blocks"; "Data"; "TileEntities"; "Entities"]
  | litematica => ["Regions"]
  | modern_alternate | unknown => dimension_keys
  end.

(** [raw_data[i]] *)
Definition byte_at (raw_data : list byte) (i : nat) : outcome byte :=
  match nth_error raw_data i with
  | Some b => Returns b
  | None => Raises (IndexError "index out of range")
  end.

(** [raw_data[0] == 0x1f and raw_data[1] == 0x8b] (line 77) *)
Definition is_gzipped (raw_data : list byte) : outcome bool :=
  b0 <-- byte_at raw_data 0 ;;
  if Byte.eqb b0 x1f then
    b1 <-- byte_at raw_data 1 ;;
    Returns (Byte.eqb b1 x8b)
  else Returns false.

Definition compression_name (is_gz : bool) : string :=
  if is_gz then "gzipped" else "not gzipped".

Definition bool_str (b : bool) : string := if b then "True" else "False".

(** Lines 59-69: the fresh result and the first report lines. *)
Definition initial_state (env : FileEnv) : State :=
  mkState
    [("file_name", VStr (basename env));
     ("file_path", VStr (path_str env));
     ("file_size", VInt (getsize env));
     ("analysis_time", VStr (now env))]
    [nl ++ "=== Analyzing file: " ++ basename env ++ " ===";
     "File path: " ++ path_str env;
     "File size: " ++ Py.str_int (getsize env) ++ " bytes"].

(** [nbt_data.get('Schematic', nbt_data)] (line 106) *)
Definition root_of (nbt_data : NbtFile) : Node :=
  match Dict.get "Schematic" (file_tag nbt_data) with
  | Some s => s
  | None => TagCompound (file_tag nbt_data)
  end.

(** [blocks.size] or [len(blocks)] or ["unknown"] (lines 221-231) *)
Definition total_blocks_of (blocks : Node) : Value :=
  let by_length :=
    if Py.has_len blocks then n <-- Py.len blocks ;; Returns (VInt n)
    else Returns (VStr "unknown") in
  let attempt :=
    match Py.shape blocks with
    | Some (d :: ds) => Returns (VInt (Py.size (d :: ds)))
    | _ => by_length
    end in
  match attempt with
  | Returns v => v
  | Raises _ => VStr "unknown (error determining size)"
  end.

Definition value_str (v : Value) : string :=
  match v with
  | VStr s => s
  | VInt z => Py.str_int z
  | _ => ""
  end.

(** ** The callers: [process_directory] and [main]

    What the two callers do to the outside is a list of effects, in the
    order in which they happen: a line printed on the terminal, a file
    opened for writing (and so emptied), text written at the end of a
    file.  What they read from the outside is a [World]: the kind of a
    path, the listing of a directory with the suffix of every entry,
    what [analyze_schematic] finds at a path, the two clock readings of
    [main], and the JSON serialiser: [json.dump] writes the text piece
    by piece, so [json_dump] gives the text that reached the file and
    the exception that stopped it, if one did; and [open_write] gives
    the exception of [open(path, 'w')] when the file cannot be opened
    for writing.  A failed call leaves no effect.  The log file is
    taken to open for appending ([main] has opened it for writing
    before), and writing to an open file and printing are taken to
    succeed. *)
Inductive Effect : Type :=
| Print (text : string)
| Truncate (path : string)
| Append (path text : string).

Inductive Status : Type :=
| Finished
| Exited (code : Z)
| Crashed (e : exn).

Record DirEntry : Type := mkDirEntry {
  entry_path : string;
  entry_is_file : bool;
  entry_suffix : string
}.

Record World : Type := mkWorld {
  path_exists : string -> bool;
  is_dir : string -> bool;
  is_file : string -> bool;
  path_text : string -> string;
  iterdir : string -> list DirEntry;
  file_env : string -> FileEnv;
  stamp_compact : string;
  stamp_header : string;
  json_dump : list (Dict.t Value) -> string * option exn;
  open_write : string -> option exn
}.

(** [s.lower()], on the ASCII letters; no other character lowers to one
    of the letters of the supported extensions. *)
Definition lower_char (c : ascii) : ascii :=
  let n := nat_of_ascii c in
  if ((65 <=? n) && (n <=? 90))%nat then ascii_of_nat (n + 32) else c.

Fixpoint lower (s : string) : string :=
  match s with
  | EmptyString => EmptyString
  | String c rest => String (lower_char c) (lower rest)
  end.

(** The text before the last dot of [s], when [s] has a dot. *)
Fixpoint before_last_dot (s : string) : option string :=
  match s with
  | EmptyString => None
  | String c rest =>
      match before_last_dot rest with
      | Some head => Some (String c head)
      | None => if Ascii.eqb c "."%char then Some EmptyString else None
      end
  end.

(** [s.rsplit('.', 1)[0]] *)
Definition rsplit_head (s : string) : string :=
  match before_last_dot s with
  | Some head => head
  | None => s
  end.

Fixpoint has_dot (s : string) : bool :=
  match s with
  | EmptyString => false
  | String c rest => Ascii.eqb c "."%char || has_dot rest
  end.

(** A file name as a condition: [None] and the empty name are false. *)
Definition truthy_name (name : option string) : option string :=
  match name with
  | Some EmptyString => None
  | other => other
  end.

(** The loop of lines 402-411 over [sys.argv[2:]]: a flag takes the next
    argument as its value when there is one, and every other argument is
    skipped. *)
Fixpoint parse_options (args : list string) (log_file json_file : option string)
    : option string * option string :=
  match args with
  | [] => (log_file, json_file)
  | arg :: rest =>
      match rest with
      | value :: rest' =>
          if String.eqb arg "--log" then parse_options rest' (Some value) json_file
          else if String.eqb arg "--json" then parse_options rest' log_file (Some value)
          else parse_options rest log_file json_file
      | [] => parse_options rest log_file json_file
      end
  end.

(** Lines 413-416: the name of the log file. *)
Definition log_name (w : World) (options : list string) : string :=
  match fst (parse_options options None None) with
  | Some name => name
  | None => "schematic_analysis_" ++ stamp_compact w ++ ".log"
  end.

(** Lines 418-420: the name of the JSON file. *)
Definition json_name (w : World) (options : list string) : option string :=
  match snd (parse_options options None None) with
  | Some name => Some name
  | None =>
      match truthy_name (Some (log_name w options)) with
      | Some log_file => Some (rsplit_head log_file ++ ".json")
      | None => None
      end
  end.

Definition with_output (env : FileEnv) (log_file : option string) : FileEnv :=
  mkFileEnv (basename env) (path_str env) (getsize env) (now env) (read env) log_file.

Definition supported_extensions : list string := [".schem"; ".schematic"; ".litematic"].

(** [f.is_file() and f.suffix.lower() in supported_extensions] *)
Definition is_supported (f : DirEntry) : bool :=
  entry_is_file f && existsb (String.eqb (lower (entry_suffix f))) supported_extensions.

Definition usage : list Effect :=
  [Print "Usage: python schemInfoPy.py <file_path_or_directory> [--log <log_file>] [--json <json_file>] [--full]";
   Print "Supported formats: .schem, .schematic, .litematic"].

(** Lines 422-426: the log file is emptied and headed. *)
Definition log_header (w : World) (argv : list string) (log_file : string) : list Effect :=
  match truthy_name (Some log_file) with
  | Some name =>
      [Truncate name;
       Append name ("Schematic Analysis Log - " ++ stamp_header w ++ nl);
       Append name ("Command: " ++ String.concat " " argv ++ nl ++ nl)]
  | None => []
  end.

Definition is_print (e : Effect) : bool :=
  match e with
  | Print _ => true
  | _ => false
  end.

(** ** Sample collaborators and trees

    Concrete stand-ins for the parameters of the analysis and the trees
    of the worked examples. *)
Module Sample.

Definition str_other (value : Node) : string := "<tag>".

Definition mul_other (a b : Node) : outcome Node :=
  Raises (TypeError "unsupported operand type(s) for *").

Definition local_date (timestamp : Node) : outcome string :=
  Returns "2023-11-14 22:13:20".

Definition gzip_decompress (data : list byte) : outcome (list byte) :=
  Raises (LibraryError "Not a gzipped file").

Definition format_exc (e : exn) : string := "Traceback (most recent call last)".

(** A parser that decodes every input to the given tree. *)
Definition parse_as (fields : list (string * Node)) (data : list byte) : outcome NbtFile :=
  Returns (mkNbtFile fields false).

(** A parser that rejects every input. *)
Definition parse_fails (data : list byte) : outcome NbtFile :=
  Raises (LibraryError "unexpected end of data").

(** A ten-byte file that does not start with the gzip magic. *)
Definition env : FileEnv :=
  mkFileEnv "a.schem" "/tmp/a.schem" 10 "2026-01-01 00:00:00"
    (Returns [x0a; x00; x00; x00; x00; x00; x00; x00; x00; x00]) None.

Definition coords_x1_z3 : list (string * Node) := [("x", TagInt 1); ("z", TagInt 3)].

Definition coords_text_x : list (string * Node) :=
  [("x", TagString "abc"); ("y", TagInt 2); ("z", TagInt 3)].

Definition region_main : list (string * Node) :=
  [("Size", TagCompound [("x", TagInt 4); ("y", TagInt 4); ("z", TagInt 4)])].

Definition litematic_int_size : list (string * Node) :=
  [("Regions", TagCompound [("Main", TagCompound [("Size", TagInt 5)])])].

Definition negative_width : list (string * Node) :=
  [("Width", TagInt (-1)); ("Height", TagInt 1); ("Length", TagInt 1)].

Definition scenario_a : list (string * Node) :=
  [("Palette", TagCompound [("minecraft:stone", TagInt 0); ("minecraft:air", TagInt 1)]);
   ("BlockData", TagByteArray [0; 0; 0; 0; 0; 0; 0; 0; 0; 0]);
   ("Width", TagInt 2); ("Height", TagInt 1); ("Length", TagInt 5)].

Definition palette_with_regions : list (string * Node) :=
  [("Palette", TagCompound []); ("BlockData", TagByteArray []); ("Regions", TagCompound [])].

Definition classic_small : list (string * Node) :=
  [("Blocks", TagByteArray [1; 2; 3]); ("Data", TagByteArray [0; 0; 0]);
   ("TileEntities", TagList []); ("Entities", TagInt 7)].

Definition two_regions : list (string * Node) :=
  [("Main", TagCompound region_main); ("Annex", TagCompound [])].

Definition litematic_two_regions : list (string * Node) :=
  [("Regions", TagCompound two_regions)].

(** A file that cannot be read. *)
Definition env_unreadable : FileEnv :=
  mkFileEnv "a.schem" "/tmp/a.schem" 10 "2026-01-01 00:00:00"
    (Raises (LibraryError "[Errno 13] Permission denied: '/tmp/a.schem'")) None.

(** A file that starts with the gzip magic. *)
Definition gzip_magic_bytes : list byte := [x1f; x8b; x08; x00].

Definition env_gzip_magic : FileEnv :=
  mkFileEnv "b.schem" "/tmp/b.schem" 4 "2026-01-01 00:00:00" (Returns gzip_magic_bytes) None.


Definition worldedit_entries : list (string * Node) :=
  [("Version", TagInt 7); ("Origin", TagCompound coords_x1_z3)].

Definition metadata_entries : list (string * Node) :=
  [("Name", TagString "house"); ("WorldEdit", TagCompound worldedit_entries);
   ("Date", TagInt 1700000000000)].

Definition with_metadata : list (string * Node) :=
  [("Metadata", TagCompound metadata_entries)].

Definition metadata_is_number : list (string * Node) :=
  [("Metadata", TagInt 3)].

Definition palette_is_list : list (string * Node) :=
  [("Palette", TagList [TagString "minecraft:stone"]); ("BlockData", TagByteArray [0])].

Definition nested_palette : list (string * Node) :=
  [("Blocks", TagCompound [("Palette", TagCompound [("minecraft:stone", TagInt 0)])])].

(** A directory [builds] with four entries, beside a file [a.schem]; the
    serialiser writes every list as [[]]. *)
Definition listing : list DirEntry :=
  [mkDirEntry "builds/a.schem" true ".schem";
   mkDirEntry "builds/notes.txt" true ".txt";
   mkDirEntry "builds/B.LITEMATIC" true ".LITEMATIC";
   mkDirEntry "builds/old.schematic" false ".schematic"].

Definition world : World :=
  mkWorld (fun p => String.eqb p "builds" || String.eqb p "a.schem")
    (fun p => String.eqb p "builds")
    (fun p => String.eqb p "a.schem")
    (fun p => p)
    (fun p => if String.eqb p "builds" then listing else [])
    (fun p => mkFileEnv p p 10 "2026-01-01 00:00:00"
                (Returns [x0a; x00; x00; x00; x00; x00; x00; x00; x00; x00]) None)
    "20260101_000000" "2026-01-01 00:00:00"
    (fun results => ("[]", None))
    (fun p => None).

(** Scenario B of the specification: one region, Main. *)
Definition litematic_main : list (string * Node) :=
  [("Regions", TagCompound [("Main", TagCompound region_main)])].

(** A region whose BlockEntities is a text. *)
Definition litematic_text_entities : list (string * Node) :=
  [("Regions", TagCompound [("Main", TagCompound [("BlockEntities", TagString "abc")])])].

(** A root with a key outside the reserved set and a Metadata that is
    an integer. *)
Definition width_and_numeric_metadata : list (string * Node) :=
  [("Width", TagInt 1); ("Metadata", TagInt 3)].

End Sample.

(** ** The analysis

    What the source imports is a parameter of the development: the text
    the tag library gives to a value that is neither an integer nor a
    string, Python's [*] on operands that are not both integers (real
    arithmetic, sequence repetition, NumPy broadcasting), the local
    calendar date of a millisecond timestamp, gzip, the NBT parser and
    the traceback printer. *)
Section Analysis.

Variable str_other : Node -> string.
Variable mul_other : Node -> Node -> outcome Node.
Variable local_date : Node -> outcome string.
Variable gzip_decompress : list byte -> outcome (list byte).
Variable nbt_parse : list byte -> outcome NbtFile.
Variable format_exc : exn -> string.

(** Modelled from the spec: the string form of a tag, which the tag
    library decides.  An integer is converted to its decimal string form
    and text stays as it is; the form of every other node (a real
    scalar, a compound, a list, an array) is the parameter
    [str_other]. *)
Definition py_str (value : Node) : string :=
  match value with
  | TagInt z => Py.str_int z
  | TagString s => s
  | _ => str_other value
  end.

(** [a * b] *)
Definition py_mul (a b : Node) : outcome Node :=
  match a, b with
  | TagInt x, TagInt y => Returns (TagInt (x * y))
  | _, _ => mul_other a b
  end.

(** [safe_to_string] (lines 12-16): both branches are [str(value)]. *)
Definition safe_to_string (value : Node) : string :=
  if Py.is_number value then py_str value else py_str value.

(** [format_coordinates] (lines 18-29).  The guard is evaluated before
    the [try] block is entered. *)
Definition format_coordinates (obj : Node) : outcome string :=
  if negb (Py.truth obj) || negb (Py.is_dict obj) then Returns "unknown"
  else
    let body :=
      x <-- Py.get obj "x" (TagString "?") ;;
      y <-- Py.get obj "y" (TagString "?") ;;
      z <-- Py.get obj "z" (TagString "?") ;;
      Returns (safe_to_string x ++ " x " ++ safe_to_string y ++ " x " ++ safe_to_string z) in
    match body with
    | Returns s => Returns s
    | Raises e => Returns ("error parsing coordinates: " ++ exn_str e)
    end.

(** [format_timestamp] (lines 31-39) *)
Definition format_timestamp (timestamp : Node) : string :=
  let body :=
    if Py.is_number timestamp then
      date <-- local_date timestamp ;;
      Returns (py_str timestamp ++ " (" ++ date ++ ")")
    else Returns (safe_to_string timestamp) in
  match body with
  | Returns s => s
  | Raises e => py_str timestamp ++ " (error formatting date: " ++ exn_str e ++ ")"
  end.

(** Lines 72-103: read, test the magic bytes, decompress, parse.  The
    two inner handlers return from the function; [None] stands for that
    early return. *)
Definition load (env : FileEnv) : M (option NbtFile) :=
  raw_data <- lift (read env) ;;
  is_gz <- lift (is_gzipped raw_data) ;;
  emit ("File compression: " ++ compression_name is_gz) ;;
  set_result "compression" (VStr (compression_name is_gz)) ;;
  file_data <-
    (if is_gz then
       match gzip_decompress raw_data with
       | Returns data =>
           emit ("Decompressed size: " ++ Py.str_int (Z.of_nat (List.length data)) ++ " bytes") ;;
           set_result "decompressed_size" (VInt (Z.of_nat (List.length data))) ;;
           ret (Some data)
       | Raises e =>
           emit ("Error decompressing file: " ++ exn_str e) ;;
           set_result "error" (VStr ("Error decompressing file: " ++ exn_str e)) ;;
           ret None
       end
     else ret (Some raw_data)) ;;
  match file_data with
  | None => ret None
  | Some data =>
      match nbt_parse data with
      | Returns nbt_data =>
          emit ("NBT format: " ++ bool_str (gzipped nbt_data)) ;;
          ret (Some nbt_data)
      | Raises e =>
          emit ("Error parsing NBT data: " ++ exn_str e) ;;
          set_result "error" (VStr ("Error parsing NBT data: " ++ exn_str e)) ;;
          ret None
      end
  end.

(** [f"{c.get('x', '?')} x {c.get('y', '?')} x {c.get('z', '?')}"]
    (lines 144 and 150) *)
Definition coordinate_text (c : Node) : outcome string :=
  x <-- Py.get c "x" (TagString "?") ;;
  y <-- Py.get c "y" (TagString "?") ;;
  z <-- Py.get c "z" (TagString "?") ;;
  Returns (py_str x ++ " x " ++ py_str y ++ " x " ++ py_str z).

(** Lines 155-159 and 162-166: the count of a list of the region. *)
Definition region_count (region : Node) (key label info_key : string)
    (region_info : Dict.t Value) : M (Dict.t Value) :=
  if safe_check region key then
    entities <- lift (Py.getitem region key) ;;
    if Py.truth entities then
      n <- lift (Py.len entities) ;;
      emit ("    " ++ label ++ ": " ++ Py.str_int n) ;;
      ret (Dict.set info_key (VInt n) region_info)
    else ret region_info
  else ret region_info.

(** Lines 139-166: the body of the loop over the regions, up to the
    record of the region. *)
Definition extract_region (region : Node) : M (Dict.t Value) :=
  region_info <-
    (if safe_check region "Size" then
       size <- lift (Py.getitem region "Size") ;;
       size_str <- lift (coordinate_text size) ;;
       emit ("    Size: " ++ size_str) ;;
       ret (Dict.set "size" (VStr size_str) [])
     else ret []) ;;
  region_info <-
    (if safe_check region "Position" then
       pos <- lift (Py.getitem region "Position") ;;
       pos_str <- lift (coordinate_text pos) ;;
       emit ("    Position: (" ++ pos_str ++ ")") ;;
       ret (Dict.set "position" (VStr pos_str) region_info)
     else ret region_info) ;;
  region_info <-
    region_count region "BlockEntities" "Block Entities" "block_entities_count" region_info ;;
  region_count region "Entities" "Entities" "entities_count" region_info.

(** Lines 131-168 *)
Definition extract_regions (schematic : Node) : M unit :=
  emit (nl ++ "Regions:") ;;
  set_result "regions" (VDict []) ;;
  regions <- lift (Py.get schematic "Regions" (TagCompound [])) ;;
  items <- lift (Py.items regions) ;;
  for_each items (fun item =>
    emit ("  - " ++ fst item ++ ":") ;;
    region_info <- extract_region (snd item) ;;
    set_result_in "regions" (fst item) (VDict region_info)).

(** [schematic.get(upper, schematic.get(lower, 0))]: the inner call is
    the argument of the outer one and is evaluated first. *)
Definition dimension (schematic : Node) (upper lower : string) : outcome Node :=
  fallback <-- Py.get schematic lower (TagInt 0) ;;
  Py.get schematic upper fallback.

(** [width * height * length if width and height and length else 0]
    (line 177) *)
Definition total_volume_of (width height length : Node) : outcome Node :=
  if Py.truth width && Py.truth height && Py.truth length then
    area <-- py_mul width height ;;
    py_mul area length
  else Returns (TagInt 0).

(** Lines 170-185 *)
Definition extract_dimensions (schematic : Node) : M unit :=
  width <- lift (dimension schematic "Width" "width") ;;
  height <- lift (dimension schematic "Height" "height") ;;
  length <- lift (dimension schematic "Length" "length") ;;
  emit ("Dimensions: " ++ py_str width ++ " x " ++ py_str height ++ " x " ++ py_str length) ;;
  total_volume <- lift (total_volume_of width height length) ;;
  emit ("Total volume: " ++ py_str total_volume ++ " blocks") ;;
  set_result "dimensions"
    (VDict [("width", VTag width); ("height", VTag height);
            ("length", VTag length); ("total_volume", VTag total_volume)]).

(** The pattern of lines 210-214, 239-243, 246-250 and 253-257: record
    the length of a root value when it is present and has a length. *)
Definition record_length (schematic : Node) (key line_start line_end result_key : string)
    : M unit :=
  if safe_check schematic key then
    value <- lift (Py.getitem schematic key) ;;
    if Py.has_len value then
      n <- lift (Py.len value) ;;
      emit (line_start ++ Py.str_int n ++ line_end) ;;
      set_result result_key (VInt n)
    else ret tt
  else ret tt.

(** Lines 196-202: the palette is listed inside a [try] block. *)
Definition list_block_types (palette : Node) : M (list Value) :=
  try_except
    (entries <- lift (Py.items palette) ;;
     fold_m (fun block_types entry =>
               emit ("  - " ++ fst entry ++ " (ID: " ++ py_str (snd entry) ++ ")") ;;
               ret (block_types ++ [VDict [("name", VStr (fst entry)); ("id", VTag (snd entry))]])%list)
            entries [])
    (fun e => emit ("Error listing block types: " ++ exn_str e) ;; ret []).

(** Lines 190-214 *)
Definition extract_palette (schematic : Node) : M unit :=
  if safe_check schematic "Palette" then
    palette <- lift (Py.getitem schematic "Palette") ;;
    block_count <- lift (Py.len palette) ;;
    emit (nl ++ "Block types: " ++ Py.str_int block_count) ;;
    emit "All block types:" ;;
    block_types <- list_block_types palette ;;
    set_result "block_stats"
      (VDict [("total_block_types", VInt block_count); ("blocks", VList block_types)]) ;;
    record_length schematic "BlockData" (nl ++ "Block data size: ") " bytes" "block_data_size"
  else ret tt.

(** Lines 217-257 *)
Definition extract_classic (schematic : Node) : M unit :=
  emit (nl ++ "Block data available (classic format)") ;;
  if safe_check schematic "Blocks" then
    blocks <- lift (Py.getitem schematic "Blocks") ;;
    emit ("Total blocks: " ++ value_str (total_blocks_of blocks)) ;;
    set_result "block_stats" (VDict [("total_blocks", total_blocks_of blocks)]) ;;
    record_length schematic "Data" "Block data size: " " bytes" "block_data_size" ;;
    record_length schematic "TileEntities" "Tile entities: " "" "tile_entities_count" ;;
    record_length schematic "Entities" "Entities: " "" "entities_count"
  else ret tt.

(** Lines 188-260: the dispatch on the detected variant. *)
Definition extract_block_stats (format_type : Format) (schematic : Node) : M unit :=
  match format_type with
  | modern_worldedit | modern_worldedit_nested => extract_palette schematic
  | classic_worldedit => extract_classic schematic
  | litematica => emit (nl ++ "Block data available in regions")
  | modern_alternate | unknown => ret tt
  end.

(** Lines 283-290 and 306-313: a compound is listed by its keys. *)
Definition describe_complex (section key : string) (value : Node) : M unit :=
  emit ("  " ++ key ++ ": [complex object]") ;;
  try_except
    (ks <- lift (Py.keys value) ;;
     emit ("    Keys: " ++ String.concat ", " ks) ;;
     set_result_in section key (VDict [("keys", VList (map VStr ks))]))
    (fun _ => set_result_in section key (VStr "complex object")).

(** Lines 268-293: the body of the loop over the metadata. *)
Definition metadata_entry (entry : string * Node) : M unit :=
  let key := fst entry in
  let value := snd entry in
  if String.eqb key "WorldEdit" then ret tt
  else if String.eqb key "EnclosingSize" && Py.is_dict value then
    coord_str <- lift (format_coordinates value) ;;
    emit ("  " ++ key ++ ": " ++ coord_str) ;;
    set_result_in "metadata" key (VStr coord_str)
  else if String.eqb key "TimeCreated" || String.eqb key "TimeModified" then
    emit ("  " ++ key ++ ": " ++ format_timestamp value) ;;
    set_result_in "metadata" key (VStr (format_timestamp value))
  else if Py.is_dict value then describe_complex "metadata" key value
  else
    emit ("  " ++ key ++ ": " ++ safe_to_string value) ;;
    set_result_in "metadata" key (VStr (safe_to_string value)).

(** Lines 262-293 *)
Definition extract_metadata (schematic : Node) : M unit :=
  if safe_check schematic "Metadata" then
    emit (nl ++ "Metadata:") ;;
    set_result "metadata" (VDict []) ;;
    metadata <- lift (Py.getitem schematic "Metadata") ;;
    items <- lift (Py.items metadata) ;;
    for_each items metadata_entry
  else ret tt.

(** Lines 301-316: the body of the loop over the WorldEdit metadata. *)
Definition worldedit_entry (entry : string * Node) : M unit :=
  let key := fst entry in
  let value := snd entry in
  if String.eqb key "Origin" && Py.is_dict value then
    coord_str <- lift (format_coordinates value) ;;
    emit ("  " ++ key ++ ": " ++ coord_str) ;;
    set_result_in "worldedit_metadata" key (VStr coord_str)
  else if Py.is_dict value then describe_complex "worldedit_metadata" key value
  else
    emit ("  " ++ key ++ ": " ++ safe_to_string value) ;;
    set_result_in "worldedit_metadata" key (VStr (safe_to_string value)).

(** Lines 295-316 *)
Definition extract_worldedit_metadata (schematic : Node) : M unit :=
  if safe_check schematic "Metadata" then
    metadata <- lift (Py.getitem schematic "Metadata") ;;
    if safe_check metadata "WorldEdit" then
      emit (nl ++ "WorldEdit Metadata:") ;;
      set_result "worldedit_metadata" (VDict []) ;;
      metadata' <- lift (Py.getitem schematic "Metadata") ;;
      we_metadata <- lift (Py.getitem metadata' "WorldEdit") ;;
      items <- lift (Py.items we_metadata) ;;
      for_each items worldedit_entry
    else ret tt
  else ret tt.

(** Lines 321-332: the body of the residual scan; [additional_keys] is
    the local list it extends. *)
Definition residual_key (schematic : Node) (additional_keys : list string) (key : string)
    : M (list string) :=
  if negb (is_reserved key) then
    value <- lift (Py.getitem schematic key) ;;
    (if Py.is_dict value then
       emit ("  " ++ key ++ ": [complex object]") ;;
       try_except
         (ks <- lift (Py.keys value) ;; emit ("    Keys: " ++ String.concat ", " ks))
         (fun _ => ret tt)
     else emit ("  " ++ key ++ ": " ++ safe_to_string value)) ;;
    ret (additional_keys ++ [key])%list
  else ret additional_keys.

(** Lines 318-337 *)
Definition report_residuals (schematic : Node) : M unit :=
  emit (nl ++ "Additional NBT Data:") ;;
  ks <- lift (Py.keys schematic) ;;
  additional_keys <- fold_m (residual_key schematic) ks [] ;;
  match additional_keys with
  | [] => emit "  No additional NBT data found"
  | _ :: _ => set_result "additional_nbt_keys" (VList (map VStr additional_keys))
  end.

(** Lines 105-339: everything that follows a successful parse. *)
Definition extract (nbt_data : NbtFile) : M unit :=
  let schematic := root_of nbt_data in
  format_type <- lift (detect_format schematic) ;;
  emit ("Format: " ++ format_name format_type) ;;
  set_result "format" (VStr (format_name format_type)) ;;
  (match format_type with
   | litematica => extract_regions schematic
   | _ => extract_dimensions schematic
   end) ;;
  extract_block_stats format_type schematic ;;
  extract_metadata schematic ;;
  extract_worldedit_metadata schematic ;;
  report_residuals schematic ;;
  emit (nl ++ "=== End of analysis ===").

(** The body of the outer [try] block; the flag tells whether control
    reaches the end of the block ([true]) or an inner handler returned
    from the function ([false]). *)
Definition analysis_body (env : FileEnv) : M bool :=
  nbt <- load env ;;
  match nbt with
  | None => ret false
  | Some nbt_data => extract nbt_data ;; ret true
  end.

(** Lines 341-346: the outer handler. *)
Definition on_error (e : exn) (st : State) : State :=
  let error_msg := "Error analyzing file: " ++ exn_str e in
  mkState (Dict.set "error" (VStr error_msg) (result st))
          (output st ++ [error_msg; format_exc e]).

(** [analyze_schematic] (lines 48-353).  The file is taken to exist, so
    that the two calls of [os.path.getsize] before the [try] block
    return.  [logged] is the text that lines 349-351 append to the log
    file, which is taken to open for appending: [if output_file:] is
    false without a name and for the empty name. *)
Definition analyze_schematic (env : FileEnv) : Analysis :=
  let run :=
    match analysis_body env (initial_state env) with
    | (Returns reached_end, st) => (reached_end, st)
    | (Raises e, st) => (true, on_error e st)
    end in
  let st := snd run in
  mkAnalysis (result st) (output st)
    (if fst run then
       option_map (fun _ => String.concat nl (output st) ++ nl ++ nl)
         (truthy_name (output_file env))
     else None).

(** ** The statements' vocabulary

    Functions that word the expected results over the fields of a
    compound, as the specification does. *)

(** An axis of a coordinate compound: its string form, or ["?"] when the
    axis is absent. *)
Definition axis_text (fields : list (string * Node)) (axis : string) : string :=
  match Dict.get axis fields with
  | Some v => py_str v
  | None => "?"
  end.

Definition coordinates_text (fields : list (string * Node)) : string :=
  axis_text fields "x" ++ " x " ++ axis_text fields "y" ++ " x " ++ axis_text fields "z".

(** A dimension: the capitalised key first, then the lower-case key,
    then [0]. *)
Definition dim_value (fields : list (string * Node)) (upper lower : string) : Node :=
  match Dict.get upper fields with
  | Some v => v
  | None =>
      match Dict.get lower fields with
      | Some v => v
      | None => TagInt 0
      end
  end.

(** The volume of three integer dimensions: [0] as soon as one of them
    is [0], the product otherwise. *)
Definition volume_of_ints (w h l : Z) : Z :=
  if (w =? 0) || (h =? 0) || (l =? 0) then 0 else w * h * l.

(** The state after the dimensions of a root were recorded with a given
    volume. *)
Definition dimensions_state (fields : list (string * Node)) (st : State)
    (total_volume : Node) : State :=
  let width := dim_value fields "Width" "width" in
  let height := dim_value fields "Height" "height" in
  let length := dim_value fields "Length" "length" in
  mkState
    (Dict.set "dimensions"
       (VDict [("width", VTag width); ("height", VTag height);
               ("length", VTag length); ("total_volume", VTag total_volume)])
       (result st))
    (output st
     ++ ["Dimensions: " ++ py_str width ++ " x " ++ py_str height ++ " x " ++ py_str length;
         "Total volume: " ++ py_str total_volume ++ " blocks"]).

(** The root keys outside the reserved set, in the order of the root. *)
Definition residual_keys_of (fields : list (string * Node)) : list string :=
  filter (fun key => negb (is_reserved key)) (Dict.keys fields).

(** The keys that the union of the specification accounts for: the
    consumed keys of the variant that the root has, the residual keys,
    and [Metadata] when the root has it. *)
Definition accounted_keys (f : Format) (fields : list (string * Node)) : list string :=
  (filter (fun key => Dict.mem key fields) (consumed_keys f)
   ++ residual_keys_of fields
   ++ (if Dict.mem "Metadata" fields then ["Metadata"] else []))%list.

Definition key_in (key : string) (keys : list string) : bool :=
  existsb (String.eqb key) keys.

(** The block count of the classic variant as the specification words
    it: the element count of an array, else the length of a value that
    has one, else ["unknown"]. *)
Definition spec_total_blocks (blocks : Node) : Value :=
  match blocks with
  | TagByteArray l | TagIntArray l | TagLongArray l => VInt (Z.of_nat (List.length l))
  | TagList items => VInt (Z.of_nat (List.length items))
  | TagCompound fields => VInt (Z.of_nat (List.length fields))
  | TagString s => VInt (Z.of_nat (String.length s))
  | TagInt _ | TagFloat _ => VStr "unknown"
  end.

(** The length of a root value, when the key is present and its value
    has a length. *)
Definition length_at (fields : list (string * Node)) (key : string) : option Z :=
  match Dict.get key fields with
  | Some (TagByteArray l) | Some (TagIntArray l) | Some (TagLongArray l) =>
      Some (Z.of_nat (List.length l))
  | Some (TagList items) => Some (Z.of_nat (List.length items))
  | Some (TagCompound inner) => Some (Z.of_nat (List.length inner))
  | Some (TagString s) => Some (Z.of_nat (String.length s))
  | Some (TagInt _) | Some (TagFloat _) | None => None
  end.

(** [result] after an optional length was recorded under [result_key]. *)
Definition with_length (fields : list (string * Node)) (key result_key : string)
    (r : Dict.t Value) : Dict.t Value :=
  match length_at fields key with
  | Some n => Dict.set result_key (VInt n) r
  | None => r
  end.

(** A field of a region that is absent or of the kind the extraction
    expects. *)
Definition compound_or_absent (fields : list (string * Node)) (key : string) : Prop :=
  match Dict.get key fields with
  | Some (TagCompound _) | None => True
  | Some _ => False
  end.

Definition list_or_absent (fields : list (string * Node)) (key : string) : Prop :=
  match Dict.get key fields with
  | Some (TagList _) | None => True
  | Some _ => False
  end.

(** The rendering of a coordinate field of a region. *)
Definition region_coordinates (fields : list (string * Node)) (key : string) : option Value :=
  match Dict.get key fields with
  | Some (TagCompound c) => Some (VStr (coordinates_text c))
  | _ => None
  end.

(** The count recorded for a list field of a region. *)
Definition region_list_count (fields : list (string * Node)) (key : string) : option Value :=
  match Dict.get key fields with
  | Some (TagList (item :: rest)) => Some (VInt (Z.of_nat (List.length (item :: rest))))
  | _ => None
  end.

(** [region_info] with an optional entry. *)
Definition with_entry (key : string) (v : option Value) (info : Dict.t Value) : Dict.t Value :=
  match v with
  | Some x => Dict.set key x info
  | None => info
  end.

(** The record of a region whose fields have the expected kinds. *)
Definition region_record (fields : list (string * Node)) : Dict.t Value :=
  with_entry "entities_count" (region_list_count fields "Entities")
    (with_entry "block_entities_count" (region_list_count fields "BlockEntities")
       (with_entry "position" (region_coordinates fields "Position")
          (with_entry "size" (region_coordinates fields "Size") []))).

Definition line_of (render : string -> string) (v : option Value) : list string :=
  match v with
  | Some x => [render (value_str x)]
  | None => []
  end.

(** The report lines of that region. *)
Definition region_lines (fields : list (string * Node)) : list string :=
  let size := line_of (fun s => "    Size: " ++ s) (region_coordinates fields "Size") in
  let position :=
    line_of (fun s => "    Position: (" ++ s ++ ")") (region_coordinates fields "Position") in
  let block_entities :=
    line_of (fun s => "    Block Entities: " ++ s) (region_list_count fields "BlockEntities") in
  let entities :=
    line_of (fun s => "    Entities: " ++ s) (region_list_count fields "Entities") in
  (size ++ position ++ block_entities ++ entities)%list.

(** A region of the expected shape: a compound whose coordinate fields
    are compounds and whose entity fields are lists, when present. *)
Definition well_kinded_region (region : Node) : Prop :=
  exists fields,
    region = TagCompound fields
    /\ compound_or_absent fields "Size" /\ compound_or_absent fields "Position"
    /\ list_or_absent fields "BlockEntities" /\ list_or_absent fields "Entities".

Definition region_fields (region : Node) : list (string * Node) :=
  match region with
  | TagCompound fields => fields
  | _ => []
  end.

(** The regions mapping: one record per region, in the order of the
    Regions compound, on top of the records [acc] already there. *)
Definition regions_record (regions : list (string * Node)) (acc : Dict.t Value)
    : Dict.t Value :=
  fold_left
    (fun records item =>
       Dict.set (fst item) (VDict (region_record (region_fields (snd item)))) records)
    regions acc.

Definition regions_lines (regions : list (string * Node)) : list string :=
  flat_map
    (fun item => ("  - " ++ fst item ++ ":") :: region_lines (region_fields (snd item)))
    regions.

(** The report line of an optional length. *)
Definition length_line (fields : list (string * Node)) (key start stop : string) : list string :=
  match length_at fields key with
  | Some n => [start ++ Py.str_int n ++ stop]
  | None => []
  end.

(** The report lines of one residual key. *)
Definition residual_line (fields : list (string * Node)) (key : string) : list string :=
  match Dict.get key fields with
  | Some (TagCompound inner) =>
      ["  " ++ key ++ ": [complex object]";
       "    Keys: " ++ String.concat ", " (Dict.keys inner)]
  | Some v => ["  " ++ key ++ ": " ++ py_str v]
  | None => []
  end.

(** [result] after the residual scan. *)
Definition with_additional_keys (fields : list (string * Node)) (r : Dict.t Value)
    : Dict.t Value :=
  match residual_keys_of fields with
  | [] => r
  | key :: rest => Dict.set "additional_nbt_keys" (VList (map VStr (key :: rest))) r
  end.

(** The report lines of the residual scan. *)
Definition residual_lines (fields : list (string * Node)) : list string :=
  (nl ++ "Additional NBT Data:")
  :: (flat_map (residual_line fields) (residual_keys_of fields)
      ++ match residual_keys_of fields with
         | [] => ["  No additional NBT data found"]
         | _ :: _ => []
         end)%list.

(** The result and the report of an analysis that stops at the parser. *)
Definition parse_error_result (env : FileEnv) (is_gz : bool) (file_data : list byte)
    (e : exn) : Dict.t Value :=
  let identity :=
    [("file_name", VStr (basename env));
     ("file_path", VStr (path_str env));
     ("file_size", VInt (getsize env));
     ("analysis_time", VStr (now env));
     ("compression", VStr (compression_name is_gz))] in
  let size :=
    if is_gz then [("decompressed_size", VInt (Z.of_nat (List.length file_data)))]
    else [] in
  let error := [("error", VStr ("Error parsing NBT data: " ++ exn_str e))] in
  (identity ++ size ++ error)%list.

Definition parse_error_report (env : FileEnv) (is_gz : bool) (file_data : list byte)
    (e : exn) : list string :=
  let compression := ["File compression: " ++ compression_name is_gz] in
  let size :=
    if is_gz
    then ["Decompressed size: " ++ Py.str_int (Z.of_nat (List.length file_data)) ++ " bytes"]
    else [] in
  let error := ["Error parsing NBT data: " ++ exn_str e] in
  (output (initial_state env) ++ compression ++ size ++ error)%list.

(** A computation that leaves the entry [key] of [result] as it is. *)
Definition keeps (key : string) {A : Type} (m : M A) : Prop :=
  forall st, Dict.get key (result (snd (m st))) = Dict.get key (result st).

(** The steps of [extract] that precede the residual scan. *)
Definition extract_before_residuals (schematic : Node) : M unit :=
  format_type <- lift (detect_format schematic) ;;
  emit ("Format: " ++ format_name format_type) ;;
  set_result "format" (VStr (format_name format_type)) ;;
  (match format_type with
   | litematica => extract_regions schematic
   | _ => extract_dimensions schematic
   end) ;;
  extract_block_stats format_type schematic ;;
  extract_metadata schematic ;;
  extract_worldedit_metadata schematic.

(** Whether a string holds a space; the separator of a rendering does. *)
Fixpoint has_space (s : string) : bool :=
  match s with
  | EmptyString => false
  | String c rest => Ascii.eqb c " "%char || has_space rest
  end.

(** The result and the report of an analysis that stops at gzip. *)
Definition gzip_error_result (env : FileEnv) (e : exn) : Dict.t Value :=
  [("file_name", VStr (basename env));
   ("file_path", VStr (path_str env));
   ("file_size", VInt (getsize env));
   ("analysis_time", VStr (now env));
   ("compression", VStr "gzipped");
   ("error", VStr ("Error decompressing file: " ++ exn_str e))].

Definition gzip_error_report (env : FileEnv) (e : exn) : list string :=
  let lines := ["File compression: gzipped"; "Error decompressing file: " ++ exn_str e] in
  (output (initial_state env) ++ lines)%list.

(** The steps of [extract] that follow the record of the format. *)
Definition extract_after_format (format_type : Format) (schematic : Node) : M unit :=
  (match format_type with
   | litematica => extract_regions schematic
   | _ => extract_dimensions schematic
   end) ;;
  extract_block_stats format_type schematic ;;
  extract_metadata schematic ;;
  extract_worldedit_metadata schematic ;;
  report_residuals schematic ;;
  emit (nl ++ "=== End of analysis ===").

(** The key of [result] that the first of these steps writes. *)
Definition branch_key (format_type : Format) : string :=
  match format_type with
  | litematica => "regions"
  | _ => "dimensions"
  end.

(** The keys of [result] that the later steps write. *)
Definition later_keys : list string :=
  ["block_stats"; "block_data_size"; "tile_entities_count"; "entities_count";
   "metadata"; "worldedit_metadata"; "additional_nbt_keys"].

(** The rendering of a coordinate compound by [format_coordinates]. *)
Definition coordinates_or_unknown (c : list (string * Node)) : string :=
  match c with
  | [] => "unknown"
  | _ :: _ => coordinates_text c
  end.

(** The value that the metadata pass records for an entry other than
    WorldEdit. *)
Definition metadata_value (key : string) (value : Node) : Value :=
  match value with
  | TagCompound c =>
      if String.eqb key "EnclosingSize" then VStr (coordinates_or_unknown c)
      else if String.eqb key "TimeCreated" || String.eqb key "TimeModified"
      then VStr (format_timestamp value)
      else VDict [("keys", VList (map VStr (Dict.keys c)))]
  | _ =>
      if String.eqb key "TimeCreated" || String.eqb key "TimeModified"
      then VStr (format_timestamp value)
      else VStr (py_str value)
  end.

(** The metadata mapping: the entries in the order of the Metadata
    compound, WorldEdit left out, on top of the entries [acc]. *)
Definition metadata_record (items : list (string * Node)) (acc : Dict.t Value)
    : Dict.t Value :=
  fold_left
    (fun records item =>
       if String.eqb (fst item) "WorldEdit" then records
       else Dict.set (fst item) (metadata_value (fst item) (snd item)) records)
    items acc.

(** The value that the WorldEdit pass records for an entry. *)
Definition worldedit_value (key : string) (value : Node) : Value :=
  match value with
  | TagCompound c =>
      if String.eqb key "Origin" then VStr (coordinates_or_unknown c)
      else VDict [("keys", VList (map VStr (Dict.keys c)))]
  | _ => VStr (py_str value)
  end.

Definition worldedit_record (items : list (string * Node)) (acc : Dict.t Value)
    : Dict.t Value :=
  fold_left
    (fun records item => Dict.set (fst item) (worldedit_value (fst item) (snd item)) records)
    items acc.

(** An entry of the block list of the palette. *)
Definition block_type (entry : string * Node) : Value :=
  VDict [("name", VStr (fst entry)); ("id", VTag (snd entry))].

Definition block_type_line (entry : string * Node) : string :=
  "  - " ++ fst entry ++ " (ID: " ++ py_str (snd entry) ++ ")".

(** The block statistics of a palette with [n] entries and the listed
    [blocks]. *)
Definition palette_stats (n : Z) (blocks : list Value) : Value :=
  VDict [("total_block_types", VInt n); ("blocks", VList blocks)].

(** ** The callers in the analysis *)

(** A call of [analyze_schematic] by a caller: the log entry it appends
    and the analysis it returns. *)
Definition analyze_file (w : World) (path : string) (output_file : option string)
    : list Effect * Analysis :=
  let a := analyze_schematic (with_output (file_env w path) output_file) in
  (match logged a, output_file with
   | Some text, Some log_file => [Append log_file text]
   | _, _ => []
   end, a).

(** Lines 373-377: the body of the loop over the files; the pair is what
    was done so far and the list [results]. *)
Definition process_file (w : World) (output_file : option string)
    (acc : list Effect * list (Dict.t Value)) (f : DirEntry)
    : list Effect * list (Dict.t Value) :=
  let run := analyze_file w (entry_path f) output_file in
  ((fst acc ++ fst run ++ [Print (report_text (snd run))])%list,
   (snd acc ++ [analysis_result (snd run)])%list).

(** Lines 379-387: the results are written as JSON when a name is
    given; a failure to open the file, or of the serialiser, is caught
    by the handler of [process_directory]. *)
Definition dump_results (w : World) (results : list (Dict.t Value))
    (json_output : option string) : list Effect :=
  match truthy_name json_output with
  | None => []
  | Some json_file =>
      match open_write w json_file with
      | Some e =>
          [Print ("Error processing directory: " ++ exn_str e); Print (format_exc e)]
      | None =>
          Truncate json_file :: Append json_file (fst (json_dump w results)) ::
          match snd (json_dump w results) with
          | None => [Print ("JSON data written to " ++ json_file)]
          | Some e =>
              [Print ("Error processing directory: " ++ exn_str e); Print (format_exc e)]
          end
      end
  end.

(** [process_directory] (lines 355-387) *)
Definition process_directory (w : World) (dir_path : string)
    (output_file json_output : option string) : list Effect :=
  if negb (path_exists w dir_path) || negb (is_dir w dir_path) then
    [Print ("Directory not found: " ++ path_text w dir_path)]
  else
    let files := filter is_supported (iterdir w dir_path) in
    match files with
    | [] => [Print ("No supported files found in " ++ path_text w dir_path)]
    | _ :: _ =>
        let found :=
          Print ("Found " ++ Py.str_int (Z.of_nat (List.length files))
                 ++ " supported files in " ++ path_text w dir_path) in
        let loop := fold_left (process_file w output_file) files ([], []) in
        (found :: fst loop ++ dump_results w (snd loop) json_output)%list
    end.

(** Line 424: the exception of opening the log file, when it has a
    name and cannot be opened for writing. *)
Definition log_failure (w : World) (log_file : string) : option exn :=
  match truthy_name (Some log_file) with
  | Some name => open_write w name
  | None => None
  end.

(** [main] (lines 389-443).  The two calls of [open(..., 'w')] of [main]
    (lines 424 and 439) are outside any [try]: their exception leaves
    [main]. *)
Definition main (w : World) (argv : list string) : list Effect * Status :=
  match argv with
  | [] | [_] => (usage, Exited 1)
  | _ :: file_path :: options =>
      let log_file := log_name w options in
      let json_file := json_name w options in
      match log_failure w log_file with
      | Some e => ([], Crashed e)
      | None =>
          let header := log_header w argv log_file in
          if is_dir w file_path then
            ((header ++ process_directory w file_path (Some log_file) json_file)%list,
             Finished)
          else if is_file w file_path then
            let run := analyze_file w file_path (Some log_file) in
            let shown := (header ++ fst run ++ [Print (report_text (snd run))])%list in
            match truthy_name json_file with
            | None => (shown, Finished)
            | Some name =>
                match open_write w name with
                | Some e => (shown, Crashed e)
                | None =>
                    let dump := json_dump w [analysis_result (snd run)] in
                    let written :=
                      (shown ++ [Truncate name; Append name (fst dump)])%list in
                    match snd dump with
                    | None =>
                        ((written ++ [Print ("JSON data written to " ++ name)])%list,
                         Finished)
                    | Some e => (written, Crashed e)
                    end
                end
            end
          else
            ((header ++ [Print ("File or directory not found: " ++ file_path)])%list,
             Finished)
      end
  end.



Definition file_effects (w : World) (output_file : option string) (f : DirEntry)
    : list Effect :=
  let run := analyze_file w (entry_path f) output_file in
  (fst run ++ [Print (report_text (snd run))])%list.

(** The entries of the fresh result (lines 59-64) and the keys that the
    analysis writes afterwards. *)
Definition identification_keys : list string :=
  ["file_name"; "file_path"; "file_size"; "analysis_time"].

Definition written_keys : list string :=
  ["compression"; "decompressed_size"; "error"; "format"; "regions"; "dimensions";
   "block_stats"; "block_data_size"; "tile_entities_count"; "entities_count";
   "metadata"; "worldedit_metadata"; "additional_nbt_keys"].

(** A computation that only adds lines at the end of the report. *)
Definition extends {A : Type} (m : M A) : Prop :=
  forall st, exists lines, output (snd (m st)) = (output st ++ lines)%list.

(** The value of a field of a region; a region that is not a compound
    has no fields. *)
Definition region_value (region : Node) (key : string) : option Node :=
  match region with
  | TagCompound fields => Dict.get key fields
  | _ => None
  end.

(** [entry] is the count entry of the field [key] of a region: it is
    there exactly when the field exists and is true as a condition, and
    its value is then the length of the field.  For a list this reads:
    there exactly when the list is not empty, with the number of its
    elements; an absent field leaves no entry. *)
Definition counted (region : Node) (key : string) (entry : option Value) : Prop :=
  (entry <> None <-> exists v, region_value region key = Some v /\ Py.truth v = true)
  /\ (forall v, region_value region key = Some v -> Py.truth v = true ->
        exists n, Py.len v = Returns n /\ entry = Some (VInt n))
  /\ (forall items, region_value region key = Some (TagList items) ->
        entry = match items with
                | [] => None
                | _ :: _ => Some (VInt (Z.of_nat (List.length items)))
                end)
  /\ (region_value region key = None -> entry = None).

(** Lines 138-168: the body of the loop of [extract_regions]. *)
Definition record_region (item : string * Node) : M unit :=
  emit ("  - " ++ fst item ++ ":") ;;
  region_info <- extract_region (snd item) ;;
  set_result_in "regions" (fst item) (VDict region_info).

(** The steps of [extract] that follow the walk over the regions. *)
Definition after_regions (schematic : Node) : M unit :=
  extract_block_stats litematica schematic ;;
  extract_metadata schematic ;;
  extract_worldedit_metadata schematic ;;
  report_residuals schematic ;;
  emit (nl ++ "=== End of analysis ===").

(** [entry] is the record of a region called [name] among [regions]. *)
Definition recorded_region (regions : list (string * Node)) (name : string)
    (entry : Value) : Prop :=
  exists region record,
    In (name, region) regions /\ entry = VDict record
    /\ counted region "BlockEntities" (Dict.get "block_entities_count" record)
    /\ counted region "Entities" (Dict.get "entities_count" record)
    /\ (forall c, region_value region "Size" = Some (TagCompound c) ->
          Dict.get "size" record = Some (VStr (coordinates_text c))).

(** ** Dictionaries *)

Lemma get_set_same {V : Type} (key : string) (v : V) (d : Dict.t V) :
  Dict.get key (Dict.set key v d) = Some v.
Proof.
  induction d as [|[k x] rest IH]; simpl.
  - now rewrite String.eqb_refl.
  - destruct (String.eqb key k) eqn:E; simpl.
    + now rewrite String.eqb_refl.
    + now rewrite E.
Qed.

Lemma set_then_mem {V : Type} (key : string) (v : V) (d : Dict.t V) :
  Dict.mem key (Dict.set key v d) = true.
Proof. unfold Dict.mem. now rewrite get_set_same. Qed.

Lemma get_set_other {V : Type} (key k : string) (v : V) (d : Dict.t V) :
  String.eqb key k = false ->
  Dict.get key (Dict.set k v d) = Dict.get key d.
Proof.
  intros Hne.
  induction d as [|[k' x] rest IH]; simpl.
  - now rewrite Hne.
  - destruct (String.eqb k k') eqn:E; simpl.
    + apply String.eqb_eq in E. subst k'. now rewrite Hne.
    + destruct (String.eqb key k'); [reflexivity | exact IH].
Qed.

Lemma set_set_same {V : Type} (key : string) (v w : V) (d : Dict.t V) :
  Dict.set key w (Dict.set key v d) = Dict.set key w d.
Proof.
  induction d as [|[k x] rest IH]; simpl.
  - now rewrite String.eqb_refl.
  - destruct (String.eqb key k) eqn:E; simpl.
    + now rewrite String.eqb_refl.
    + now rewrite E, IH.
Qed.

Lemma set_known {V : Type} (key : string) (v : V) (d : Dict.t V) :
  Dict.get key d = Some v -> Dict.set key v d = d.
Proof.
  induction d as [|[k x] rest IH]; simpl; [discriminate|].
  destruct (String.eqb key k) eqn:E.
  - intros H. inversion H. apply String.eqb_eq in E. now subst.
  - intros H. now rewrite IH.
Qed.

(** ** Format detection *)

Lemma mem_present (key : string) (fields : list (string * Node)) :
  Dict.mem key fields = DetectorSpec.present key fields.
Proof.
  unfold Dict.mem.
  induction fields as [|[k v] rest IH]; simpl; [reflexivity|].
  destruct (String.eqb key k); [reflexivity | exact IH].
Qed.

Lemma safe_check_compound (fields : list (string * Node)) (key : string) :
  safe_check (TagCompound fields) key = DetectorSpec.present key fields.
Proof. unfold safe_check; simpl. apply mem_present. Qed.

Lemma nested_palette_probe_compound (fields : list (string * Node)) :
  nested_palette_probe (TagCompound fields) = Returns (DetectorSpec.probe2 fields).
Proof.
  unfold nested_palette_probe, DetectorSpec.probe2, safe_check at 1.
  simpl. unfold Dict.mem.
  destruct (Dict.get "Blocks" fields) as [b|]; simpl; [|reflexivity].
  destruct b; simpl; try reflexivity.
  f_equal. apply safe_check_compound.
Qed.

Lemma detect_format_compound (fields : list (string * Node)) :
  detect_format (TagCompound fields) = Returns (DetectorSpec.first_match fields).
Proof.
  unfold detect_format, DetectorSpec.first_match.
  rewrite nested_palette_probe_compound, !safe_check_compound.
  unfold DetectorSpec.probe1, DetectorSpec.probe3, DetectorSpec.probe4, DetectorSpec.probe5.
  destruct (DetectorSpec.present "Palette" fields && DetectorSpec.present "BlockData" fields);
    [reflexivity|].
  simpl. destruct (DetectorSpec.probe2 fields); [reflexivity|].
  destruct (DetectorSpec.present "BlockData" fields || DetectorSpec.present "blocks" fields);
    [reflexivity|].
  destruct (DetectorSpec.present "Blocks" fields && DetectorSpec.present "Data" fields);
    [reflexivity|].
  destruct (DetectorSpec.present "Regions" fields); reflexivity.
Qed.

(** C1.  On every root compound the detector returns, without raising,
    the variant of the first probe that matches, in the order Palette
    and BlockData, Blocks as a compound holding Palette, BlockData or
    lower-case blocks, Blocks and Data, Regions, and unknown when none
    matches.  It yields exactly one variant, and the first two probes
    win over the third whatever the third finds. *)
Theorem detect_format_first_match (fields : list (string * Node)) :
  detect_format (TagCompound fields) = Returns (DetectorSpec.first_match fields)
  /\ (exists! f, detect_format (TagCompound fields) = Returns f)
  /\ (DetectorSpec.probe1 fields = true ->
      detect_format (TagCompound fields) = Returns modern_worldedit)
  /\ (DetectorSpec.probe1 fields = false -> DetectorSpec.probe2 fields = true ->
      detect_format (TagCompound fields) = Returns modern_worldedit_nested)
  /\ (DetectorSpec.probe1 fields = false -> DetectorSpec.probe2 fields = false ->
      DetectorSpec.probe3 fields = true ->
      detect_format (TagCompound fields) = Returns modern_alternate).
Proof.
  rewrite detect_format_compound.
  split; [reflexivity|].
  split.
  - exists (DetectorSpec.first_match fields). split; [reflexivity|].
    intros f Hf. now inversion Hf.
  - unfold DetectorSpec.first_match.
    repeat split; intros; repeat match goal with H : _ = _ |- _ => rewrite H end; reflexivity.
Qed.

(** ** The coordinate formatter *)

Lemma safe_to_string_str (value : Node) : safe_to_string value = py_str value.
Proof. unfold safe_to_string. destruct (Py.is_number value); reflexivity. Qed.

Lemma format_coordinates_compound (f : string * Node) (rest : list (string * Node)) :
  format_coordinates (TagCompound (f :: rest)) = Returns (coordinates_text (f :: rest)).
Proof.
  unfold format_coordinates, coordinates_text, axis_text, Py.get, Py.get_opt.
  cbn [Py.truth Py.is_dict obind List.length Nat.eqb negb orb].
  rewrite !safe_to_string_str.
  destruct (Dict.get "x" (f :: rest)), (Dict.get "y" (f :: rest)), (Dict.get "z" (f :: rest));
    reflexivity.
Qed.

Lemma has_space_append (a b : string) :
  has_space (a ++ b) = has_space a || has_space b.
Proof.
  induction a as [|c a IH]; simpl; [reflexivity|].
  now rewrite IH, orb_assoc.
Qed.

Lemma rendering_is_not_unknown (fields : list (string * Node)) :
  coordinates_text fields <> "unknown".
Proof.
  intros E. apply (f_equal has_space) in E.
  unfold coordinates_text in E. rewrite has_space_append in E.
  simpl in E. rewrite orb_true_r in E. discriminate.
Qed.

(** C4, as amended.  On a non-empty compound the formatter never raises
    and joins the three axes with [" x "]; an absent axis is rendered
    ["?"], independently of the other axes, and an axis that is present
    is rendered by its string form whatever its kind, an integer in
    decimal.  The compound with x = 1 and z = 3 is rendered
    ["1 x ? x 3"]. *)
Theorem format_coordinates_axes (fields : list (string * Node)) :
  fields <> [] ->
  format_coordinates (TagCompound fields)
    = Returns (axis_text fields "x" ++ " x " ++ axis_text fields "y" ++ " x " ++ axis_text fields "z")
  /\ (forall axis, Dict.get axis fields = None -> axis_text fields axis = "?")
  /\ (forall axis v, Dict.get axis fields = Some v -> axis_text fields axis = py_str v)
  /\ (forall z, py_str (TagInt z) = Py.str_int z)
  /\ format_coordinates (TagCompound Sample.coords_x1_z3) = Returns "1 x ? x 3".
Proof.
  intros Hne. destruct fields as [|f rest]; [contradiction|].
  split; [apply format_coordinates_compound|].
  unfold axis_text.
  repeat split.
  - intros axis H. now rewrite H.
  - intros axis v H. now rewrite H.
Qed.

(** C9.  The formatter returns ["unknown"] for every input that is
    false (an empty compound among them) and for every input that is not
    a compound; only a non-empty compound is rendered axis by axis, and
    its rendering is never ["unknown"]. *)
Theorem format_coordinates_unknown (obj : Node) :
  Py.truth obj = false \/ Py.is_dict obj = false ->
  format_coordinates obj = Returns "unknown"
  /\ format_coordinates (TagCompound []) = Returns "unknown"
  /\ (forall f rest,
        format_coordinates (TagCompound (f :: rest))
        = Returns (coordinates_text (f :: rest))
        /\ coordinates_text (f :: rest) <> "unknown").
Proof.
  intros Hcase. split; [|split; [reflexivity|]].
  - unfold format_coordinates.
    destruct Hcase as [-> | ->]; [reflexivity | now rewrite orb_true_r].
  - intros f rest. split; [apply format_coordinates_compound|].
    apply rendering_is_not_unknown.
Qed.

(** ** Dimensions and volume *)

Lemma dimension_compound (fields : list (string * Node)) (upper lower : string) :
  dimension (TagCompound fields) upper lower = Returns (dim_value fields upper lower).
Proof.
  unfold dimension, dim_value, Py.get, Py.get_opt. simpl.
  destruct (Dict.get upper fields); reflexivity.
Qed.

Lemma total_volume_of_ints (w h l : Z) :
  total_volume_of (TagInt w) (TagInt h) (TagInt l) = Returns (TagInt (volume_of_ints w h l)).
Proof.
  unfold total_volume_of, volume_of_ints. simpl.
  destruct (w =? 0); simpl; [reflexivity|].
  destruct (h =? 0); simpl; [reflexivity|].
  destruct (l =? 0); reflexivity.
Qed.

(** A dimension that is false, zero or missing, gives the volume [0]
    whatever the other two are. *)
Lemma total_volume_of_zero (width height length : Node) :
  Py.truth width = false \/ Py.truth height = false \/ Py.truth length = false ->
  total_volume_of width height length = Returns (TagInt 0).
Proof.
  unfold total_volume_of.
  intros [-> | [-> | ->]]; rewrite ?andb_false_r; reflexivity.
Qed.

Lemma extract_dimensions_compound (fields : list (string * Node)) (st : State) (v : Node) :
  total_volume_of (dim_value fields "Width" "width") (dim_value fields "Height" "height")
    (dim_value fields "Length" "length") = Returns v ->
  extract_dimensions (TagCompound fields) st = (Returns tt, dimensions_state fields st v).
Proof.
  intros Hv. unfold extract_dimensions, dimensions_state, bind, lift, emit, set_result.
  rewrite !dimension_compound, Hv.
  cbn [result output]. now rewrite <- app_assoc.
Qed.

(** C2, as amended.  On a root compound each dimension is read from the
    capitalised key, else from the lower-case key, else is [0], without
    raising.  As soon as one dimension is zero or missing (or false in
    any other way) the extractor records the volume [0], whatever the
    other dimensions are.  When the three dimensions are integers it
    records [0] if one of them is zero and their product otherwise; that
    volume is not negative when no dimension is negative. *)
Theorem dimensions_and_volume (fields : list (string * Node)) (st : State) :
  let width := dim_value fields "Width" "width" in
  let height := dim_value fields "Height" "height" in
  let length := dim_value fields "Length" "length" in
  (forall upper lower,
     dimension (TagCompound fields) upper lower = Returns (dim_value fields upper lower))
  /\ (forall upper lower,
        Dict.get upper fields = None -> Dict.get lower fields = None ->
        dim_value fields upper lower = TagInt 0)
  /\ Py.truth (TagInt 0) = false
  /\ (Py.truth width = false \/ Py.truth height = false \/ Py.truth length = false ->
      extract_dimensions (TagCompound fields) st
      = (Returns tt, dimensions_state fields st (TagInt 0)))
  /\ (forall w h l,
        width = TagInt w -> height = TagInt h -> length = TagInt l ->
        extract_dimensions (TagCompound fields) st
        = (Returns tt, dimensions_state fields st (TagInt (volume_of_ints w h l)))
        /\ (w = 0 \/ h = 0 \/ l = 0 -> volume_of_ints w h l = 0)
        /\ (w <> 0 -> h <> 0 -> l <> 0 -> volume_of_ints w h l = w * h * l)
        /\ (0 <= w -> 0 <= h -> 0 <= l -> 0 <= volume_of_ints w h l)).
Proof.
  intros width height length.
  split; [intros; apply dimension_compound|].
  split; [intros upper lower Hu Hl; unfold dim_value; now rewrite Hu, Hl|].
  split; [reflexivity|].
  split.
  - intros Hzero. apply extract_dimensions_compound. now apply total_volume_of_zero.
  - intros w h l Hw Hh Hl. split.
    + apply extract_dimensions_compound.
      fold width height length. rewrite Hw, Hh, Hl. apply total_volume_of_ints.
    + unfold volume_of_ints. repeat split.
      * intros [-> | [-> | ->]]; simpl; rewrite ?orb_true_r; reflexivity.
      * intros Hw0 Hh0 Hl0.
        apply Z.eqb_neq in Hw0, Hh0, Hl0. now rewrite Hw0, Hh0, Hl0.
      * intros. destruct ((w =? 0) || (h =? 0) || (l =? 0)); [lia|].
        apply Z.mul_nonneg_nonneg; [apply Z.mul_nonneg_nonneg|]; assumption.
Qed.

(** ** Regions *)

Lemma coordinate_text_compound (c : list (string * Node)) :
  coordinate_text (TagCompound c) = Returns (coordinates_text c).
Proof.
  unfold coordinate_text, coordinates_text, axis_text, Py.get, Py.get_opt. simpl.
  destruct (Dict.get "x" c), (Dict.get "y" c), (Dict.get "z" c); reflexivity.
Qed.

Ltac run_step :=
  unfold bind, lift, emit, set_result, ret;
  repeat progress
    (cbn [result output fst snd obind Py.truth Py.len Py.has_len Py.getitem Py.contains
          Py.is_dict Py.keys Py.items
          List.length Nat.eqb negb andb orb app
          Dict.set Dict.get String.eqb Ascii.eqb Bool.eqb]).

Ltac tidy_output := rewrite <- ?app_assoc, ?app_nil_r; cbn [app].

Lemma extract_region_well_kinded (fields : list (string * Node)) (st : State) :
  compound_or_absent fields "Size" ->
  compound_or_absent fields "Position" ->
  list_or_absent fields "BlockEntities" ->
  list_or_absent fields "Entities" ->
  extract_region (TagCompound fields) st
    = (Returns (region_record fields),
       mkState (result st) (output st ++ region_lines fields))
  /\ Dict.get "size" (region_record fields) = region_coordinates fields "Size"
  /\ Dict.get "position" (region_record fields) = region_coordinates fields "Position"
  /\ Dict.get "block_entities_count" (region_record fields)
     = region_list_count fields "BlockEntities"
  /\ Dict.get "entities_count" (region_record fields) = region_list_count fields "Entities".
Proof.
  unfold compound_or_absent, list_or_absent, region_record, region_lines,
    region_coordinates, region_list_count, extract_region, region_count, safe_check.
  cbn [Py.contains Py.getitem]. unfold Dict.mem.
  intros HS HP HB HE. destruct st as [r o].
  destruct (Dict.get "Size" fields) as [[cs| | | | | | |]|]; try contradiction;
  destruct (Dict.get "Position" fields) as [[cp| | | | | | |]|]; try contradiction;
  destruct (Dict.get "BlockEntities" fields) as [[|[|b bs]| | | | | |]|]; try contradiction;
  destruct (Dict.get "Entities" fields) as [[|[|e es]| | | | | |]|]; try contradiction;
  clear HS HP HB HE;
  run_step; rewrite ?coordinate_text_compound; run_step;
  cbn [with_entry line_of value_str]; run_step; tidy_output;
  repeat split; reflexivity.
Qed.

Lemma for_each_region (regions : list (string * Node)) :
  forall (st : State) (acc : Dict.t Value),
    Forall (fun item => well_kinded_region (snd item)) regions ->
    Dict.get "regions" (result st) = Some (VDict acc) ->
    for_each regions (fun item =>
      emit ("  - " ++ fst item ++ ":") ;;
      region_info <- extract_region (snd item) ;;
      set_result_in "regions" (fst item) (VDict region_info)) st
    = (Returns tt,
       mkState (Dict.set "regions" (VDict (regions_record regions acc)) (result st))
               (output st ++ regions_lines regions)).
Proof.
  induction regions as [|[name region] rest IH]; intros st acc Hkinds Hget.
  - destruct st as [r o]. unfold for_each, ret, regions_record, regions_lines.
    cbn [fold_left flat_map result output] in *.
    now rewrite app_nil_r, set_known.
  - inversion Hkinds as [|item l Hitem Hrest]; subst.
    destruct Hitem as (fields & Heq & HS & HP & HB & HE).
    cbn [snd] in Heq. subst region.
    cbn [for_each fst snd]. unfold bind at 1 2 3. unfold emit at 1.
    destruct (extract_region_well_kinded fields
                (mkState (result st) (output st ++ ["  - " ++ name ++ ":"])) HS HP HB HE)
      as (Hrun & _).
    rewrite Hrun. unfold set_result_in. cbn [result output]. rewrite Hget.
    rewrite (IH _ (Dict.set name (VDict (region_record fields)) acc) Hrest)
      by (cbn [result]; apply get_set_same).
    cbn [result output regions_record regions_lines fold_left flat_map fst snd region_fields].
    rewrite set_set_same, <- !app_assoc. reflexivity.
Qed.

Lemma regions_record_keeps (regions : list (string * Node)) :
  forall (acc : Dict.t Value) (name : string),
    Dict.mem name acc = true -> Dict.mem name (regions_record regions acc) = true.
Proof.
  induction regions as [|[n region] rest IH]; intros acc name Hmem; [exact Hmem|].
  cbn [regions_record fold_left fst snd]. apply IH.
  unfold Dict.mem in *.
  destruct (String.eqb name n) eqn:E.
  - apply String.eqb_eq in E. subst n. now rewrite get_set_same.
  - now rewrite get_set_other.
Qed.

(** X1 (lines 131-168).  Every region of the expected shape yields its
    record: a litematica root whose regions are all well kinded gets one
    entry per region, in the order of the Regions compound, and no
    region is left out. *)
Theorem every_region_recorded (fields regions : list (string * Node)) (st : State) :
  Dict.get "Regions" fields = Some (TagCompound regions) ->
  Forall (fun item => well_kinded_region (snd item)) regions ->
  extract_regions (TagCompound fields) st
  = (Returns tt,
     mkState (Dict.set "regions" (VDict (regions_record regions [])) (result st))
             (output st ++ (nl ++ "Regions:") :: regions_lines regions))
  /\ (forall name, In name (Dict.keys regions) ->
        Dict.mem name (regions_record regions []) = true).
Proof.
  intros Hregions Hkinds. split.
  - unfold extract_regions. unfold bind at 1 2 3 4. unfold emit at 1, set_result, lift.
    cbn [result output Py.get Py.get_opt obind]. rewrite Hregions. cbn [Py.items].
    rewrite (for_each_region regions _ [] Hkinds) by (cbn [result]; apply get_set_same).
    cbn [result output]. rewrite set_set_same, <- app_assoc. reflexivity.
  - clear Hregions Hkinds. unfold Dict.keys.
    generalize (@nil (string * Value)).
    induction regions as [|[n region] rest IH]; intros acc name Hin; [contradiction|].
    cbn [regions_record fold_left fst snd map] in *.
    destruct Hin as [<- | Hin].
    + apply regions_record_keeps. unfold Dict.mem. now rewrite get_set_same.
    + now apply IH.
Qed.

(** ** Block statistics of the classic variant *)

Lemma total_blocks_of_spec (blocks : Node) :
  total_blocks_of blocks = spec_total_blocks blocks.
Proof.
  destruct blocks; unfold total_blocks_of; simpl; try reflexivity;
    now rewrite Z.mul_1_r.
Qed.

Lemma record_length_compound (fields : list (string * Node))
    (key start stop result_key : string) (st : State) :
  record_length (TagCompound fields) key start stop result_key st
    = (Returns tt,
       mkState (with_length fields key result_key (result st))
               (output st ++ length_line fields key start stop)).
Proof.
  unfold record_length, with_length, length_line, length_at, safe_check.
  cbn [Py.contains Py.getitem]. unfold Dict.mem. destruct st as [r o].
  destruct (Dict.get key fields) as [[]|]; run_step; tidy_output; reflexivity.
Qed.

Lemma classic_has_blocks (fields : list (string * Node)) :
  detect_format (TagCompound fields) = Returns classic_worldedit ->
  exists blocks, Dict.get "Blocks" fields = Some blocks.
Proof.
  rewrite detect_format_compound. unfold DetectorSpec.first_match.
  destruct (DetectorSpec.probe1 fields); [discriminate|].
  destruct (DetectorSpec.probe2 fields); [discriminate|].
  destruct (DetectorSpec.probe3 fields); [discriminate|].
  destruct (DetectorSpec.probe4 fields) eqn:H4;
    [|destruct (DetectorSpec.probe5 fields); discriminate].
  intros _. unfold DetectorSpec.probe4 in H4.
  apply andb_true_iff in H4 as [HB _].
  rewrite <- mem_present in HB. unfold Dict.mem in HB.
  destruct (Dict.get "Blocks" fields) as [b|]; [eauto | discriminate].
Qed.

(** C7.  On a root compound detected as the classic variant the
    block-statistics extractor returns without raising.  It records as
    [total_blocks] the element count of Blocks when Blocks is an array,
    else the length of Blocks when it has one, else ["unknown"]; and it
    records the lengths of Data, TileEntities and Entities, each one on
    its own, exactly when the value is present and has a length. *)
Theorem classic_block_stats (fields : list (string * Node)) (st : State) :
  detect_format (TagCompound fields) = Returns classic_worldedit ->
  exists blocks,
    Dict.get "Blocks" fields = Some blocks
    /\ total_blocks_of blocks = spec_total_blocks blocks
    /\ extract_block_stats classic_worldedit (TagCompound fields) st
       = (Returns tt,
          mkState
            (with_length fields "Entities" "entities_count"
               (with_length fields "TileEntities" "tile_entities_count"
                  (with_length fields "Data" "block_data_size"
                     (Dict.set "block_stats"
                        (VDict [("total_blocks", spec_total_blocks blocks)])
                        (result st)))))
            (output st
             ++ [nl ++ "Block data available (classic format)";
                 "Total blocks: " ++ value_str (spec_total_blocks blocks)]
             ++ length_line fields "Data" "Block data size: " " bytes"
             ++ length_line fields "TileEntities" "Tile entities: " ""
             ++ length_line fields "Entities" "Entities: " "")).
Proof.
  intros Hfmt. destruct (classic_has_blocks fields Hfmt) as [blocks Hb].
  exists blocks. split; [exact Hb|]. split; [apply total_blocks_of_spec|].
  unfold extract_block_stats, extract_classic, safe_check.
  cbn [Py.contains Py.getitem]. unfold Dict.mem. rewrite Hb.
  unfold bind at 1 2 3 4. unfold lift, emit at 1 2, set_result at 1.
  cbn [result output fst snd]. unfold bind.
  rewrite !record_length_compound, total_blocks_of_spec.
  cbn [result output]. now rewrite <- !app_assoc.
Qed.

(** ** The residual scan *)

Lemma residual_key_present (fields : list (string * Node)) (acc : list string)
    (key : string) (st : State) :
  Dict.mem key fields = true ->
  residual_key (TagCompound fields) acc key st
    = (Returns (acc ++ filter (fun k => negb (is_reserved k)) [key])%list,
       mkState (result st)
         (output st ++ flat_map (residual_line fields)
                         (filter (fun k => negb (is_reserved k)) [key]))).
Proof.
  unfold residual_key, Dict.mem. cbn [filter]. destruct st as [r o].
  destruct (is_reserved key); cbn [negb flat_map]; unfold residual_line.
  - intros _. unfold ret. now rewrite !app_nil_r.
  - cbn [Py.getitem].
    destruct (Dict.get key fields) as [v|]; [intros _ | discriminate].
    destruct v; unfold try_except; run_step;
      rewrite ?safe_to_string_str; tidy_output; reflexivity.
Qed.

Lemma fold_residual_keys (fields : list (string * Node)) (ks : list string) :
  forall (acc : list string) (st : State),
    (forall key, In key ks -> Dict.mem key fields = true) ->
    fold_m (residual_key (TagCompound fields)) ks acc st
      = (Returns (acc ++ filter (fun k => negb (is_reserved k)) ks)%list,
         mkState (result st)
           (output st ++ flat_map (residual_line fields)
                           (filter (fun k => negb (is_reserved k)) ks))).
Proof.
  induction ks as [|key rest IH]; intros acc st Hin.
  - destruct st. unfold fold_m, ret. cbn [filter flat_map]. now rewrite !app_nil_r.
  - cbn [fold_m]. unfold bind at 1.
    rewrite residual_key_present by (apply Hin; now left).
    rewrite IH by (intros k Hk; apply Hin; now right).
    cbn [result output].
    assert (filter (fun k => negb (is_reserved k)) (key :: rest)
            = (filter (fun k => negb (is_reserved k)) [key]
               ++ filter (fun k => negb (is_reserved k)) rest)%list) as ->
      by (simpl; destruct (negb (is_reserved key)); reflexivity).
    rewrite flat_map_app, <- !app_assoc. reflexivity.
Qed.

Lemma keys_are_members (fields : list (string * Node)) (key : string) :
  In key (Dict.keys fields) -> Dict.mem key fields = true.
Proof.
  unfold Dict.mem, Dict.keys.
  induction fields as [|[k v] rest IH]; simpl; [contradiction|].
  intros [-> | H].
  - now rewrite String.eqb_refl.
  - destruct (String.eqb key k); [reflexivity | now apply IH].
Qed.

Lemma report_residuals_compound (fields : list (string * Node)) (st : State) :
  report_residuals (TagCompound fields) st
    = (Returns tt,
       mkState (with_additional_keys fields (result st))
               (output st ++ residual_lines fields)).
Proof.
  unfold report_residuals, with_additional_keys, residual_lines.
  unfold bind at 1 2 3. unfold emit at 1, lift. cbn [Py.keys].
  rewrite fold_residual_keys by (intros; now apply keys_are_members).
  cbn [app result output]. fold (residual_keys_of fields).
  destruct (residual_keys_of fields) as [|k ks];
    unfold emit, set_result; cbn [result output flat_map];
    rewrite <- ?app_assoc, ?app_nil_r; reflexivity.
Qed.

Lemma residual_keys_spec (fields : list (string * Node)) (key : string) :
  In key (residual_keys_of fields) <->
  In key (Dict.keys fields) /\ is_reserved key = false.
Proof.
  unfold residual_keys_of. rewrite filter_In.
  destruct (is_reserved key); simpl; intuition congruence.
Qed.

Lemma is_reserved_spec (key : string) :
  is_reserved key = true <-> In key reserved_keys.
Proof.
  unfold is_reserved. rewrite existsb_exists. split.
  - intros (k & Hk & E). apply String.eqb_eq in E. now subst.
  - intros H. exists key. split; [exact H | apply String.eqb_refl].
Qed.

(** C3, as amended.  On every root compound the residual scan returns
    and records as additional keys exactly the root keys outside the
    reserved set, in the order of the root.  Every root key is either
    one of these or a reserved key: the reserved keys are left out of
    the list whether or not the extraction of the detected variant read
    them. *)
Theorem residual_keys_partition (fields : list (string * Node)) (st : State) :
  report_residuals (TagCompound fields) st
    = (Returns tt,
       mkState (with_additional_keys fields (result st))
               (output st ++ residual_lines fields))
  /\ (forall key rest, residual_keys_of fields = key :: rest ->
        Dict.get "additional_nbt_keys" (with_additional_keys fields (result st))
        = Some (VList (map VStr (residual_keys_of fields))))
  /\ (forall key, In key (residual_keys_of fields) <->
        In key (Dict.keys fields) /\ ~ In key reserved_keys)
  /\ (forall key, In key (Dict.keys fields) <->
        In key (residual_keys_of fields)
        \/ (In key reserved_keys /\ In key (Dict.keys fields))).
Proof.
  split; [apply report_residuals_compound|].
  split.
  - intros key rest E. unfold with_additional_keys. rewrite E.
    apply get_set_same.
  - split; intros key; rewrite residual_keys_spec, <- is_reserved_spec.
    + destruct (is_reserved key); intuition congruence.
    + destruct (is_reserved key); intuition congruence.
Qed.

(** ** Failure of the parser *)

(** C8.  When the file is read, the magic bytes are tested, the data is
    decompressed if needed, and the parser then rejects the data, the
    analysis returns the file-identity fields, the compression field
    (and the decompressed size of a gzipped file) and the error, with no
    [format] entry; the report ends with the line of the parse error, and
    nothing else is extracted. *)
Theorem parse_failure_aborts (env : FileEnv) (raw_data file_data : list byte)
    (is_gz : bool) (e : exn) :
  read env = Returns raw_data ->
  is_gzipped raw_data = Returns is_gz ->
  (if is_gz then gzip_decompress raw_data else Returns raw_data) = Returns file_data ->
  nbt_parse file_data = Raises e ->
  analyze_schematic env
    = mkAnalysis (parse_error_result env is_gz file_data e)
                 (parse_error_report env is_gz file_data e) None
  /\ Dict.mem "error" (analysis_result (analyze_schematic env)) = true
  /\ Dict.mem "format" (analysis_result (analyze_schematic env)) = false
  /\ Dict.mem "compression" (analysis_result (analyze_schematic env)) = true
  /\ Dict.mem "file_name" (analysis_result (analyze_schematic env)) = true
  /\ In ("Error parsing NBT data: " ++ exn_str e) (report_lines (analyze_schematic env)).
Proof.
  intros Hread Hgz Hdata Hparse.
  assert (analyze_schematic env
          = mkAnalysis (parse_error_result env is_gz file_data e)
                       (parse_error_report env is_gz file_data e) None) as Heq.
  { assert (analysis_body env (initial_state env)
            = (Returns false,
               mkState (parse_error_result env is_gz file_data e)
                       (parse_error_report env is_gz file_data e))) as Hbody.
    { unfold analysis_body, load, parse_error_result, parse_error_report.
      unfold bind at 1 2 3. unfold lift. rewrite Hread, Hgz.
      destruct is_gz.
      - rewrite Hdata. unfold bind, emit, set_result, ret, initial_state.
        cbn [result output fst snd]. rewrite Hparse.
        cbn [result output fst snd Dict.set String.eqb Ascii.eqb Bool.eqb app].
        rewrite <- ?app_assoc. reflexivity.
      - inversion Hdata; subst file_data.
        unfold bind, emit, set_result, ret, initial_state.
        cbn [result output fst snd]. rewrite Hparse.
        cbn [result output fst snd Dict.set String.eqb Ascii.eqb Bool.eqb app].
        rewrite <- ?app_assoc. reflexivity. }
    unfold analyze_schematic. rewrite Hbody. reflexivity. }
  rewrite Heq. split; [reflexivity|].
  cbn [analysis_result report_lines].
  unfold parse_error_result, parse_error_report.
  destruct is_gz; repeat split; try reflexivity;
    apply in_or_app; right; simpl; tauto.
Qed.

Lemma load_cases (env : FileEnv) :
  (exists nbt_data st, load env (initial_state env) = (Returns (Some nbt_data), st))
  \/ (exists st,
        load env (initial_state env) = (Returns None, st)
        /\ Dict.mem "error" (result st) = true
        /\ Dict.mem "format" (result st) = false
        /\ Dict.get "file_name" (result st) = Some (VStr (basename env)))
  \/ (exists e st,
        load env (initial_state env) = (Raises e, st)
        /\ Dict.mem "format" (result st) = false
        /\ Dict.get "file_name" (result st) = Some (VStr (basename env))).
Proof.
  unfold load, bind, lift, emit, set_result, ret, initial_state.
  destruct (read env) as [raw|e]; cbn [result output fst snd];
    [|right; right; do 2 eexists; repeat split].
  destruct (is_gzipped raw) as [[|]|e]; cbn [result output fst snd];
    [| |right; right; do 2 eexists; repeat split].
  - destruct (gzip_decompress raw) as [data|e]; cbn [result output fst snd].
    + destruct (nbt_parse data) as [nbt|e]; cbn [result output fst snd].
      * left. do 2 eexists. reflexivity.
      * right; left. eexists. repeat split.
    + right; left. eexists. repeat split.
  - destruct (nbt_parse raw) as [nbt|e]; cbn [result output fst snd].
    + left. do 2 eexists. reflexivity.
    + right; left. eexists. repeat split.
Qed.

(** X2 (lines 72-103, 341-346).  Whatever stops the analysis before a
    tree is decoded (the file cannot be read, it is too short for the
    magic test, gzip or the parser rejects the data), the result carries
    an error and no [format], and keeps the identity of the file. *)
Theorem load_failure_truncates (env : FileEnv) :
  (forall nbt_data st, load env (initial_state env) <> (Returns (Some nbt_data), st)) ->
  Dict.mem "error" (analysis_result (analyze_schematic env)) = true
  /\ Dict.mem "format" (analysis_result (analyze_schematic env)) = false
  /\ Dict.get "file_name" (analysis_result (analyze_schematic env))
     = Some (VStr (basename env)).
Proof.
  intros Hfail. unfold analyze_schematic, analysis_body.
  destruct (load_cases env)
    as [(nbt & st & Hload) | [(st & Hload & He & Hf & Hn) | (e & st & Hload & Hf & Hn)]].
  - exfalso. exact (Hfail nbt st Hload).
  - unfold bind. rewrite Hload. cbn [fst snd analysis_result]. auto.
  - unfold bind. rewrite Hload. cbn [fst snd analysis_result on_error result].
    rewrite set_then_mem. unfold Dict.mem in *.
    rewrite !get_set_other by reflexivity. auto.
Qed.

(** ** The residual scan inside the whole analysis

    No step before the residual scan writes [additional_nbt_keys], so an
    analysis that runs to its end returns what the scan recorded. *)

Lemma keeps_ret (key : string) {A : Type} (a : A) : keeps key (ret a).
Proof. intros st. reflexivity. Qed.

Lemma keeps_lift (key : string) {A : Type} (o : outcome A) : keeps key (lift o).
Proof. intros st. reflexivity. Qed.

Lemma keeps_emit (key line : string) : keeps key (emit line).
Proof. intros st. reflexivity. Qed.

Lemma keeps_set_result (key k : string) (v : Value) :
  String.eqb key k = false -> keeps key (set_result k v).
Proof. intros Hne st. unfold set_result. simpl. now apply get_set_other. Qed.

Lemma keeps_set_result_in (key outer inner : string) (v : Value) :
  String.eqb key outer = false -> keeps key (set_result_in outer inner v).
Proof.
  intros Hne st. unfold set_result_in.
  destruct (Dict.get outer (result st)) as [[]|]; simpl; try reflexivity.
  now apply get_set_other.
Qed.

Lemma keeps_bind (key : string) {A B : Type} (m : M A) (k : A -> M B) :
  keeps key m -> (forall a, keeps key (k a)) -> keeps key (bind m k).
Proof.
  intros Hm Hk st. unfold bind. specialize (Hm st).
  destruct (m st) as [[a|e] st']; simpl in *.
  - now rewrite Hk.
  - exact Hm.
Qed.

Lemma keeps_try_except (key : string) {A : Type} (body : M A) (handler : exn -> M A) :
  keeps key body -> (forall e, keeps key (handler e)) -> keeps key (try_except body handler).
Proof.
  intros Hb Hh st. unfold try_except. specialize (Hb st).
  destruct (body st) as [[a|e] st']; simpl in *.
  - exact Hb.
  - now rewrite Hh.
Qed.

Lemma keeps_for_each (key : string) {A : Type} (xs : list A) (body : A -> M unit) :
  (forall x, keeps key (body x)) -> keeps key (for_each xs body).
Proof.
  intros Hb. induction xs as [|x rest IH]; simpl.
  - apply keeps_ret.
  - apply keeps_bind; [apply Hb | intros _; exact IH].
Qed.

Lemma keeps_fold_m (key : string) {A B : Type} (body : B -> A -> M B) (xs : list A) :
  (forall acc x, keeps key (body acc x)) -> forall acc, keeps key (fold_m body xs acc).
Proof.
  intros Hb. induction xs as [|x rest IH]; intros acc; simpl.
  - apply keeps_ret.
  - apply keeps_bind; [apply Hb | intros acc'; apply IH].
Qed.

Ltac keeps_step :=
  first
    [ apply keeps_ret | apply keeps_lift | apply keeps_emit
    | apply keeps_set_result; reflexivity
    | apply keeps_set_result_in; reflexivity
    | apply keeps_bind; [|intros ?]
    | apply keeps_try_except; [|intros ?]
    | apply keeps_for_each; intros ?
    | apply keeps_fold_m; intros ? ?
    | match goal with
      | |- keeps _ (if ?c then _ else _) => destruct c
      | |- keeps _ (match ?x with _ => _ end) => destruct x
      end ].

Ltac keeps_all := repeat keeps_step.

Lemma keeps_extract_regions (schematic : Node) :
  keeps "additional_nbt_keys" (extract_regions schematic).
Proof. unfold extract_regions, extract_region, region_count. keeps_all. Qed.

Lemma keeps_extract_dimensions (schematic : Node) :
  keeps "additional_nbt_keys" (extract_dimensions schematic).
Proof. unfold extract_dimensions. keeps_all. Qed.

Lemma keeps_extract_block_stats (f : Format) (schematic : Node) :
  keeps "additional_nbt_keys" (extract_block_stats f schematic).
Proof.
  unfold extract_block_stats, extract_palette, extract_classic, list_block_types,
    record_length.
  keeps_all.
Qed.

Lemma keeps_extract_metadata (schematic : Node) :
  keeps "additional_nbt_keys" (extract_metadata schematic).
Proof. unfold extract_metadata, metadata_entry, describe_complex. keeps_all. Qed.

Lemma keeps_extract_worldedit_metadata (schematic : Node) :
  keeps "additional_nbt_keys" (extract_worldedit_metadata schematic).
Proof.
  unfold extract_worldedit_metadata, worldedit_entry, describe_complex. keeps_all.
Qed.

Lemma keeps_extract_before_residuals (schematic : Node) :
  keeps "additional_nbt_keys" (extract_before_residuals schematic).
Proof.
  unfold extract_before_residuals.
  apply keeps_bind; [apply keeps_lift | intros f].
  apply keeps_bind; [apply keeps_emit | intros _].
  apply keeps_bind; [apply keeps_set_result; reflexivity | intros _].
  apply keeps_bind; [destruct f; first [apply keeps_extract_regions | apply keeps_extract_dimensions] | intros _].
  apply keeps_bind; [apply keeps_extract_block_stats | intros _].
  apply keeps_bind; [apply keeps_extract_metadata | intros _].
  apply keeps_extract_worldedit_metadata.
Qed.

Lemma extract_split (nbt_data : NbtFile) (st : State) :
  extract nbt_data st
  = (extract_before_residuals (root_of nbt_data) ;;
     report_residuals (root_of nbt_data) ;;
     emit (nl ++ "=== End of analysis ===")) st.
Proof.
  unfold extract, extract_before_residuals, bind, lift.
  destruct (detect_format (root_of nbt_data)) as [f|e]; [|reflexivity].
  destruct (emit _ st) as [[[]|e1] s1]; [|reflexivity].
  destruct (set_result _ _ s1) as [[[]|e2] s2]; [|reflexivity].
  destruct f;
    (lazymatch goal with
     | |- context [extract_regions (root_of nbt_data) s2] =>
         destruct (extract_regions (root_of nbt_data) s2) as [[[]|e3] s3]
     | |- _ => destruct (extract_dimensions (root_of nbt_data) s2) as [[[]|e3] s3]
     end; [|reflexivity]);
    (destruct (extract_block_stats _ (root_of nbt_data) s3) as [[[]|e4] s4]; [|reflexivity]);
    (destruct (extract_metadata (root_of nbt_data) s4) as [[[]|e5] s5]; [|reflexivity]);
    destruct (extract_worldedit_metadata (root_of nbt_data) s5) as [[[]|e6] s6]; reflexivity.
Qed.

(** X3 (lines 105-339).  An analysis of a decoded root compound that
    ends without an error returns [additional_nbt_keys] exactly as the
    residual scan sets it: the list of the root keys outside the
    reserved set when there is one, and no entry otherwise. *)
Theorem completed_analysis_additional_keys (env : FileEnv)
    (raw_data file_data : list byte) (is_gz : bool) (nbt_data : NbtFile)
    (fields : list (string * Node)) :
  read env = Returns raw_data ->
  is_gzipped raw_data = Returns is_gz ->
  (if is_gz then gzip_decompress raw_data else Returns raw_data) = Returns file_data ->
  nbt_parse file_data = Returns nbt_data ->
  root_of nbt_data = TagCompound fields ->
  Dict.mem "error" (analysis_result (analyze_schematic env)) = false ->
  Dict.get "additional_nbt_keys" (analysis_result (analyze_schematic env))
  = match residual_keys_of fields with
    | [] => None
    | key :: rest => Some (VList (map VStr (key :: rest)))
    end.
Proof.
  intros Hread Hgz Hdata Hparse Hroot.
  assert (exists st1,
            load env (initial_state env) = (Returns (Some nbt_data), st1)
            /\ Dict.get "additional_nbt_keys" (result st1) = None) as (st1 & Hload & Hfresh).
  { unfold load. unfold bind at 1 2 3. unfold lift. rewrite Hread, Hgz.
    destruct is_gz.
    - rewrite Hdata. unfold bind, emit, set_result, ret, initial_state.
      cbn [result output fst snd]. rewrite Hparse.
      eexists. split; reflexivity.
    - inversion Hdata; subst file_data.
      unfold bind, emit, set_result, ret, initial_state.
      cbn [result output fst snd]. rewrite Hparse.
      eexists. split; reflexivity. }
  assert (analysis_body env (initial_state env)
          = match extract nbt_data st1 with
            | (Returns _, st') => (Returns true, st')
            | (Raises e, st') => (Raises e, st')
            end) as Hbody.
  { unfold analysis_body. unfold bind at 1. rewrite Hload. unfold bind, ret.
    destruct (extract nbt_data st1) as [[[]|e] s]; reflexivity. }
  unfold analyze_schematic. rewrite Hbody, extract_split, Hroot.
  pose proof (keeps_extract_before_residuals (TagCompound fields) st1) as Hkeep.
  unfold bind.
  destruct (extract_before_residuals (TagCompound fields) st1) as [[[]|e] st2];
    cbn [snd] in Hkeep.
  - rewrite report_residuals_compound. unfold emit, ret.
    cbn [fst snd analysis_result result output].
    intros _. unfold with_additional_keys.
    destruct (residual_keys_of fields) as [|k ks].
    + now rewrite Hkeep.
    + apply get_set_same.
  - cbn [fst snd analysis_result on_error result]. rewrite set_then_mem. discriminate.
Qed.

(** ** The loader: magic bytes, gzip and the log entry *)

(** X4.  The magic test (line 77) reads the second byte only when the
    first one is 0x1f.  It raises exactly on the empty file and on the
    one-byte file 0x1f; on every other file it returns, and a file of
    two or more bytes is gzipped exactly when it starts with 0x1f
    0x8b. *)
Theorem is_gzipped_raises_iff (raw_data : list byte) :
  ((exists e, is_gzipped raw_data = Raises e) <-> raw_data = [] \/ raw_data = [x1f])
  /\ (forall b0, b0 <> x1f -> is_gzipped [b0] = Returns false)
  /\ (forall b0 b1 rest,
        is_gzipped (b0 :: b1 :: rest) = Returns (Byte.eqb b0 x1f && Byte.eqb b1 x8b)).
Proof.
  split; [|split].
  - destruct raw_data as [|b0 [|b1 rest]]; unfold is_gzipped; cbn [byte_at nth_error obind].
    + split; [auto | intros _; eauto].
    + destruct (Byte.eqb b0 x1f) eqn:E; cbn [obind].
      * apply byte_dec_bl in E. subst b0. split; [auto | intros _; eauto].
      * split.
        -- intros [e H]. discriminate H.
        -- intros [H | H]; [discriminate H|].
           inversion H; subst. discriminate E.
    + split.
      * intros [e H]. destruct (Byte.eqb b0 x1f); discriminate H.
      * intros [H | H]; discriminate H.
  - intros b0 Hne. unfold is_gzipped. cbn [byte_at nth_error obind].
    destruct (Byte.eqb b0 x1f) eqn:E; [|reflexivity].
    apply byte_dec_bl in E. contradiction.
  - intros b0 b1 rest. unfold is_gzipped. cbn [byte_at nth_error obind].
    destruct (Byte.eqb b0 x1f); reflexivity.
Qed.

(** X5.  When the file starts with the gzip magic and gzip rejects it
    (lines 82-90), the analysis returns the identity fields, the
    compression field and the error, with neither a decompressed size
    nor a format; the parser is not consulted and nothing is appended to
    the log. *)
Theorem decompress_failure_aborts (env : FileEnv) (raw_data : list byte) (e : exn) :
  read env = Returns raw_data ->
  is_gzipped raw_data = Returns true ->
  gzip_decompress raw_data = Raises e ->
  analyze_schematic env
    = mkAnalysis (gzip_error_result env e) (gzip_error_report env e) None
  /\ Dict.mem "decompressed_size" (analysis_result (analyze_schematic env)) = false
  /\ Dict.mem "format" (analysis_result (analyze_schematic env)) = false.
Proof.
  intros Hread Hgz Hdec.
  assert (analysis_body env (initial_state env)
          = (Returns false, mkState (gzip_error_result env e) (gzip_error_report env e)))
    as Hbody.
  { unfold analysis_body, load, gzip_error_result, gzip_error_report.
    unfold bind at 1 2 3. unfold lift. rewrite Hread, Hgz, Hdec.
    unfold bind, emit, set_result, ret, initial_state.
    cbn [result output fst snd Dict.set String.eqb Ascii.eqb Bool.eqb app compression_name].
    rewrite <- ?app_assoc. reflexivity. }
  assert (analyze_schematic env
          = mkAnalysis (gzip_error_result env e) (gzip_error_report env e) None) as Heq.
  { unfold analyze_schematic. rewrite Hbody. reflexivity. }
  rewrite Heq. repeat split.
Qed.

Lemma analyze_of_body (env : FileEnv) (reached_end : bool) (st : State) :
  analysis_body env (initial_state env) = (Returns reached_end, st) ->
  analyze_schematic env
  = mkAnalysis (result st) (output st)
      (if reached_end
       then option_map (fun _ => String.concat nl (output st) ++ nl ++ nl)
              (truthy_name (output_file env))
       else None).
Proof. intros H. unfold analyze_schematic. rewrite H. reflexivity. Qed.

Lemma analyze_of_raise (env : FileEnv) (e : exn) (st : State) :
  analysis_body env (initial_state env) = (Raises e, st) ->
  analyze_schematic env
  = mkAnalysis (result (on_error e st)) (output (on_error e st))
      (option_map (fun _ => String.concat nl (output (on_error e st)) ++ nl ++ nl)
         (truthy_name (output_file env))).
Proof. intros H. unfold analyze_schematic. rewrite H. reflexivity. Qed.

Lemma body_of_load (env : FileEnv) :
  analysis_body env (initial_state env)
  = match load env (initial_state env) with
    | (Returns (Some nbt_data), st) =>
        match extract nbt_data st with
        | (Returns _, st') => (Returns true, st')
        | (Raises e, st') => (Raises e, st')
        end
    | (Returns None, st) => (Returns false, st)
    | (Raises e, st) => (Raises e, st)
    end.
Proof.
  unfold analysis_body. unfold bind at 1.
  destruct (load env (initial_state env)) as [[[nbt|]|e] st]; unfold bind, ret;
    try (destruct (extract nbt st) as [[[]|e'] st']); reflexivity.
Qed.

Lemma logged_needs_name (env : FileEnv) :
  truthy_name (output_file env) = None -> logged (analyze_schematic env) = None.
Proof.
  intros Hnone. unfold analyze_schematic. cbn [logged]. rewrite Hnone.
  now destruct (fst _).
Qed.


(** ** [safe_check] and [format_timestamp] *)

(** X7.  A positive [safe_check] (lines 41-46) makes the subscript
    [obj[key]] safe on a compound only: a string that contains the key,
    or a list that holds it, passes the check and the subscript raises.
    On a scalar the check is false, the exception of [in] being
    swallowed. *)
Theorem safe_check_guards_compounds_only (obj : Node) (key : string) :
  safe_check obj key = true ->
  ((exists v, Py.getitem obj key = Returns v) <-> Py.is_dict obj = true)
  /\ Py.is_number obj = false.
Proof.
  unfold safe_check.
  destruct obj as [fields|items|l|l|l|s|z|bits]; cbn [Py.contains Py.getitem Py.is_dict Py.is_number];
    intros H; try discriminate H; split; try reflexivity;
    try (split; [intros [v Hv]; discriminate Hv | discriminate]).
  unfold Dict.mem in H.
  destruct (Dict.get key fields) as [v|]; [|discriminate H].
  split; [reflexivity | eauto].
Qed.

(** X8.  [format_timestamp] (lines 31-39) never raises.  A value that is
    not a number comes back as its plain string form; for a number the
    output always starts with the raw value, followed in parentheses by
    the date or, when the date cannot be formatted, by the reason. *)
Theorem format_timestamp_shape (timestamp : Node) :
  if Py.is_number timestamp
  then exists detail,
         format_timestamp timestamp = py_str timestamp ++ " (" ++ detail ++ ")"
         /\ (forall date, local_date timestamp = Returns date -> detail = date)
         /\ (forall e, local_date timestamp = Raises e ->
               detail = "error formatting date: " ++ exn_str e)
  else format_timestamp timestamp = py_str timestamp.
Proof.
  unfold format_timestamp.
  destruct (Py.is_number timestamp); [|apply safe_to_string_str].
  destruct (local_date timestamp) as [date|e]; cbn [obind].
  - exists date. repeat split; [now intros d [= ->] | discriminate].
  - exists ("error formatting date: " ++ exn_str e). repeat split; [discriminate|].
    now intros e' [= ->].
Qed.

(** ** Invariants of the result

    Which step writes which key of [result], and what follows for the
    result of every analysis. *)

Ltac split_keys H :=
  unfold key_in in H; cbn [existsb] in H;
  repeat (apply orb_false_elim in H; destruct H as [? H]).

Ltac keeps_step_with :=
  first
    [ apply keeps_ret | apply keeps_lift | apply keeps_emit
    | apply keeps_set_result; first [reflexivity | assumption]
    | apply keeps_set_result_in; first [reflexivity | assumption]
    | apply keeps_bind; [|intros ?]
    | apply keeps_try_except; [|intros ?]
    | apply keeps_for_each; intros ?
    | apply keeps_fold_m; intros ? ?
    | match goal with
      | |- keeps _ (if ?c then _ else _) => destruct c
      | |- keeps _ (match ?x with _ => _ end) => destruct x
      end ].

Lemma keeps_load (key : string) (env : FileEnv) :
  key_in key ["compression"; "decompressed_size"; "error"] = false ->
  keeps key (load env).
Proof. intros H. split_keys H. unfold load. repeat keeps_step_with. Qed.

Lemma keeps_regions (key : string) (schematic : Node) :
  String.eqb key "regions" = false -> keeps key (extract_regions schematic).
Proof.
  intros H. unfold extract_regions, extract_region, region_count. repeat keeps_step_with.
Qed.

Lemma keeps_dimensions (key : string) (schematic : Node) :
  String.eqb key "dimensions" = false -> keeps key (extract_dimensions schematic).
Proof. intros H. unfold extract_dimensions. repeat keeps_step_with. Qed.

Lemma keeps_block_stats (key : string) (f : Format) (schematic : Node) :
  key_in key ["block_stats"; "block_data_size"; "tile_entities_count"; "entities_count"]
  = false ->
  keeps key (extract_block_stats f schematic).
Proof.
  intros H. split_keys H.
  unfold extract_block_stats, extract_palette, extract_classic, list_block_types,
    record_length.
  repeat keeps_step_with.
Qed.

Lemma keeps_metadata (key : string) (schematic : Node) :
  String.eqb key "metadata" = false -> keeps key (extract_metadata schematic).
Proof.
  intros H. unfold extract_metadata, metadata_entry, describe_complex.
  repeat keeps_step_with.
Qed.

Lemma keeps_worldedit_metadata (key : string) (schematic : Node) :
  String.eqb key "worldedit_metadata" = false ->
  keeps key (extract_worldedit_metadata schematic).
Proof.
  intros H. unfold extract_worldedit_metadata, worldedit_entry, describe_complex.
  repeat keeps_step_with.
Qed.

Lemma keeps_residual_scan (key : string) (schematic : Node) (ks acc : list string) :
  keeps key (fold_m (residual_key schematic) ks acc).
Proof.
  revert acc. apply keeps_fold_m. intros acc k.
  unfold residual_key. repeat keeps_step_with.
Qed.

Lemma keeps_report_residuals (key : string) (schematic : Node) :
  String.eqb key "additional_nbt_keys" = false ->
  keeps key (report_residuals schematic).
Proof.
  intros H. unfold report_residuals.
  apply keeps_bind; [apply keeps_emit | intros _].
  apply keeps_bind; [apply keeps_lift | intros ks].
  apply keeps_bind; [apply keeps_residual_scan | intros acc].
  destruct acc; repeat keeps_step_with.
Qed.

Lemma keeps_after_format (key : string) (f : Format) (schematic : Node) :
  String.eqb key (branch_key f) = false ->
  key_in key later_keys = false ->
  keeps key (extract_after_format f schematic).
Proof.
  intros Hb H. unfold later_keys in H. split_keys H.
  unfold extract_after_format.
  apply keeps_bind; [|intros _].
  { destruct f; first [now apply keeps_regions | now apply keeps_dimensions]. }
  apply keeps_bind; [|intros _].
  { apply keeps_block_stats. unfold key_in. cbn [existsb].
    repeat match goal with E : String.eqb _ _ = false |- _ => rewrite E; clear E end.
    reflexivity. }
  apply keeps_bind; [now apply keeps_metadata | intros _].
  apply keeps_bind; [now apply keeps_worldedit_metadata | intros _].
  apply keeps_bind; [now apply keeps_report_residuals | intros _].
  apply keeps_emit.
Qed.

Lemma extract_unfold (nbt_data : NbtFile) (st : State) :
  extract nbt_data st
  = (format_type <- lift (detect_format (root_of nbt_data)) ;;
     emit ("Format: " ++ format_name format_type) ;;
     set_result "format" (VStr (format_name format_type)) ;;
     extract_after_format format_type (root_of nbt_data)) st.
Proof. reflexivity. Qed.

(** The residual scan writes its key as its last action: when the scan
    raises, the key is as it was. *)
Lemma report_residuals_raise_keeps (schematic : Node) (st st' : State) (e : exn) :
  report_residuals schematic st = (Raises e, st') ->
  Dict.get "additional_nbt_keys" (result st') = Dict.get "additional_nbt_keys" (result st).
Proof.
  unfold report_residuals. unfold bind at 1 2 3. unfold emit at 1, lift.
  destruct (Py.keys schematic) as [ks|e0].
  - pose proof (keeps_residual_scan "additional_nbt_keys" schematic ks []
                  (mkState (result st) (output st ++ [nl ++ "Additional NBT Data:"])))
      as Hkeep.
    destruct (fold_m (residual_key schematic) ks [] _) as [[acc|e1] s1];
      cbn [snd result] in Hkeep.
    + destruct acc; unfold emit, set_result; discriminate.
    + intros [= _ <-]. exact Hkeep.
  - intros [= _ <-]. reflexivity.
Qed.

Lemma load_some_no_error (env : FileEnv) (nbt_data : NbtFile) (st : State) :
  load env (initial_state env) = (Returns (Some nbt_data), st) ->
  Dict.mem "error" (result st) = false.
Proof.
  unfold load, bind, lift, emit, set_result, ret, initial_state.
  destruct (read env) as [raw|e]; cbn [result output fst snd]; [|discriminate].
  destruct (is_gzipped raw) as [[|]|e]; cbn [result output fst snd]; [| |discriminate].
  - destruct (gzip_decompress raw) as [data|e]; cbn [result output fst snd];
      [|discriminate].
    destruct (nbt_parse data) as [nbt|e]; cbn [result output fst snd]; [|discriminate].
    intros [= _ <-]. reflexivity.
  - destruct (nbt_parse raw) as [nbt|e]; cbn [result output fst snd]; [|discriminate].
    intros [= _ <-]. reflexivity.
Qed.

Lemma keeps_extract (key : string) (nbt_data : NbtFile) :
  key_in key ("format" :: "regions" :: "dimensions" :: later_keys) = false ->
  keeps key (extract nbt_data).
Proof.
  intros H. unfold later_keys in H. split_keys H.
  intros st. rewrite extract_unfold. revert st.
  apply keeps_bind; [apply keeps_lift | intros f].
  apply keeps_bind; [apply keeps_emit | intros _].
  apply keeps_bind; [now apply keeps_set_result | intros _].
  apply keeps_after_format.
  - destruct f; assumption.
  - unfold later_keys, key_in. cbn [existsb].
    repeat match goal with E : String.eqb _ _ = false |- _ => rewrite E; clear E end.
    reflexivity.
Qed.

(** X15.  A result that lists additional keys is the result of a
    complete analysis: [additional_nbt_keys] is written by the last
    step that can fail, as its last action, so a result never carries
    both that entry and an error. *)
Theorem additional_keys_mean_no_error (env : FileEnv) :
  Dict.mem "additional_nbt_keys" (analysis_result (analyze_schematic env)) = true ->
  Dict.mem "error" (analysis_result (analyze_schematic env)) = false.
Proof.
  pose proof (body_of_load env) as Hbody.
  pose proof (keeps_load "additional_nbt_keys" env eq_refl (initial_state env)) as Hload.
  cbn [result initial_state Dict.get String.eqb Ascii.eqb Bool.eqb] in Hload.
  destruct (load env (initial_state env)) as [[[nbt|]|e] st1] eqn:El; cbn [snd] in Hload.
  - rewrite extract_split in Hbody. unfold bind at 1 2 in Hbody.
    pose proof (keeps_extract_before_residuals (root_of nbt) st1) as Hbefore.
    pose proof (keeps_extract "error" nbt eq_refl st1) as Herr.
    rewrite extract_split in Herr. unfold bind at 1 2 in Herr.
    destruct (extract_before_residuals (root_of nbt) st1) as [[[]|e] st2];
      cbn [snd] in Hbefore.
    + destruct (report_residuals (root_of nbt) st2) as [[[]|e] st3] eqn:Er.
      * unfold emit in Hbody, Herr. cbn [snd result] in Herr.
        rewrite (analyze_of_body env true _ Hbody). cbn [analysis_result result].
        intros _. unfold Dict.mem. rewrite Herr.
        apply load_some_no_error in El. exact El.
      * apply report_residuals_raise_keeps in Er.
        rewrite (analyze_of_raise env e st3 Hbody).
        cbn [analysis_result on_error result]. unfold Dict.mem.
        rewrite get_set_other by reflexivity.
        rewrite Er, Hbefore, Hload. discriminate.
    + rewrite (analyze_of_raise env e st2 Hbody).
      cbn [analysis_result on_error result]. unfold Dict.mem.
      rewrite get_set_other by reflexivity.
      rewrite Hbefore, Hload. discriminate.
  - rewrite (analyze_of_body env false st1 Hbody). cbn [analysis_result].
    unfold Dict.mem. rewrite Hload. discriminate.
  - rewrite (analyze_of_raise env e st1 Hbody).
    cbn [analysis_result on_error result]. unfold Dict.mem.
    rewrite get_set_other by reflexivity. rewrite Hload. discriminate.
Qed.

Lemma extract_leaves_one_branch (nbt_data : NbtFile) (st : State) :
  Dict.get "dimensions" (result (snd (extract nbt_data st))) = Dict.get "dimensions" (result st)
  \/ Dict.get "regions" (result (snd (extract nbt_data st))) = Dict.get "regions" (result st).
Proof.
  rewrite extract_unfold. unfold bind at 1. unfold lift.
  destruct (detect_format (root_of nbt_data)) as [f|e]; [|left; reflexivity].
  assert (forall key,
            String.eqb key "format" = false -> String.eqb key (branch_key f) = false ->
            key_in key later_keys = false ->
            Dict.get key
              (result (snd ((emit ("Format: " ++ format_name f) ;;
                             set_result "format" (VStr (format_name f)) ;;
                             extract_after_format f (root_of nbt_data)) st)))
            = Dict.get key (result st)) as Hkeep.
  { intros key Hf Hb Hl. revert st.
    apply keeps_bind; [apply keeps_emit | intros _].
    apply keeps_bind; [now apply keeps_set_result | intros _].
    now apply keeps_after_format. }
  destruct f; first [left; now apply Hkeep | right; now apply Hkeep].
Qed.

(** X16.  The dimension record and the region mapping exclude each
    other: whatever the file holds and however the analysis ends, a
    result never has both [dimensions] and [regions]. *)
Theorem dimensions_exclude_regions (env : FileEnv) :
  Dict.mem "dimensions" (analysis_result (analyze_schematic env))
  && Dict.mem "regions" (analysis_result (analyze_schematic env)) = false.
Proof.
  pose proof (body_of_load env) as Hbody.
  pose proof (keeps_load "dimensions" env eq_refl (initial_state env)) as HD.
  pose proof (keeps_load "regions" env eq_refl (initial_state env)) as HR.
  cbn [result initial_state Dict.get String.eqb Ascii.eqb Bool.eqb] in HD, HR.
  assert (forall r st,
            analysis_body env (initial_state env) = (r, st) ->
            (Dict.get "dimensions" (result st) = None \/ Dict.get "regions" (result st) = None) ->
            Dict.mem "dimensions" (analysis_result (analyze_schematic env))
            && Dict.mem "regions" (analysis_result (analyze_schematic env)) = false) as Hend.
  { intros [reached|e] st Hb Hor.
    - rewrite (analyze_of_body env reached st Hb). cbn [analysis_result].
      unfold Dict.mem. destruct Hor as [-> | ->]; [reflexivity | apply andb_false_r].
    - rewrite (analyze_of_raise env e st Hb). cbn [analysis_result on_error result].
      unfold Dict.mem. rewrite !get_set_other by reflexivity.
      destruct Hor as [-> | ->]; [reflexivity | apply andb_false_r]. }
  destruct (load env (initial_state env)) as [[[nbt|]|e] st1]; cbn [snd] in HD, HR.
  - pose proof (extract_leaves_one_branch nbt st1) as Hone.
    destruct (extract nbt st1) as [[[]|e] st2]; cbn [snd] in Hone;
      (eapply Hend; [exact Hbody|]);
      (destruct Hone as [H | H]; [left; now rewrite H | right; now rewrite H]).
  - eapply Hend; [exact Hbody | now left].
  - eapply Hend; [exact Hbody | now left].
Qed.

Lemma load_of_parse (env : FileEnv) (raw_data file_data : list byte) (is_gz : bool)
    (nbt_data : NbtFile) :
  read env = Returns raw_data ->
  is_gzipped raw_data = Returns is_gz ->
  (if is_gz then gzip_decompress raw_data else Returns raw_data) = Returns file_data ->
  nbt_parse file_data = Returns nbt_data ->
  exists st, load env (initial_state env) = (Returns (Some nbt_data), st).
Proof.
  intros Hread Hgz Hdata Hparse.
  unfold load. unfold bind at 1 2 3. unfold lift. rewrite Hread, Hgz.
  destruct is_gz.
  - rewrite Hdata. unfold bind, emit, set_result, ret.
    cbn [result output fst snd]. rewrite Hparse. eexists. reflexivity.
  - inversion Hdata; subst file_data.
    unfold bind, emit, set_result, ret.
    cbn [result output fst snd]. rewrite Hparse. eexists. reflexivity.
Qed.

(** X17.  The format is recorded before anything is extracted (lines
    127-128) and no later step touches it: once a tree with a compound
    root is decoded, the result names the detected variant, even when
    the extraction that follows ends in an error. *)
Theorem format_survives_failures (env : FileEnv) (raw_data file_data : list byte)
    (is_gz : bool) (nbt_data : NbtFile) (fields : list (string * Node)) :
  read env = Returns raw_data ->
  is_gzipped raw_data = Returns is_gz ->
  (if is_gz then gzip_decompress raw_data else Returns raw_data) = Returns file_data ->
  nbt_parse file_data = Returns nbt_data ->
  root_of nbt_data = TagCompound fields ->
  Dict.get "format" (analysis_result (analyze_schematic env))
  = Some (VStr (format_name (DetectorSpec.first_match fields))).
Proof.
  intros Hread Hgz Hdata Hparse Hroot.
  destruct (load_of_parse env raw_data file_data is_gz nbt_data Hread Hgz Hdata Hparse)
    as [st1 Hload].
  pose proof (body_of_load env) as Hbody. rewrite Hload in Hbody.
  assert (Dict.get "format" (result (snd (extract nbt_data st1)))
          = Some (VStr (format_name (DetectorSpec.first_match fields)))) as Hfmt.
  { rewrite extract_unfold, Hroot. unfold bind at 1. unfold lift.
    rewrite detect_format_compound.
    unfold bind at 1 2. unfold emit at 1, set_result at 1. cbn [result output].
    rewrite (keeps_after_format "format" (DetectorSpec.first_match fields)
               (TagCompound fields)); cbn [result].
    - apply get_set_same.
    - destruct (DetectorSpec.first_match fields); reflexivity.
    - reflexivity. }
  destruct (extract nbt_data st1) as [[[]|e] st2]; cbn [snd] in Hfmt.
  - rewrite (analyze_of_body env true st2 Hbody). exact Hfmt.
  - rewrite (analyze_of_raise env e st2 Hbody). cbn [analysis_result on_error result].
    rewrite get_set_other by reflexivity. exact Hfmt.
Qed.

(** ** The two metadata passes *)

Lemma mem_set {V : Type} (key k : string) (v : V) (d : Dict.t V) :
  Dict.mem key (Dict.set k v d) = String.eqb key k || Dict.mem key d.
Proof.
  unfold Dict.mem. destruct (String.eqb key k) eqn:E.
  - apply String.eqb_eq in E. subst k. now rewrite get_set_same.
  - now rewrite get_set_other.
Qed.

Lemma set_result_in_known (outer inner : string) (v : Value) (sub : Dict.t Value)
    (st : State) :
  Dict.get outer (result st) = Some (VDict sub) ->
  set_result_in outer inner v st
  = (Returns tt,
     mkState (Dict.set outer (VDict (Dict.set inner v sub)) (result st)) (output st)).
Proof. intros H. unfold set_result_in. now rewrite H. Qed.

(** ** The additional keys of an analysis result (lines 318-346) *)

(** C10, as amended.  For a file that is decoded to a root compound,
    the result of the analysis has [additional_nbt_keys] if and only if
    the analysis ends without an error and at least one root key is
    none of Palette, BlockData, Blocks, Data, Regions and Metadata.  An
    analysis that an error ends before the residual scan returns no
    such entry, whatever the root keys are.  When the analysis ends
    without an error and every root key is one of the six, the entry is
    omitted and the report has the line that no additional data was
    found. *)
Theorem additional_keys_presence (env : FileEnv) (raw_data file_data : list byte)
    (is_gz : bool) (nbt_data : NbtFile) (fields : list (string * Node)) :
  read env = Returns raw_data ->
  is_gzipped raw_data = Returns is_gz ->
  (if is_gz then gzip_decompress raw_data else Returns raw_data) = Returns file_data ->
  nbt_parse file_data = Returns nbt_data ->
  root_of nbt_data = TagCompound fields ->
  (Dict.mem "additional_nbt_keys" (analysis_result (analyze_schematic env)) = true <->
     Dict.mem "error" (analysis_result (analyze_schematic env)) = false
     /\ exists key,
          In key (Dict.keys fields)
          /\ ~ In key ["Palette"; "BlockData"; "Blocks"; "Data"; "Regions"; "Metadata"])
  /\ (Dict.mem "error" (analysis_result (analyze_schematic env)) = false ->
      (forall key, In key (Dict.keys fields) ->
         In key ["Palette"; "BlockData"; "Blocks"; "Data"; "Regions"; "Metadata"]) ->
      Dict.mem "additional_nbt_keys" (analysis_result (analyze_schematic env)) = false
      /\ In "  No additional NBT data found" (report_lines (analyze_schematic env))).
Proof.
  intros Hread Hgz Hdata Hparse Hroot.
  destruct (load_of_parse env raw_data file_data is_gz nbt_data Hread Hgz Hdata Hparse)
    as [st1 Hload].
  pose proof (keeps_load "additional_nbt_keys" env eq_refl (initial_state env)) as Hfresh.
  rewrite Hload in Hfresh. cbn [snd] in Hfresh.
  change (Dict.get "additional_nbt_keys" (result (initial_state env)))
    with (@None Value) in Hfresh.
  pose proof (load_some_no_error env nbt_data st1 Hload) as Hnoerr.
  pose proof (body_of_load env) as Hbody. rewrite Hload in Hbody.
  pose proof (keeps_extract "error" nbt_data eq_refl st1) as Herr.
  rewrite extract_split, Hroot in Hbody, Herr.
  pose proof (keeps_extract_before_residuals (TagCompound fields) st1) as Hbefore.
  rewrite Hfresh in Hbefore.
  unfold bind at 1 2 in Hbody. unfold bind at 1 2 in Herr.
  assert (Hreserved : forall key,
            In key ["Palette"; "BlockData"; "Blocks"; "Data"; "Regions"; "Metadata"]
            <-> is_reserved key = true).
  { intros key. symmetry. apply is_reserved_spec. }
  destruct (extract_before_residuals (TagCompound fields) st1) as [[[]|e] st2];
    cbn [snd] in Hbefore.
  - rewrite report_residuals_compound in Hbody, Herr.
    unfold emit in Hbody, Herr. cbn [snd result output] in Hbody, Herr.
    rewrite (analyze_of_body env true _ Hbody).
    cbn [analysis_result report_lines result output].
    assert (Hok : Dict.mem "error" (with_additional_keys fields (result st2)) = false).
    { unfold Dict.mem in *. now rewrite Herr. }
    unfold with_additional_keys, residual_lines in *.
    destruct (residual_keys_of fields) as [|k ks] eqn:E.
    + assert (Hnone : forall key, In key (Dict.keys fields) -> is_reserved key = true).
      { intros key Hkey. destruct (is_reserved key) eqn:R; [reflexivity |].
        assert (In key (residual_keys_of fields)) as Hin by now apply residual_keys_spec.
        rewrite E in Hin. contradiction. }
      assert (Habsent : Dict.mem "additional_nbt_keys" (result st2) = false).
      { unfold Dict.mem. now rewrite Hbefore. }
      split.
      * rewrite Habsent. split; [discriminate |].
        intros (_ & key & Hkey & Hout). exfalso. apply Hout.
        apply Hreserved. now apply Hnone.
      * intros _ _. split; [exact Habsent |].
        rewrite !in_app_iff. cbn [flat_map app In]. tauto.
    + assert (In k (Dict.keys fields) /\ is_reserved k = false) as [Hk Hr].
      { apply residual_keys_spec. rewrite E. now left. }
      split.
      * rewrite set_then_mem. split; [|reflexivity].
        intros _. split; [exact Hok |].
        exists k. split; [exact Hk |].
        intros Hin. apply Hreserved in Hin. congruence.
      * intros _ Hall. apply Hall, Hreserved in Hk. congruence.
  - rewrite (analyze_of_raise env e st2 Hbody). cbn [analysis_result on_error result].
    rewrite set_then_mem.
    split; [|discriminate].
    unfold Dict.mem. rewrite get_set_other by reflexivity. rewrite Hbefore.
    split; [discriminate | intros [Hno _]; discriminate Hno].
Qed.

(** ** The records of the regions (lines 131-168) *)

Lemma bind_returns {A B : Type} (m : M A) (k : A -> M B) (st st' : State) (b : B) :
  bind m k st = (Returns b, st') ->
  exists a s, m st = (Returns a, s) /\ k a s = (Returns b, st').
Proof.
  unfold bind. destruct (m st) as [[a|e] s]; [eauto | discriminate].
Qed.

Lemma region_count_returns (region : Node) (key label info_key : string)
    (info info' : Dict.t Value) (st st' : State) :
  region_count region key label info_key info st = (Returns info', st') ->
  (exists v n,
     region_value region key = Some v /\ Py.truth v = true /\ Py.len v = Returns n
     /\ info' = Dict.set info_key (VInt n) info)
  \/ (info' = info
      /\ (region_value region key = None
          \/ exists v, region_value region key = Some v /\ Py.truth v = false)).
Proof.
  unfold region_count, safe_check.
  destruct region as [fields|items|l|l|l|s|z|bits]; cbn [Py.contains region_value].
  - unfold Dict.mem. cbn [Py.getitem].
    destruct (Dict.get key fields) as [v|] eqn:Hv.
    + unfold bind at 1. unfold lift at 1.
      destruct (Py.truth v) eqn:Ht.
      * unfold bind at 1. unfold lift.
        destruct (Py.len v) as [n|e] eqn:Hn; [|discriminate].
        unfold bind, emit, ret. intros [= <- _]. left. eauto 6.
      * unfold ret. intros [= <- _]. right. eauto.
    + unfold ret. intros [= <- _]. right. auto.
  - destruct (existsb _ items).
    + unfold bind, lift. cbn [Py.getitem]. discriminate.
    + unfold ret. intros [= <- _]. right. auto.
  - unfold ret. intros [= <- _]. right. auto.
  - unfold ret. intros [= <- _]. right. auto.
  - unfold ret. intros [= <- _]. right. auto.
  - destruct (String.index 0 key s).
    + unfold bind, lift. cbn [Py.getitem]. discriminate.
    + unfold ret. intros [= <- _]. right. auto.
  - unfold ret. intros [= <- _]. right. auto.
  - unfold ret. intros [= <- _]. right. auto.
Qed.

Lemma counted_of_step (region : Node) (key info_key : string) (info info' : Dict.t Value) :
  Dict.get info_key info = None ->
  (exists v n,
     region_value region key = Some v /\ Py.truth v = true /\ Py.len v = Returns n
     /\ info' = Dict.set info_key (VInt n) info)
  \/ (info' = info
      /\ (region_value region key = None
          \/ exists v, region_value region key = Some v /\ Py.truth v = false)) ->
  counted region key (Dict.get info_key info').
Proof.
  intros Hfresh [(v & n & Hv & Ht & Hn & ->) | (-> & Hno)].
  - rewrite get_set_same. repeat split.
    + intros _. eauto.
    + discriminate.
    + intros v0 Hv0 _. rewrite Hv in Hv0. injection Hv0 as <-. eauto.
    + intros items Hitems. rewrite Hv in Hitems. injection Hitems as ->.
      destruct items as [|item rest]; [discriminate Ht |].
      cbn [Py.len] in Hn. now injection Hn as <-.
    + intros Hnone. rewrite Hv in Hnone. discriminate.
  - rewrite Hfresh. repeat split.
    + intros H. now contradiction H.
    + intros (v & Hv & Ht).
      destruct Hno as [Hnone | (v0 & Hv0 & Hf)]; rewrite Hv in *; congruence.
    + intros v Hv Ht.
      destruct Hno as [Hnone | (v0 & Hv0 & Hf)]; rewrite Hv in *; congruence.
    + intros items Hitems.
      destruct Hno as [Hnone | (v0 & Hv0 & Hf)]; rewrite Hitems in *; [discriminate |].
      injection Hv0 as <-. now destruct items.
Qed.

Lemma coordinate_entry_returns (region : Node) (key info_key : string)
    (render : string -> string) (info info' : Dict.t Value) (st st' : State) :
  (if safe_check region key then
     v <- lift (Py.getitem region key) ;;
     text <- lift (coordinate_text v) ;;
     emit (render text) ;;
     ret (Dict.set info_key (VStr text) info)
   else ret info) st = (Returns info', st') ->
  (forall k, String.eqb k info_key = false -> Dict.get k info' = Dict.get k info)
  /\ (forall c, region_value region key = Some (TagCompound c) ->
        Dict.get info_key info' = Some (VStr (coordinates_text c))).
Proof.
  destruct (safe_check region key) eqn:Hcheck.
  - intros H.
    apply bind_returns in H. destruct H as (v & s1 & Hv & H).
    apply bind_returns in H. destruct H as (text & s2 & Htext & H).
    apply bind_returns in H. destruct H as ([] & s3 & _ & H).
    unfold ret in H. injection H as <- _.
    unfold lift in Hv, Htext. injection Hv as Hv _. injection Htext as Htext _.
    split.
    + intros k Hk. now apply get_set_other.
    + intros c Hc. rewrite get_set_same.
      destruct region; try discriminate Hc. cbn [region_value] in Hc.
      cbn [Py.getitem] in Hv. rewrite Hc in Hv. injection Hv as <-.
      rewrite coordinate_text_compound in Htext. now injection Htext as <-.
  - unfold ret. intros [= <- _]. split; [reflexivity |].
    intros c Hc. destruct region; try discriminate Hc. cbn [region_value] in Hc.
    unfold safe_check in Hcheck. cbn [Py.contains] in Hcheck.
    unfold Dict.mem in Hcheck. rewrite Hc in Hcheck. discriminate.
Qed.

Lemma extract_region_returns (region : Node) (record : Dict.t Value) (st st' : State) :
  extract_region region st = (Returns record, st') ->
  counted region "BlockEntities" (Dict.get "block_entities_count" record)
  /\ counted region "Entities" (Dict.get "entities_count" record)
  /\ (forall c, region_value region "Size" = Some (TagCompound c) ->
        Dict.get "size" record = Some (VStr (coordinates_text c))).
Proof.
  unfold extract_region. intros H.
  apply bind_returns in H. destruct H as (info1 & s1 & H1 & H).
  apply bind_returns in H. destruct H as (info2 & s2 & H2 & H).
  apply bind_returns in H. destruct H as (info3 & s3 & H3 & H4).
  destruct (coordinate_entry_returns region "Size" "size"
              (fun s => "    Size: " ++ s) [] info1 st s1 H1) as [Hk1 Hsize].
  destruct (coordinate_entry_returns region "Position" "position"
              (fun s => "    Position: (" ++ s ++ ")") info1 info2 s1 s2 H2) as [Hk2 _].
  apply region_count_returns in H3. apply region_count_returns in H4.
  assert (Hb2 : Dict.get "block_entities_count" info2 = None)
    by (rewrite Hk2, Hk1 by reflexivity; reflexivity).
  assert (He2 : Dict.get "entities_count" info2 = None)
    by (rewrite Hk2, Hk1 by reflexivity; reflexivity).
  assert (Hother : forall k, String.eqb k "entities_count" = false ->
                             Dict.get k record = Dict.get k info3).
  { intros k Hk. destruct H4 as [(v & n & _ & _ & _ & ->) | (-> & _)];
      [now apply get_set_other | reflexivity]. }
  assert (Hother3 : forall k, String.eqb k "block_entities_count" = false ->
                              Dict.get k info3 = Dict.get k info2).
  { intros k Hk. destruct H3 as [(v & n & _ & _ & _ & ->) | (-> & _)];
      [now apply get_set_other | reflexivity]. }
  split; [|split].
  - rewrite Hother by reflexivity.
    exact (counted_of_step region "BlockEntities" "block_entities_count" info2 info3 Hb2 H3).
  - refine (counted_of_step region "Entities" "entities_count" info3 record _ H4).
    now rewrite Hother3 by reflexivity.
  - intros c Hc. rewrite Hother, Hother3, Hk2 by reflexivity. now apply Hsize.
Qed.

Lemma keeps_extract_region (key : string) (region : Node) : keeps key (extract_region region).
Proof. unfold extract_region, region_count. keeps_all. Qed.

Lemma walk_regions (all regions : list (string * Node)) :
  (forall item, In item regions -> In item all) ->
  forall (st : State) (acc : Dict.t Value),
    Dict.get "regions" (result st) = Some (VDict acc) ->
    (forall name entry, Dict.get name acc = Some entry -> recorded_region all name entry) ->
    exists acc',
      Dict.get "regions" (result (snd (for_each regions record_region st)))
      = Some (VDict acc')
      /\ (forall name entry, Dict.get name acc' = Some entry -> recorded_region all name entry)
      /\ (fst (for_each regions record_region st) = Returns tt ->
          forall name,
            Dict.mem name acc = true \/ In name (Dict.keys regions) ->
            Dict.mem name acc' = true).
Proof.
  induction regions as [|[name region] rest IH]; intros Hall st acc Hget Hacc.
  - exists acc. cbn [for_each]. unfold ret. cbn [fst snd].
    split; [exact Hget | split; [exact Hacc |]].
    intros _ n [Hn | []]. exact Hn.
  - pose proof (keeps_extract_region "regions" region
                  (mkState (result st) (output st ++ ["  - " ++ name ++ ":"]))) as Hkeep.
    destruct (extract_region region
                (mkState (result st) (output st ++ ["  - " ++ name ++ ":"])))
      as [[record|e] s2] eqn:Hrun; cbn [snd result] in Hkeep.
    + assert (Hstep : for_each ((name, region) :: rest) record_region st
                      = for_each rest record_region
                          (mkState (Dict.set "regions"
                                      (VDict (Dict.set name (VDict record) acc)) (result s2))
                                   (output s2))).
      { cbn [for_each]. unfold record_region at 1. cbn [fst snd].
        unfold bind at 1 2 3. unfold emit at 1. rewrite Hrun.
        now rewrite (set_result_in_known "regions" name (VDict record) acc s2)
          by (now rewrite Hkeep). }
      rewrite Hstep. apply extract_region_returns in Hrun.
      destruct (IH (fun item Hin => Hall item (or_intror Hin))
                  (mkState (Dict.set "regions" (VDict (Dict.set name (VDict record) acc))
                              (result s2)) (output s2))
                  (Dict.set name (VDict record) acc))
        as (acc' & Hget' & Hacc' & Hdone).
      * cbn [result]. apply get_set_same.
      * intros n entry Hn. destruct (String.eqb n name) eqn:E.
        -- apply String.eqb_eq in E. subst n. rewrite get_set_same in Hn.
           injection Hn as <-. exists region, record.
           split; [apply Hall; now left | split; [reflexivity | exact Hrun]].
        -- rewrite get_set_other in Hn by exact E. now apply Hacc.
      * exists acc'. split; [exact Hget' | split; [exact Hacc' |]].
        intros Hret n Hn. apply (Hdone Hret).
        destruct Hn as [Hn | [<- | Hn]].
        -- left. rewrite mem_set, Hn. apply orb_true_r.
        -- left. apply set_then_mem.
        -- now right.
    + assert (Hstep : for_each ((name, region) :: rest) record_region st = (Raises e, s2)).
      { cbn [for_each]. unfold record_region at 1. cbn [fst snd].
        unfold bind at 1 2 3. unfold emit at 1. now rewrite Hrun. }
      rewrite Hstep. exists acc. cbn [fst snd]. rewrite Hkeep.
      split; [exact Hget | split; [exact Hacc | discriminate]].
Qed.

Lemma extract_regions_compound (fields regions : list (string * Node)) (st : State) :
  Dict.get "Regions" fields = Some (TagCompound regions) ->
  extract_regions (TagCompound fields) st
  = for_each regions record_region
      (mkState (Dict.set "regions" (VDict []) (result st))
               (output st ++ [nl ++ "Regions:"])).
Proof.
  intros Hregions. unfold extract_regions.
  unfold bind at 1 2 3 4. unfold emit at 1, set_result at 1, lift.
  unfold Py.get, Py.get_opt. cbn [obind result output].
  rewrite Hregions. reflexivity.
Qed.

Lemma regions_step_records (fields regions : list (string * Node)) (st : State) :
  Dict.get "Regions" fields = Some (TagCompound regions) ->
  exists recorded,
    Dict.get "regions" (result (snd (extract_regions (TagCompound fields) st)))
    = Some (VDict recorded)
    /\ (forall name entry, Dict.get name recorded = Some entry ->
          recorded_region regions name entry)
    /\ (fst (extract_regions (TagCompound fields) st) = Returns tt ->
        forall name, In name (Dict.keys regions) -> Dict.mem name recorded = true).
Proof.
  intros Hregions. rewrite (extract_regions_compound fields regions st Hregions).
  destruct (walk_regions regions regions (fun item Hin => Hin)
              (mkState (Dict.set "regions" (VDict []) (result st))
                       (output st ++ [nl ++ "Regions:"])) [])
    as (recorded & Hget & Hsound & Hdone).
  - cbn [result]. apply get_set_same.
  - intros name entry Hnone. discriminate Hnone.
  - exists recorded. split; [exact Hget | split].
    + exact Hsound.
    + intros Hret name Hin. apply (Hdone Hret). now right.
Qed.

Lemma keeps_after_regions (schematic : Node) : keeps "regions" (after_regions schematic).
Proof.
  unfold after_regions.
  apply keeps_bind; [now apply keeps_block_stats | intros _].
  apply keeps_bind; [now apply keeps_metadata | intros _].
  apply keeps_bind; [now apply keeps_worldedit_metadata | intros _].
  apply keeps_bind; [now apply keeps_report_residuals | intros _].
  apply keeps_emit.
Qed.

Lemma extract_of_litematica (nbt_data : NbtFile) (fields : list (string * Node))
    (st : State) :
  root_of nbt_data = TagCompound fields ->
  detect_format (TagCompound fields) = Returns litematica ->
  extract nbt_data st
  = (extract_regions (TagCompound fields) ;; after_regions (TagCompound fields))
      (mkState (Dict.set "format" (VStr "litematica") (result st))
               (output st ++ ["Format: litematica"])).
Proof.
  intros Hroot Hdetect. rewrite extract_unfold, Hroot.
  unfold bind at 1. unfold lift. rewrite Hdetect.
  unfold bind at 1 2. unfold emit at 1, set_result at 1. cbn [result output].
  reflexivity.
Qed.

(** C6, as amended.  For a file that is decoded to a litematica root
    whose Regions is a compound, whatever the regions hold and however
    the analysis ends, the result has the mapping [regions], and every
    record in it is the record of a region of that name: its
    [block_entities_count] (respectively [entities_count]) is there
    exactly when the BlockEntities (respectively Entities) field of the
    region exists and is true as a condition, with the length of the
    field as its value.  For a list this is the claim: the key is there
    exactly when the list is not empty, with the number of its elements,
    and an absent or empty list leaves no key.  A field of another kind
    that has a length is counted too.  A Size that is a compound is
    rendered axis by axis.  When the analysis ends without an error,
    every region has its record. *)
Theorem region_counts (env : FileEnv) (raw_data file_data : list byte) (is_gz : bool)
    (nbt_data : NbtFile) (fields regions : list (string * Node)) :
  read env = Returns raw_data ->
  is_gzipped raw_data = Returns is_gz ->
  (if is_gz then gzip_decompress raw_data else Returns raw_data) = Returns file_data ->
  nbt_parse file_data = Returns nbt_data ->
  root_of nbt_data = TagCompound fields ->
  detect_format (TagCompound fields) = Returns litematica ->
  Dict.get "Regions" fields = Some (TagCompound regions) ->
  exists recorded,
    Dict.get "regions" (analysis_result (analyze_schematic env)) = Some (VDict recorded)
    /\ (forall name entry, Dict.get name recorded = Some entry ->
          exists region record,
            In (name, region) regions /\ entry = VDict record
            /\ counted region "BlockEntities" (Dict.get "block_entities_count" record)
            /\ counted region "Entities" (Dict.get "entities_count" record)
            /\ (forall c, region_value region "Size" = Some (TagCompound c) ->
                  Dict.get "size" record = Some (VStr (coordinates_text c))))
    /\ (Dict.mem "error" (analysis_result (analyze_schematic env)) = false ->
        forall name, In name (Dict.keys regions) -> Dict.mem name recorded = true).
Proof.
  intros Hread Hgz Hdata Hparse Hroot Hdetect Hregions.
  destruct (load_of_parse env raw_data file_data is_gz nbt_data Hread Hgz Hdata Hparse)
    as [st1 Hload].
  pose proof (body_of_load env) as Hbody. rewrite Hload in Hbody.
  rewrite (extract_of_litematica nbt_data fields st1 Hroot Hdetect) in Hbody.
  destruct (regions_step_records fields regions
              (mkState (Dict.set "format" (VStr "litematica") (result st1))
                       (output st1 ++ ["Format: litematica"])) Hregions)
    as (recorded & Hget & Hsound & Hdone).
  exists recorded. unfold bind at 1 in Hbody.
  destruct (extract_regions (TagCompound fields) _) as [[[]|e] s1];
    cbn [fst snd] in Hget, Hdone.
  - pose proof (keeps_after_regions (TagCompound fields) s1) as Hkeep.
    rewrite Hget in Hkeep.
    destruct (after_regions (TagCompound fields) s1) as [[[]|e] s2]; cbn [snd] in Hkeep.
    + rewrite (analyze_of_body env true s2 Hbody). cbn [analysis_result].
      split; [exact Hkeep | split; [exact Hsound |]].
      intros _. now apply Hdone.
    + rewrite (analyze_of_raise env e s2 Hbody). cbn [analysis_result on_error result].
      rewrite get_set_other by reflexivity.
      split; [exact Hkeep | split; [exact Hsound |]].
      intros _. now apply Hdone.
  - rewrite (analyze_of_raise env e s1 Hbody). cbn [analysis_result on_error result].
    rewrite get_set_other by reflexivity. rewrite set_then_mem.
    split; [exact Hget | split; [exact Hsound | discriminate]].
Qed.

Lemma format_coordinates_of_compound (c : list (string * Node)) :
  format_coordinates (TagCompound c) = Returns (coordinates_or_unknown c).
Proof. destruct c; [reflexivity | apply format_coordinates_compound]. Qed.

Lemma describe_complex_compound (section key : string) (c : list (string * Node))
    (sub : Dict.t Value) (st : State) :
  Dict.get section (result st) = Some (VDict sub) ->
  describe_complex section key (TagCompound c) st
  = (Returns tt,
     mkState
       (Dict.set section
          (VDict (Dict.set key (VDict [("keys", VList (map VStr (Dict.keys c)))]) sub))
          (result st))
       (output st ++ ["  " ++ key ++ ": [complex object]";
                      "    Keys: " ++ String.concat ", " (Dict.keys c)])).
Proof.
  intros H. unfold describe_complex, try_except.
  unfold bind at 1. unfold emit at 1. unfold bind at 1 2. unfold lift, emit.
  cbn [Py.keys result output].
  rewrite set_result_in_known with (sub := sub) by exact H.
  cbn [result output]. now rewrite <- app_assoc.
Qed.

Lemma metadata_entry_step (key : string) (value : Node) (acc : Dict.t Value) (st : State) :
  Dict.get "metadata" (result st) = Some (VDict acc) ->
  exists lines,
    metadata_entry (key, value) st
    = (Returns tt,
       mkState (Dict.set "metadata" (VDict (metadata_record [(key, value)] acc)) (result st))
               (output st ++ lines)).
Proof.
  intros Hget. unfold metadata_entry, metadata_record, metadata_value.
  cbn [fst snd fold_left].
  destruct (String.eqb key "WorldEdit").
  { exists []. destruct st as [r o]. unfold ret. cbn [result output] in *.
    now rewrite app_nil_r, set_known. }
  destruct value as [c|items|l|l|l|s|z|bits]; cbn [Py.is_dict andb];
    rewrite ?andb_false_r, ?andb_true_r;
    destruct (String.eqb key "EnclosingSize");
    destruct (String.eqb key "TimeCreated" || String.eqb key "TimeModified");
    try (eexists; unfold bind, lift, emit;
         rewrite ?format_coordinates_of_compound;
         cbn [result output];
         rewrite set_result_in_known with (sub := acc) by exact Hget;
         cbn [result output]; rewrite ?safe_to_string_str; reflexivity);
    try (eexists; apply describe_complex_compound; exact Hget).
Qed.

Lemma for_each_metadata (items : list (string * Node)) :
  forall (acc : Dict.t Value) (st : State),
    Dict.get "metadata" (result st) = Some (VDict acc) ->
    exists lines,
      for_each items metadata_entry st
      = (Returns tt,
         mkState (Dict.set "metadata" (VDict (metadata_record items acc)) (result st))
                 (output st ++ lines)).
Proof.
  induction items as [|[key value] rest IH]; intros acc st Hget.
  - exists []. destruct st as [r o]. unfold for_each, ret, metadata_record.
    cbn [fold_left result output] in *. now rewrite app_nil_r, set_known.
  - destruct (metadata_entry_step key value acc st Hget) as [lines1 H1].
    cbn [for_each]. unfold bind. rewrite H1.
    destruct (IH (metadata_record [(key, value)] acc)
                (mkState (Dict.set "metadata" (VDict (metadata_record [(key, value)] acc))
                           (result st))
                         (output st ++ lines1))) as [lines2 H2].
    { cbn [result]. apply get_set_same. }
    rewrite H2. cbn [result output]. exists (lines1 ++ lines2)%list.
    rewrite set_set_same, <- app_assoc. reflexivity.
Qed.

Lemma metadata_record_mem (items : list (string * Node)) :
  forall (acc : Dict.t Value) (key : string),
    Dict.mem key (metadata_record items acc)
    = Dict.mem key acc
      || (key_in key (Dict.keys items) && negb (String.eqb key "WorldEdit")).
Proof.
  induction items as [|[k v] rest IH]; intros acc key.
  - cbn. now rewrite orb_false_r.
  - unfold metadata_record in *. cbn [fold_left fst snd]. rewrite IH.
    unfold key_in, Dict.keys. cbn [map existsb fst].
    destruct (String.eqb k "WorldEdit") eqn:Ew.
    + apply String.eqb_eq in Ew. subst k.
      destruct (String.eqb key "WorldEdit") eqn:E; cbn [negb orb andb];
        rewrite ?andb_false_r; reflexivity.
    + rewrite mem_set.
      destruct (String.eqb key k) eqn:E; cbn [orb andb].
      * apply String.eqb_eq in E. subst k. rewrite Ew. cbn [negb].
        now rewrite orb_true_r.
      * reflexivity.
Qed.

Lemma key_in_spec (key : string) (keys : list string) :
  key_in key keys = true <-> In key keys.
Proof.
  unfold key_in. rewrite existsb_exists. split.
  - intros (k & Hk & E). apply String.eqb_eq in E. now subst.
  - intros H. exists key. split; [exact H | apply String.eqb_refl].
Qed.

(** X9.  When Metadata is a compound the metadata pass (lines 262-293)
    returns without raising, whatever the kinds of the values are, and
    records exactly one entry for every key of Metadata other than
    WorldEdit, which is left to the second pass. *)
Theorem metadata_pass_records_every_key (fields items : list (string * Node))
    (st : State) :
  Dict.get "Metadata" fields = Some (TagCompound items) ->
  (exists lines,
     extract_metadata (TagCompound fields) st
     = (Returns tt,
        mkState (Dict.set "metadata" (VDict (metadata_record items [])) (result st))
                (output st ++ lines)))
  /\ (forall key,
        Dict.mem key (metadata_record items []) = true <->
        In key (Dict.keys items) /\ key <> "WorldEdit").
Proof.
  intros Hmd. split.
  - unfold extract_metadata, safe_check. cbn [Py.contains]. unfold Dict.mem. rewrite Hmd.
    unfold bind at 1 2 3 4. unfold emit at 1, set_result at 1, lift.
    cbn [result output Py.getitem]. rewrite Hmd. cbn [Py.items].
    destruct (for_each_metadata items []
                (mkState (Dict.set "metadata" (VDict []) (result st))
                         (output st ++ [nl ++ "Metadata:"]))) as [lines H].
    { cbn [result]. apply get_set_same. }
    rewrite H. cbn [result output]. exists ((nl ++ "Metadata:") :: lines).
    rewrite set_set_same, <- app_assoc. reflexivity.
  - intros key. rewrite metadata_record_mem. cbn [Dict.mem Dict.get orb].
    rewrite andb_true_iff, key_in_spec, negb_true_iff, String.eqb_neq. reflexivity.
Qed.

Lemma extract_metadata_wrong_kind (fields : list (string * Node)) (md : Node) (st : State) :
  Dict.get "Metadata" fields = Some md ->
  Py.is_dict md = false ->
  extract_metadata (TagCompound fields) st
  = (Raises (Py.no_attribute md "items"),
     mkState (Dict.set "metadata" (VDict []) (result st))
             (output st ++ [nl ++ "Metadata:"])).
Proof.
  intros Hmd Hkind.
  unfold extract_metadata, safe_check. cbn [Py.contains]. unfold Dict.mem. rewrite Hmd.
  unfold bind at 1 2 3 4. unfold emit at 1, set_result at 1, lift.
  cbn [result output Py.getitem]. rewrite Hmd.
  destruct md; try discriminate Hkind; reflexivity.
Qed.

Lemma before_residuals_needs_metadata (schematic : Node) (st : State) :
  (forall s, exists e s', extract_metadata schematic s = (Raises e, s')) ->
  exists e s', extract_before_residuals schematic st = (Raises e, s').
Proof.
  intros Hmd. unfold extract_before_residuals, bind, lift.
  destruct (detect_format schematic) as [f|e]; [|eauto].
  destruct (emit _ st) as [[[]|e1] s1]; [|eauto].
  destruct (set_result _ _ s1) as [[[]|e2] s2]; [|eauto].
  destruct f;
    (lazymatch goal with
     | |- context [extract_regions schematic s2] =>
         destruct (extract_regions schematic s2) as [[[]|e3] s3]
     | |- _ => destruct (extract_dimensions schematic s2) as [[[]|e3] s3]
     end; [|eauto]);
    (destruct (extract_block_stats _ schematic s3) as [[[]|e4] s4]; [|eauto]);
    destruct (Hmd s4) as (e5 & s5 & H5); rewrite H5; eauto.
Qed.

(** X10.  The metadata pass tests only the presence of Metadata (line
    263): when the value is not a compound, [metadata.items()] raises
    after the empty mapping was recorded, and the analysis of a decoded
    tree ends with an error. *)
Theorem metadata_of_wrong_kind_aborts (env : FileEnv) (raw_data file_data : list byte)
    (is_gz : bool) (nbt_data : NbtFile) (fields : list (string * Node)) (md : Node) :
  read env = Returns raw_data ->
  is_gzipped raw_data = Returns is_gz ->
  (if is_gz then gzip_decompress raw_data else Returns raw_data) = Returns file_data ->
  nbt_parse file_data = Returns nbt_data ->
  root_of nbt_data = TagCompound fields ->
  Dict.get "Metadata" fields = Some md ->
  Py.is_dict md = false ->
  (forall st,
     extract_metadata (TagCompound fields) st
     = (Raises (Py.no_attribute md "items"),
        mkState (Dict.set "metadata" (VDict []) (result st))
                (output st ++ [nl ++ "Metadata:"])))
  /\ Dict.mem "error" (analysis_result (analyze_schematic env)) = true.
Proof.
  intros Hread Hgz Hdata Hparse Hroot Hmd Hkind.
  split; [intros st; now apply extract_metadata_wrong_kind|].
  destruct (load_of_parse env raw_data file_data is_gz nbt_data Hread Hgz Hdata Hparse)
    as [st1 Hload].
  pose proof (body_of_load env) as Hbody. rewrite Hload in Hbody.
  rewrite extract_split, Hroot in Hbody. unfold bind at 1 in Hbody.
  destruct (before_residuals_needs_metadata (TagCompound fields) st1) as (e & s' & Hb).
  { intros s. do 2 eexists. exact (extract_metadata_wrong_kind fields md s Hmd Hkind). }
  rewrite Hb in Hbody.
  rewrite (analyze_of_raise env e s' Hbody). cbn [analysis_result on_error result].
  apply set_then_mem.
Qed.

Lemma worldedit_entry_step (key : string) (value : Node) (acc : Dict.t Value) (st : State) :
  Dict.get "worldedit_metadata" (result st) = Some (VDict acc) ->
  exists lines,
    worldedit_entry (key, value) st
    = (Returns tt,
       mkState (Dict.set "worldedit_metadata"
                  (VDict (worldedit_record [(key, value)] acc)) (result st))
               (output st ++ lines)).
Proof.
  intros Hget. unfold worldedit_entry, worldedit_record, worldedit_value.
  cbn [fst snd fold_left].
  destruct value as [c|items|l|l|l|s|z|bits]; cbn [Py.is_dict andb];
    rewrite ?andb_false_r, ?andb_true_r;
    destruct (String.eqb key "Origin");
    try (eexists; unfold bind, lift, emit;
         rewrite ?format_coordinates_of_compound;
         cbn [result output];
         rewrite set_result_in_known with (sub := acc) by exact Hget;
         cbn [result output]; rewrite ?safe_to_string_str; reflexivity);
    try (eexists; apply describe_complex_compound; exact Hget).
Qed.

Lemma for_each_worldedit (items : list (string * Node)) :
  forall (acc : Dict.t Value) (st : State),
    Dict.get "worldedit_metadata" (result st) = Some (VDict acc) ->
    exists lines,
      for_each items worldedit_entry st
      = (Returns tt,
         mkState (Dict.set "worldedit_metadata" (VDict (worldedit_record items acc))
                    (result st))
                 (output st ++ lines)).
Proof.
  induction items as [|[key value] rest IH]; intros acc st Hget.
  - exists []. destruct st as [r o]. unfold for_each, ret, worldedit_record.
    cbn [fold_left result output] in *. now rewrite app_nil_r, set_known.
  - destruct (worldedit_entry_step key value acc st Hget) as [lines1 H1].
    cbn [for_each]. unfold bind. rewrite H1.
    destruct (IH (worldedit_record [(key, value)] acc)
                (mkState (Dict.set "worldedit_metadata"
                            (VDict (worldedit_record [(key, value)] acc)) (result st))
                         (output st ++ lines1))) as [lines2 H2].
    { cbn [result]. apply get_set_same. }
    rewrite H2. cbn [result output]. exists (lines1 ++ lines2)%list.
    rewrite set_set_same, <- app_assoc. reflexivity.
Qed.

Lemma worldedit_record_mem (items : list (string * Node)) :
  forall (acc : Dict.t Value) (key : string),
    Dict.mem key (worldedit_record items acc)
    = Dict.mem key acc || key_in key (Dict.keys items).
Proof.
  induction items as [|[k v] rest IH]; intros acc key.
  - cbn. now rewrite orb_false_r.
  - unfold worldedit_record in *. cbn [fold_left fst snd]. rewrite IH, mem_set.
    unfold key_in, Dict.keys. cbn [map existsb fst].
    destruct (String.eqb key k), (Dict.mem key acc); reflexivity.
Qed.

(** X11.  The second pass (lines 295-316) depends on the WorldEdit entry
    of a Metadata compound alone.  Without that entry it leaves the
    result and the report untouched; when the entry is a compound the
    pass returns and records one entry for each of its keys; when it is
    anything else, [items()] raises after the empty mapping was
    recorded. *)
Theorem worldedit_pass_by_entry (fields md : list (string * Node)) (st : State) :
  Dict.get "Metadata" fields = Some (TagCompound md) ->
  match Dict.get "WorldEdit" md with
  | None => extract_worldedit_metadata (TagCompound fields) st = (Returns tt, st)
  | Some (TagCompound we) =>
      (exists lines,
         extract_worldedit_metadata (TagCompound fields) st
         = (Returns tt,
            mkState (Dict.set "worldedit_metadata" (VDict (worldedit_record we []))
                       (result st))
                    (output st ++ lines)))
      /\ (forall key, Dict.mem key (worldedit_record we []) = true <-> In key (Dict.keys we))
  | Some other =>
      extract_worldedit_metadata (TagCompound fields) st
      = (Raises (Py.no_attribute other "items"),
         mkState (Dict.set "worldedit_metadata" (VDict []) (result st))
                 (output st ++ [nl ++ "WorldEdit Metadata:"]))
  end.
Proof.
  intros Hmd.
  assert (forall k : Node -> M unit,
            (if safe_check (TagCompound fields) "Metadata"
             then metadata <- lift (Py.getitem (TagCompound fields) "Metadata") ;; k metadata
             else ret tt) st
            = k (TagCompound md) st) as Hstart.
  { intros k. unfold safe_check. cbn [Py.contains Py.getitem]. unfold Dict.mem.
    rewrite Hmd. reflexivity. }
  unfold extract_worldedit_metadata. rewrite Hstart. clear Hstart.
  unfold safe_check. cbn [Py.contains]. unfold Dict.mem.
  destruct (Dict.get "WorldEdit" md) as [we|] eqn:Ewe; [|reflexivity].
  assert (Py.getitem (TagCompound fields) "Metadata" = Returns (TagCompound md)) as Hg1
    by (cbn [Py.getitem]; now rewrite Hmd).
  assert (Py.getitem (TagCompound md) "WorldEdit" = Returns we) as Hg2
    by (cbn [Py.getitem]; now rewrite Ewe).
  destruct we as [we|items|l|l|l|s|z|bits];
    try (unfold bind at 1 2 3 4 5; unfold emit at 1, set_result at 1, lift;
         cbn [result output]; rewrite Hg1; cbn [result output]; rewrite Hg2; reflexivity).
  split.
  - unfold bind at 1 2 3 4 5. unfold emit at 1, set_result at 1, lift.
    cbn [result output]. rewrite Hg1. cbn [result output]. rewrite Hg2. cbn [Py.items].
    destruct (for_each_worldedit we []
                (mkState (Dict.set "worldedit_metadata" (VDict []) (result st))
                         (output st ++ [nl ++ "WorldEdit Metadata:"]))) as [lines H].
    { cbn [result]. apply get_set_same. }
    rewrite H. cbn [result output]. exists ((nl ++ "WorldEdit Metadata:") :: lines).
    rewrite set_set_same, <- app_assoc. reflexivity.
  - intros key.
    change (Dict.mem key (worldedit_record we []) = true <-> In key (Dict.keys we)).
    rewrite worldedit_record_mem. cbn [Dict.mem Dict.get orb].
    apply key_in_spec.
Qed.

(** ** The palette of the modern variants *)

Lemma fold_block_types (entries : list (string * Node)) :
  forall (acc : list Value) (st : State),
    fold_m (fun block_types entry =>
              emit ("  - " ++ fst entry ++ " (ID: " ++ py_str (snd entry) ++ ")") ;;
              ret (block_types ++ [VDict [("name", VStr (fst entry)); ("id", VTag (snd entry))]])%list)
           entries acc st
    = (Returns (acc ++ map block_type entries)%list,
       mkState (result st) (output st ++ map block_type_line entries)).
Proof.
  induction entries as [|entry rest IH]; intros acc st.
  - destruct st. unfold fold_m, ret. cbn [map]. now rewrite !app_nil_r.
  - cbn [fold_m]. unfold bind at 1 2. unfold emit at 1, ret at 1.
    rewrite IH. cbn [result output map]. unfold block_type at 2, block_type_line at 2.
    now rewrite <- !app_assoc.
Qed.

(** X12.  When the root Palette is a compound the palette step (lines
    190-214) returns without raising: the block list holds every entry
    of the palette, name and id, in the order of the palette, so that
    [total_block_types] is the length of the list; the length of
    BlockData is recorded beside it when BlockData has one. *)
Theorem palette_is_listed_in_full (fields entries : list (string * Node)) (st : State) :
  Dict.get "Palette" fields = Some (TagCompound entries) ->
  extract_palette (TagCompound fields) st
  = (Returns tt,
     mkState
       (with_length fields "BlockData" "block_data_size"
          (Dict.set "block_stats"
             (palette_stats (Z.of_nat (List.length entries)) (map block_type entries))
             (result st)))
       (output st
        ++ [nl ++ "Block types: " ++ Py.str_int (Z.of_nat (List.length entries));
            "All block types:"]
        ++ map block_type_line entries
        ++ length_line fields "BlockData" (nl ++ "Block data size: ") " bytes"))
  /\ List.length (map block_type entries) = List.length entries.
Proof.
  intros Hp. split; [|apply length_map].
  unfold extract_palette, safe_check. cbn [Py.contains]. unfold Dict.mem. rewrite Hp.
  unfold bind at 1 2 3 4 5 6. unfold lift, emit at 1 2, set_result at 1.
  cbn [Py.getitem]. rewrite Hp. cbn [Py.len result output].
  unfold list_block_types, try_except. unfold bind at 1. unfold lift. cbn [Py.items].
  rewrite fold_block_types. cbn [result output app].
  rewrite record_length_compound. cbn [result output]. unfold palette_stats.
  now rewrite <- !app_assoc.
Qed.

(** X13.  The palette step tests only the presence of Palette.  A value
    that is not a compound but has a length (a list, an array, a string)
    gives that length as [total_block_types], an empty block list and
    the line of the listing error, and the step returns; a scalar has no
    length, and the step raises before anything is recorded. *)
Theorem palette_of_wrong_kind (fields : list (string * Node)) (palette : Node)
    (st : State) :
  Dict.get "Palette" fields = Some palette ->
  Py.is_dict palette = false ->
  if Py.has_len palette
  then exists n,
         Py.len palette = Returns n
         /\ extract_palette (TagCompound fields) st
            = (Returns tt,
               mkState
                 (with_length fields "BlockData" "block_data_size"
                    (Dict.set "block_stats" (palette_stats n []) (result st)))
                 (output st
                  ++ [nl ++ "Block types: " ++ Py.str_int n; "All block types:";
                      "Error listing block types: "
                      ++ exn_str (Py.no_attribute palette "items")]
                  ++ length_line fields "BlockData" (nl ++ "Block data size: ") " bytes"))
  else exists e, extract_palette (TagCompound fields) st = (Raises e, st).
Proof.
  intros Hp Hkind.
  unfold extract_palette, safe_check. cbn [Py.contains]. unfold Dict.mem. rewrite Hp.
  destruct palette as [c|items|l|l|l|s|z|bits]; try discriminate Hkind;
    cbn [Py.has_len].
  1-5: eexists; split; [reflexivity|];
    unfold bind at 1 2 3 4 5 6; unfold lift, emit at 1 2, set_result at 1;
    cbn [Py.getitem]; rewrite Hp; cbn [Py.len result output];
    unfold list_block_types, try_except; unfold bind at 1 2 3; unfold lift, emit, ret;
    cbn [Py.items result output];
    rewrite record_length_compound; cbn [result output]; unfold palette_stats;
    now rewrite <- !app_assoc.
  all: eexists; unfold bind, lift; cbn [Py.getitem]; rewrite Hp; reflexivity.
Qed.

(** X14.  The nested variant is detected by the Palette inside Blocks,
    but the palette step reads the root alone: for a root detected as
    modern_worldedit_nested that has no Palette of its own, the step
    leaves the result and the report untouched, and the palette inside
    Blocks is never listed. *)
Theorem nested_palette_is_not_listed (fields : list (string * Node)) (st : State) :
  detect_format (TagCompound fields) = Returns modern_worldedit_nested ->
  Dict.mem "Palette" fields = false ->
  extract_block_stats modern_worldedit_nested (TagCompound fields) st = (Returns tt, st)
  /\ exists inner,
       Dict.get "Blocks" fields = Some (TagCompound inner)
       /\ Dict.mem "Palette" inner = true.
Proof.
  intros Hfmt Hno. split.
  - unfold extract_block_stats, extract_palette, safe_check. cbn [Py.contains].
    now rewrite Hno.
  - rewrite detect_format_compound in Hfmt. unfold DetectorSpec.first_match in Hfmt.
    destruct (DetectorSpec.probe1 fields); [discriminate|].
    destruct (DetectorSpec.probe2 fields) eqn:H2.
    + unfold DetectorSpec.probe2 in H2.
      destruct (Dict.get "Blocks" fields) as [[inner| | | | | | |]|]; try discriminate H2.
      exists inner. split; [reflexivity|]. now rewrite mem_present.
    + destruct (DetectorSpec.probe3 fields); [discriminate|].
      destruct (DetectorSpec.probe4 fields); [discriminate|].
      destruct (DetectorSpec.probe5 fields); discriminate.
Qed.

(** ** The command line (lines 402-420) *)

Lemma parse_options_bounded (n : nat) :
  forall (args : list string) (log_file json_file : option string),
  (List.length args <= n)%nat ->
  (key_in "--log" args = false ->
   fst (parse_options args log_file json_file) = log_file) /\
  (key_in "--json" args = false ->
   snd (parse_options args log_file json_file) = json_file) /\
  (fst (parse_options args log_file json_file) = log_file \/
   exists v, fst (parse_options args log_file json_file) = Some v /\ In v args) /\
  (snd (parse_options args log_file json_file) = json_file \/
   exists v, snd (parse_options args log_file json_file) = Some v /\ In v args).
Proof.
  induction n as [|n IH]; intros args log_file json_file Hlen.
  - destruct args; [|simpl in Hlen; lia]. simpl. repeat split; auto.
  - destruct args as [|arg [|value rest]].
    + simpl. repeat split; auto.
    + simpl. repeat split; auto.
    + assert (Hrest : (List.length rest <= n)%nat) by (simpl in Hlen; lia).
      assert (Htail : (List.length (value :: rest) <= n)%nat) by (simpl in *; lia).
      change (parse_options (arg :: value :: rest) log_file json_file)
        with (if String.eqb arg "--log" then parse_options rest (Some value) json_file
              else if String.eqb arg "--json" then parse_options rest log_file (Some value)
              else parse_options (value :: rest) log_file json_file).
      unfold key_in.
      change (existsb (String.eqb "--log") (arg :: value :: rest))
        with (String.eqb "--log" arg || existsb (String.eqb "--log") (value :: rest)).
      change (existsb (String.eqb "--json") (arg :: value :: rest))
        with (String.eqb "--json" arg || existsb (String.eqb "--json") (value :: rest)).
      rewrite (String.eqb_sym "--log" arg), (String.eqb_sym "--json" arg).
      destruct (String.eqb arg "--log") eqn:Elog.
      * apply String.eqb_eq in Elog. subst arg.
        destruct (IH rest (Some value) json_file Hrest) as (_ & Hj & Hl & Hj').
        repeat split.
        -- discriminate.
        -- intros Hno. apply Hj.
           change (existsb (String.eqb "--json") (value :: rest))
             with (String.eqb "--json" value || existsb (String.eqb "--json") rest) in Hno.
           simpl in Hno. now apply orb_false_iff in Hno.
        -- right. destruct Hl as [Hl | (v & Hv & Hin)].
           ++ exists value. split; [exact Hl | right; now left].
           ++ exists v. split; [exact Hv | right; now right].
        -- destruct Hj' as [Hj' | (v & Hv & Hin)]; [now left |].
           right. exists v. split; [exact Hv | right; now right].
      * destruct (String.eqb arg "--json") eqn:Ejson.
        -- apply String.eqb_eq in Ejson. subst arg.
           destruct (IH rest log_file (Some value) Hrest) as (Hl & _ & Hl' & Hj).
           repeat split.
           ++ intros Hno. apply Hl.
              change (existsb (String.eqb "--log") (value :: rest))
                with (String.eqb "--log" value || existsb (String.eqb "--log") rest) in Hno.
              simpl in Hno. now apply orb_false_iff in Hno.
           ++ discriminate.
           ++ destruct Hl' as [Hl' | (v & Hv & Hin)]; [now left |].
              right. exists v. split; [exact Hv | right; now right].
           ++ right. destruct Hj as [Hj | (v & Hv & Hin)].
              ** exists value. split; [exact Hj | right; now left].
              ** exists v. split; [exact Hv | right; now right].
        -- destruct (IH (value :: rest) log_file json_file Htail) as (Hl & Hj & Hl' & Hj').
           repeat split.
           ++ exact Hl.
           ++ exact Hj.
           ++ destruct Hl' as [Hl' | (v & Hv & Hin)]; [now left |].
              right. exists v. split; [exact Hv | now right].
           ++ destruct Hj' as [Hj' | (v & Hv & Hin)]; [now left |].
              right. exists v. split; [exact Hv | now right].
Qed.

(** X18 (lines 402-411).  The option loop of [main]: without the
    argument [--log] the log name it was started with comes back, and
    likewise for [--json]; and a name it returns is the one it was
    started with or one of the arguments. *)
Theorem options_come_from_arguments (args : list string)
    (log_file json_file : option string) :
  (key_in "--log" args = false ->
   fst (parse_options args log_file json_file) = log_file) /\
  (key_in "--json" args = false ->
   snd (parse_options args log_file json_file) = json_file) /\
  (fst (parse_options args log_file json_file) = log_file \/
   exists v, fst (parse_options args log_file json_file) = Some v /\ In v args) /\
  (snd (parse_options args log_file json_file) = json_file \/
   exists v, snd (parse_options args log_file json_file) = Some v /\ In v args).
Proof. exact (parse_options_bounded (List.length args) args log_file json_file (le_n _)). Qed.

Lemma before_last_dot_none (s : string) :
  has_dot s = false -> before_last_dot s = None.
Proof.
  induction s as [|c rest IH]; simpl; [reflexivity |].
  intros H. apply orb_false_iff in H. destruct H as [Hc Hrest].
  now rewrite (IH Hrest), Hc.
Qed.

Lemma before_last_dot_split (head tail : string) :
  has_dot tail = false ->
  before_last_dot (head ++ "." ++ tail) = Some head.
Proof.
  intros Htail. induction head as [|c rest IH].
  - change (before_last_dot (String "." tail) = Some EmptyString).
    simpl. now rewrite (before_last_dot_none tail Htail).
  - change (before_last_dot (String c (rest ++ "." ++ tail)) = Some (String c rest)).
    cbn [before_last_dot]. now rewrite IH.
Qed.

Lemma truthy_name_some (name : string) :
  name <> EmptyString -> truthy_name (Some name) = Some name.
Proof. destruct name; [congruence | reflexivity]. Qed.

(** X19 (lines 413-420).  When [--json] is not given, the JSON file is
    named after the log file: the log name up to its last dot, or the
    whole log name when it has no dot, followed by [.json]; an empty
    log name gives no JSON file. *)
Theorem json_name_follows_log_name (w : World) (options : list string) :
  key_in "--json" options = false ->
  (forall head tail, log_name w options = head ++ "." ++ tail -> has_dot tail = false ->
      json_name w options = Some (head ++ ".json")) /\
  (has_dot (log_name w options) = false -> log_name w options <> EmptyString ->
     json_name w options = Some (log_name w options ++ ".json")) /\
  (log_name w options = EmptyString -> json_name w options = None) /\
  (key_in "--log" options = false ->
     log_name w options = "schematic_analysis_" ++ stamp_compact w ++ ".log" /\
     json_name w options = Some ("schematic_analysis_" ++ stamp_compact w ++ ".json")).
Proof.
  intros Hno.
  destruct (parse_options_bounded (List.length options) options None None (le_n _))
    as (Hl & Hj & _).
  assert (Hsnd : snd (parse_options options None None) = None) by now apply Hj.
  unfold json_name. rewrite Hsnd.
  split; [|split; [|split; [|intros Hnolog; split]]].
  - intros head tail Hlog Htail.
    assert (Hne : log_name w options <> EmptyString).
    { rewrite Hlog. destruct head; discriminate. }
    rewrite (truthy_name_some _ Hne). unfold rsplit_head.
    now rewrite Hlog, (before_last_dot_split head tail Htail).
  - intros Hdot Hne.
    rewrite (truthy_name_some _ Hne). unfold rsplit_head.
    now rewrite (before_last_dot_none _ Hdot).
  - intros Hempty. now rewrite Hempty.
  - unfold log_name. now rewrite (Hl Hnolog).
  - unfold log_name. rewrite (Hl Hnolog).
    change (truthy_name (Some ("schematic_analysis_" ++ stamp_compact w ++ ".log")))
      with (Some ("schematic_analysis_" ++ stamp_compact w ++ ".log")).
    unfold rsplit_head.
    change ("schematic_analysis_" ++ stamp_compact w ++ ".log")
      with (("schematic_analysis_" ++ stamp_compact w) ++ "." ++ "log").
    rewrite (before_last_dot_split _ "log" eq_refl).
    reflexivity.
Qed.

(** ** The directory run (lines 355-387) *)

Lemma fold_process_files (w : World) (output_file : option string) (files : list DirEntry) :
  forall (done : list Effect) (results : list (Dict.t Value)),
  fold_left (process_file w output_file) files (done, results) =
  ((done ++ flat_map (file_effects w output_file) files)%list,
   (results ++
    map (fun f => analysis_result (snd (analyze_file w (entry_path f) output_file))) files)%list).
Proof.
  induction files as [|f rest IH]; intros done results.
  - simpl. now rewrite !app_nil_r.
  - cbn [fold_left flat_map map]. unfold process_file at 2. cbn [fst snd].
    rewrite IH. unfold file_effects at 2.
    now rewrite <- !app_assoc.
Qed.



Lemma forallb_flat_map {A B : Type} (p : B -> bool) (g : A -> list B) (xs : list A) :
  (forall x, forallb p (g x) = true) -> forallb p (flat_map g xs) = true.
Proof.
  intros Hall. induction xs as [|x rest IH]; [reflexivity |].
  cbn [flat_map]. now rewrite forallb_app, Hall, IH.
Qed.

Lemma analyze_file_silent (w : World) (path : string) (output_file : option string) :
  truthy_name output_file = None -> fst (analyze_file w path output_file) = [].
Proof.
  intros Hnone. unfold analyze_file. cbn [fst].
  now rewrite (logged_needs_name (with_output (file_env w path) output_file) Hnone).
Qed.

Lemma process_directory_prints (w : World) (dir_path : string)
    (output_file json_output : option string) :
  truthy_name output_file = None -> truthy_name json_output = None ->
  forallb is_print (process_directory w dir_path output_file json_output) = true.
Proof.
  intros Hout Hjson. unfold process_directory.
  destruct (negb (path_exists w dir_path) || negb (is_dir w dir_path)); [reflexivity |].
  destruct (filter is_supported (iterdir w dir_path)) as [|f rest]; [reflexivity |].
  rewrite fold_process_files. cbn [fst snd app forallb is_print andb].
  unfold dump_results. rewrite Hjson, app_nil_r.
  apply forallb_flat_map. intros x. unfold file_effects.
  now rewrite (analyze_file_silent w (entry_path x) output_file Hout).
Qed.

(** ** The command (lines 389-443) *)

Lemma json_name_of_empty_log (w : World) (options : list string) :
  key_in "--json" options = false -> log_name w options = EmptyString ->
  json_name w options = None.
Proof.
  intros Hno Hempty.
  destruct (parse_options_bounded (List.length options) options None None (le_n _))
    as (_ & Hj & _).
  unfold json_name. now rewrite (Hj Hno), Hempty.
Qed.

(** X21 (lines 413-443).  A run whose log name is the empty text (the
    value given to [--log]) and that has no [--json] writes no file at
    all: no log header, no log entry and no JSON file; everything it
    does is printing. *)
Theorem empty_log_name_writes_nothing (w : World) (prog file_path : string)
    (options : list string) :
  log_name w options = EmptyString -> key_in "--json" options = false ->
  forallb is_print (fst (main w (prog :: file_path :: options))) = true.
Proof.
  intros Hempty Hno.
  pose proof (json_name_of_empty_log w options Hno Hempty) as Hjson.
  unfold main, log_failure. rewrite Hjson, Hempty. unfold log_header.
  cbn [truthy_name app].
  destruct (is_dir w file_path).
  - cbn [fst]. now apply process_directory_prints.
  - destruct (is_file w file_path); [|reflexivity].
    cbn [fst]. now rewrite (analyze_file_silent w file_path (Some EmptyString) eq_refl).
Qed.

(** X22 (lines 422-443).  With a log name that is not empty, the first
    thing a run with a path argument does, whatever the path is, is to
    open the log file for writing.  When that succeeds, the log file is
    emptied and the two header lines with the command line are written
    before anything else, so the entries of earlier runs are lost; when
    it fails, the exception leaves [main] and nothing else is done. *)
Theorem log_is_emptied_first (w : World) (prog file_path : string)
    (options : list string) :
  log_name w options <> EmptyString ->
  match open_write w (log_name w options) with
  | None =>
      exists rest,
        fst (main w (prog :: file_path :: options)) =
          Truncate (log_name w options)
          :: Append (log_name w options)
                    ("Schematic Analysis Log - " ++ stamp_header w ++ nl)
          :: Append (log_name w options)
                    ("Command: " ++ String.concat " " (prog :: file_path :: options)
                     ++ nl ++ nl)
          :: rest
  | Some e => main w (prog :: file_path :: options) = ([], Crashed e)
  end.
Proof.
  intros Hne. unfold main, log_failure, log_header. rewrite (truthy_name_some _ Hne).
  destruct (open_write w (log_name w options)) as [e|]; [reflexivity |].
  destruct (is_dir w file_path); [eexists; reflexivity |].
  destruct (is_file w file_path); [|eexists; reflexivity].
  destruct (truthy_name (json_name w options)) as [name|]; [|eexists; reflexivity].
  destruct (open_write w name); [eexists; reflexivity |].
  destruct (snd (json_dump w _)); eexists; reflexivity.
Qed.

(** X23 (lines 389-443).  How a run ends, as far as opening files for
    writing and the JSON serialiser decide it.  It exits with code 1
    exactly when no path is given.  An exception leaves [main] in two
    cases only: the log file cannot be opened for writing (line 424),
    and then nothing was printed or written; or a single file is
    analysed and the JSON file cannot be opened (line 439) or the
    serialiser fails on the result.  For a directory the same two JSON
    failures are caught inside [process_directory], and the run
    finishes. *)
Theorem main_status (w : World) (argv : list string) :
  match snd (main w argv) with
  | Exited code => code = 1 /\ (List.length argv < 2)%nat
  | Finished => (2 <= List.length argv)%nat
  | Crashed e =>
      exists prog file_path options,
        argv = prog :: file_path :: options /\
        ((log_name w options <> EmptyString /\
          open_write w (log_name w options) = Some e /\
          fst (main w argv) = [])
         \/
         (log_failure w (log_name w options) = None /\
          is_dir w file_path = false /\ is_file w file_path = true /\
          exists name,
            truthy_name (json_name w options) = Some name /\
            (open_write w name = Some e
             \/ (open_write w name = None /\
                 snd (json_dump w [analysis_result
                        (snd (analyze_file w file_path (Some (log_name w options))))])
                 = Some e))))
  end
  /\ (forall prog file_path options,
        log_failure w (log_name w options) = None -> is_dir w file_path = true ->
        snd (main w (prog :: file_path :: options)) = Finished).
Proof.
  split.
  - destruct argv as [|prog [|file_path options]]; cbn [main snd List.length];
      [split; [reflexivity | lia] | split; [reflexivity | lia] |].
    unfold main.
    destruct (log_failure w (log_name w options)) as [e|] eqn:Hlog.
    + cbn [snd fst]. exists prog, file_path, options. split; [reflexivity | left].
      unfold log_failure in Hlog.
      destruct (log_name w options) as [|c name] eqn:Hname; [discriminate Hlog |].
      cbn [truthy_name] in Hlog. repeat split; [discriminate | exact Hlog].
    + destruct (is_dir w file_path) eqn:Hdir; [cbn [snd]; simpl; lia |].
      destruct (is_file w file_path) eqn:Hfile; [|cbn [snd]; simpl; lia].
      destruct (truthy_name (json_name w options)) as [name|] eqn:Hname;
        [|cbn [snd]; simpl; lia].
      destruct (open_write w name) as [e|] eqn:Hopen.
      * cbn [snd]. exists prog, file_path, options. split; [reflexivity | right].
        repeat split; try assumption. exists name. split; [exact Hname | now left].
      * destruct (snd (json_dump w _)) as [e|] eqn:Hdump; [|cbn [snd]; simpl; lia].
        cbn [snd]. exists prog, file_path, options. split; [reflexivity | right].
        repeat split; try assumption. exists name. split; [exact Hname | right].
        split; assumption.
  - intros prog file_path options Hlog Hdir. unfold main. now rewrite Hlog, Hdir.
Qed.

(** ** The keys of a result *)

Ltac use_key_facts :=
  unfold key_in, later_keys; cbn [existsb];
  repeat match goal with E : String.eqb _ _ = false |- _ => rewrite E end;
  reflexivity.

Lemma analyze_keeps (env : FileEnv) (key : string) :
  key_in key written_keys = false ->
  Dict.get key (analysis_result (analyze_schematic env))
  = Dict.get key (result (initial_state env)).
Proof.
  intros H. unfold written_keys in H. split_keys H.
  assert (Hload : key_in key ["compression"; "decompressed_size"; "error"] = false)
    by use_key_facts.
  assert (Hext : key_in key ("format" :: "regions" :: "dimensions" :: later_keys) = false)
    by use_key_facts.
  assert (Herr : String.eqb key "error" = false) by assumption.
  pose proof (body_of_load env) as Hbody.
  pose proof (keeps_load key env Hload (initial_state env)) as Hl.
  destruct (load env (initial_state env)) as [[[nbt|]|e] st1]; cbn [snd] in Hl.
  - pose proof (keeps_extract key nbt Hext st1) as He.
    destruct (extract nbt st1) as [[[]|e] st2]; cbn [snd] in He.
    + rewrite (analyze_of_body env true _ Hbody). cbn [analysis_result].
      now rewrite He.
    + rewrite (analyze_of_raise env e st2 Hbody). cbn [analysis_result on_error result].
      rewrite get_set_other by exact Herr. now rewrite He.
  - now rewrite (analyze_of_body env false st1 Hbody).
  - rewrite (analyze_of_raise env e st1 Hbody). cbn [analysis_result on_error result].
    now rewrite get_set_other by exact Herr.
Qed.

(** X24 (lines 59-346).  Every result, of a complete analysis or of a
    failed one, identifies its file: the four entries written before
    the analysis starts are never overwritten; and a result has no key
    besides these four and the thirteen that the analysis writes. *)
Theorem result_keys_are_fixed (env : FileEnv) :
  Dict.get "file_name" (analysis_result (analyze_schematic env))
    = Some (VStr (basename env)) /\
  Dict.get "file_path" (analysis_result (analyze_schematic env))
    = Some (VStr (path_str env)) /\
  Dict.get "file_size" (analysis_result (analyze_schematic env))
    = Some (VInt (getsize env)) /\
  Dict.get "analysis_time" (analysis_result (analyze_schematic env))
    = Some (VStr (now env)) /\
  (forall key, Dict.mem key (analysis_result (analyze_schematic env)) = true ->
               key_in key (identification_keys ++ written_keys) = true).
Proof.
  repeat split; try (rewrite analyze_keeps by reflexivity; reflexivity).
  intros key Hmem. unfold key_in. rewrite existsb_app. apply orb_true_iff.
  destruct (existsb (String.eqb key) written_keys) eqn:Hw; [now right | left].
  unfold Dict.mem in Hmem. rewrite (analyze_keeps env key Hw) in Hmem.
  unfold initial_state, identification_keys in *. cbn [result Dict.get existsb] in *.
  destruct (String.eqb key "file_name"); [reflexivity |].
  destruct (String.eqb key "file_path"); [reflexivity |].
  destruct (String.eqb key "file_size"); [reflexivity |].
  destruct (String.eqb key "analysis_time"); [reflexivity | discriminate].
Qed.

(** ** The report only grows *)

Lemma extends_ret {A : Type} (a : A) : extends (ret a).
Proof. intros st. exists []. now rewrite app_nil_r. Qed.

Lemma extends_lift {A : Type} (o : outcome A) : extends (lift o).
Proof. intros st. exists []. now rewrite app_nil_r. Qed.

Lemma extends_emit (line : string) : extends (emit line).
Proof. intros st. now exists [line]. Qed.

Lemma extends_set_result (k : string) (v : Value) : extends (set_result k v).
Proof. intros st. exists []. now rewrite app_nil_r. Qed.

Lemma extends_set_result_in (outer inner : string) (v : Value) :
  extends (set_result_in outer inner v).
Proof.
  intros st. exists []. rewrite app_nil_r. unfold set_result_in.
  now destruct (Dict.get outer (result st)) as [[]|].
Qed.

Lemma extends_bind {A B : Type} (m : M A) (k : A -> M B) :
  extends m -> (forall a, extends (k a)) -> extends (bind m k).
Proof.
  intros Hm Hk st. unfold bind. destruct (Hm st) as [l1 H1].
  destruct (m st) as [[a|e] st']; cbn [snd] in *.
  - destruct (Hk a st') as [l2 H2]. exists (l1 ++ l2)%list.
    now rewrite H2, H1, app_assoc.
  - now exists l1.
Qed.

Lemma extends_try_except {A : Type} (body : M A) (handler : exn -> M A) :
  extends body -> (forall e, extends (handler e)) -> extends (try_except body handler).
Proof.
  intros Hb Hh st. unfold try_except. destruct (Hb st) as [l1 H1].
  destruct (body st) as [[a|e] st']; cbn [snd] in *.
  - now exists l1.
  - destruct (Hh e st') as [l2 H2]. exists (l1 ++ l2)%list.
    now rewrite H2, H1, app_assoc.
Qed.

Lemma extends_for_each {A : Type} (xs : list A) (body : A -> M unit) :
  (forall x, extends (body x)) -> extends (for_each xs body).
Proof.
  intros Hb. induction xs as [|x rest IH]; simpl.
  - apply extends_ret.
  - apply extends_bind; [apply Hb | intros _; exact IH].
Qed.

Lemma extends_fold_m {A B : Type} (body : B -> A -> M B) (xs : list A) :
  (forall acc x, extends (body acc x)) -> forall acc, extends (fold_m body xs acc).
Proof.
  intros Hb. induction xs as [|x rest IH]; intros acc; simpl.
  - apply extends_ret.
  - apply extends_bind; [apply Hb | intros acc'; apply IH].
Qed.

Ltac extends_step :=
  first
    [ apply extends_ret | apply extends_lift | apply extends_emit
    | apply extends_set_result | apply extends_set_result_in
    | apply extends_bind; [|intros ?]
    | apply extends_try_except; [|intros ?]
    | apply extends_for_each; intros ?
    | apply extends_fold_m; intros ? ?
    | match goal with
      | |- extends (if ?c then _ else _) => destruct c
      | |- extends (match ?x with _ => _ end) => destruct x
      end ].

Lemma extends_load (env : FileEnv) : extends (load env).
Proof. unfold load. repeat extends_step. Qed.

Lemma extends_extract (nbt_data : NbtFile) : extends (extract nbt_data).
Proof.
  intros st. rewrite extract_unfold. revert st.
  apply extends_bind; [apply extends_lift | intros f].
  apply extends_bind; [apply extends_emit | intros _].
  apply extends_bind; [apply extends_set_result | intros _].
  unfold extract_after_format.
  apply extends_bind; [|intros _].
  { destruct f; unfold extract_regions, extract_region, region_count, extract_dimensions;
      repeat extends_step. }
  apply extends_bind; [|intros _].
  { unfold extract_block_stats, extract_palette, extract_classic, list_block_types,
      record_length.
    repeat extends_step. }
  apply extends_bind; [|intros _].
  { unfold extract_metadata, metadata_entry, describe_complex. repeat extends_step. }
  apply extends_bind; [|intros _].
  { unfold extract_worldedit_metadata, worldedit_entry, describe_complex.
    repeat extends_step. }
  apply extends_bind; [|intros _].
  { unfold report_residuals.
    apply extends_bind; [apply extends_emit | intros _].
    apply extends_bind; [apply extends_lift | intros ks].
    apply extends_bind; [|intros acc].
    - apply extends_fold_m. intros acc k. unfold residual_key. repeat extends_step.
    - destruct acc; repeat extends_step. }
  apply extends_emit.
Qed.

(** X25 (lines 66-346).  No step of the analysis removes or rewrites a
    line of the report: the report of every run, complete or failed,
    begins with the three header lines that name the file, its path and
    its size. *)
Theorem report_begins_with_header (env : FileEnv) :
  exists lines,
    report_lines (analyze_schematic env) =
      (nl ++ "=== Analyzing file: " ++ basename env ++ " ===")
      :: ("File path: " ++ path_str env)
      :: ("File size: " ++ Py.str_int (getsize env) ++ " bytes")
      :: lines.
Proof.
  pose proof (body_of_load env) as Hbody.
  destruct (extends_load env (initial_state env)) as [l1 H1].
  change (output (initial_state env))
    with [nl ++ "=== Analyzing file: " ++ basename env ++ " ===";
          "File path: " ++ path_str env;
          "File size: " ++ Py.str_int (getsize env) ++ " bytes"] in H1.
  destruct (load env (initial_state env)) as [[[nbt|]|e] st1]; cbn [snd] in H1.
  - destruct (extends_extract nbt st1) as [l2 H2].
    destruct (extract nbt st1) as [[[]|e] st2]; cbn [snd] in H2.
    + rewrite (analyze_of_body env true _ Hbody). cbn [report_lines].
      exists (l1 ++ l2)%list. now rewrite H2, H1, <- app_assoc.
    + rewrite (analyze_of_raise env e st2 Hbody). cbn [report_lines on_error output].
      eexists. rewrite H2, H1, <- !app_assoc. reflexivity.
  - rewrite (analyze_of_body env false st1 Hbody). cbn [report_lines].
    now exists l1.
  - rewrite (analyze_of_raise env e st1 Hbody). cbn [report_lines on_error output].
    eexists. rewrite H1, <- !app_assoc. reflexivity.
Qed.

End Analysis.

(** ** Worked inputs

    The statements above at the sample collaborators and trees. *)

Local Abbreviation analyze_sample fields :=
  (analyze_schematic Sample.str_other Sample.mul_other Sample.local_date
     Sample.gzip_decompress (Sample.parse_as fields) Sample.format_exc Sample.env).

(** Scenario A of the specification: the three dimensions 2, 1 and 5 are
    recorded with the volume 10. *)
Lemma dimensions_of_scenario_a :
  extract_dimensions Sample.str_other Sample.mul_other
    (TagCompound Sample.scenario_a) (mkState [] [])
  = (Returns tt,
     mkState
       [("dimensions",
         VDict [("width", VTag (TagInt 2)); ("height", VTag (TagInt 1));
                ("length", VTag (TagInt 5)); ("total_volume", VTag (TagInt 10))])]
       ["Dimensions: 2 x 1 x 5"; "Total volume: 10 blocks"]).
Proof.
  destruct (dimensions_and_volume Sample.str_other Sample.mul_other
              Sample.scenario_a (mkState [] [])) as (_ & _ & _ & _ & Hints).
  destruct (Hints 2 1 5 eq_refl eq_refl eq_refl) as (Hrun & _).
  exact Hrun.
Defined.

(** A root with Width = -1, Height = 1 and Length = 1 is not a litematica
    input, and the volume recorded for it is -1. *)
Lemma negative_width_gives_negative_volume :
  detect_format (TagCompound Sample.negative_width) = Returns unknown
  /\ Dict.get "dimensions" (analysis_result (analyze_sample Sample.negative_width))
     = Some (VDict [("width", VTag (TagInt (-1))); ("height", VTag (TagInt 1));
                    ("length", VTag (TagInt 1)); ("total_volume", VTag (TagInt (-1)))])
  /\ Dict.mem "error" (analysis_result (analyze_sample Sample.negative_width)) = false
  /\ -1 < 0.
Proof. repeat split; vm_compute; reflexivity. Qed.

(** A root with Palette, BlockData and Regions is detected as
    modern_worldedit; Regions is a root key that is neither read by the
    extraction of that variant, nor residual, nor Metadata.  The
    analysis ends without an error, returns no additional keys, and
    neither its result nor its report names Regions. *)
Lemma reserved_key_unaccounted :
  detect_format (TagCompound Sample.palette_with_regions) = Returns modern_worldedit
  /\ key_in "Regions" (Dict.keys Sample.palette_with_regions) = true
  /\ key_in "Regions" (accounted_keys modern_worldedit Sample.palette_with_regions) = false
  /\ residual_keys_of Sample.palette_with_regions = []
  /\ Dict.keys (analysis_result (analyze_sample Sample.palette_with_regions))
     = ["file_name"; "file_path"; "file_size"; "analysis_time"; "compression";
        "format"; "dimensions"; "block_stats"; "block_data_size"]
  /\ existsb (fun line => safe_check (TagString line) "Regions")
       (report_lines (analyze_sample Sample.palette_with_regions)) = false.
Proof. repeat split; vm_compute; reflexivity. Qed.

(** The compound with x = 1 and z = 3 is rendered with ["?"] for y. *)
Lemma coordinates_x1_z3 :
  format_coordinates Sample.str_other (TagCompound Sample.coords_x1_z3)
  = Returns "1 x ? x 3".
Proof.
  destruct (format_coordinates_axes Sample.str_other Sample.coords_x1_z3) as [H _].
  - discriminate.
  - exact H.
Defined.

(** An axis that holds text is rendered as that text, not as ["?"]. *)
Lemma text_axis_is_rendered :
  format_coordinates Sample.str_other (TagCompound Sample.coords_text_x)
  = Returns "abc x 2 x 3".
Proof. reflexivity. Qed.

(** The empty compound is rendered ["unknown"]. *)
Lemma empty_compound_is_unknown :
  format_coordinates Sample.str_other (TagCompound []) = Returns "unknown".
Proof.
  apply (format_coordinates_unknown Sample.str_other (TagCompound [])).
  left. reflexivity.
Defined.

(** C5.  The litematica root whose only region, Main, has an integer as
    Size: reading the axes of the integer raises, the outer handler
    records the error, and the regions mapping of the result has no
    entry for Main. *)
Theorem region_with_integer_size_is_dropped :
  detect_format (TagCompound Sample.litematic_int_size) = Returns litematica
  /\ Dict.get "regions" (analysis_result (analyze_sample Sample.litematic_int_size))
     = Some (VDict [])
  /\ Dict.get "error" (analysis_result (analyze_sample Sample.litematic_int_size))
     = Some (VStr "Error analyzing file: 'Int' object has no attribute 'get'")
  /\ (exists st,
        extract_region Sample.str_other (TagCompound [("Size", TagInt 5)]) (mkState [] [])
        = (Raises (AttributeError "'Int' object has no attribute 'get'"), st)).
Proof.
  repeat split; try (vm_compute; reflexivity).
  eexists. vm_compute. reflexivity.
Qed.

(** Scenario B of the specification: the region Main with Size 4, 4, 4
    and no BlockEntities is recorded in the result with the size
    ["4 x 4 x 4"] and without [block_entities_count]. *)
Lemma region_main_record :
  exists recorded record,
    Dict.get "regions" (analysis_result (analyze_sample Sample.litematic_main))
    = Some (VDict recorded)
    /\ Dict.get "Main" recorded = Some (VDict record)
    /\ Dict.get "size" record = Some (VStr "4 x 4 x 4")
    /\ Dict.get "block_entities_count" record = None.
Proof.
  destruct (region_counts Sample.str_other Sample.mul_other Sample.local_date
              Sample.gzip_decompress (Sample.parse_as Sample.litematic_main)
              Sample.format_exc Sample.env
              [x0a; x00; x00; x00; x00; x00; x00; x00; x00; x00]
              [x0a; x00; x00; x00; x00; x00; x00; x00; x00; x00]
              false (mkNbtFile Sample.litematic_main false) Sample.litematic_main
              [("Main", TagCompound Sample.region_main)]
              eq_refl eq_refl eq_refl eq_refl eq_refl eq_refl eq_refl)
    as (recorded & Hget & Hsound & Hdone).
  assert (Hmem : Dict.mem "Main" recorded = true).
  { apply Hdone; [vm_compute; reflexivity | now left]. }
  unfold Dict.mem in Hmem.
  destruct (Dict.get "Main" recorded) as [entry|] eqn:Hentry; [|discriminate Hmem].
  destruct (Hsound "Main" entry Hentry)
    as (region & record & Hin & -> & Hblock & _ & Hsize).
  destruct Hin as [Heq | []]. injection Heq as <-.
  exists recorded, record. split; [exact Hget | split; [exact Hentry | split]].
  - exact (Hsize _ eq_refl).
  - destruct Hblock as (_ & _ & _ & Hnone). now apply Hnone.
Defined.

(** A litematica root whose region Main has the text ["abc"] as
    BlockEntities, which is not a list: the analysis ends without an
    error and the record of Main has [block_entities_count] 3. *)
Lemma text_block_entities_are_counted :
  detect_format (TagCompound Sample.litematic_text_entities) = Returns litematica
  /\ Dict.get "regions" (analysis_result (analyze_sample Sample.litematic_text_entities))
     = Some (VDict [("Main", VDict [("block_entities_count", VInt 3)])])
  /\ Dict.mem "error" (analysis_result (analyze_sample Sample.litematic_text_entities))
     = false.
Proof. repeat split; vm_compute; reflexivity. Qed.

(** A classic root with a three-byte Blocks array, Data, an empty
    TileEntities list and an integer as Entities. *)
Lemma classic_small_block_stats :
  detect_format (TagCompound Sample.classic_small) = Returns classic_worldedit
  /\ extract_block_stats Sample.str_other classic_worldedit
       (TagCompound Sample.classic_small) (mkState [] [])
     = (Returns tt,
        mkState
          [("block_stats", VDict [("total_blocks", VInt 3)]);
           ("block_data_size", VInt 3); ("tile_entities_count", VInt 0)]
          [nl ++ "Block data available (classic format)"; "Total blocks: 3";
           "Block data size: 3 bytes"; "Tile entities: 0"]).
Proof.
  split; [reflexivity|].
  destruct (classic_block_stats Sample.str_other Sample.classic_small (mkState [] []) eq_refl)
    as (blocks & Hb & _ & Hrun).
  injection Hb as <-. exact Hrun.
Defined.

(** Scenario D of the specification: a file without the gzip magic that
    the parser rejects. *)
Lemma rejected_file_analysis :
  analyze_schematic Sample.str_other Sample.mul_other Sample.local_date
    Sample.gzip_decompress Sample.parse_fails Sample.format_exc Sample.env
  = mkAnalysis
      [("file_name", VStr "a.schem"); ("file_path", VStr "/tmp/a.schem");
       ("file_size", VInt 10); ("analysis_time", VStr "2026-01-01 00:00:00");
       ("compression", VStr "not gzipped");
       ("error", VStr "Error parsing NBT data: unexpected end of data")]
      [nl ++ "=== Analyzing file: a.schem ==="; "File path: /tmp/a.schem";
       "File size: 10 bytes"; "File compression: not gzipped";
       "Error parsing NBT data: unexpected end of data"]
      None.
Proof.
  exact (proj1 (parse_failure_aborts Sample.str_other Sample.mul_other Sample.local_date
                  Sample.gzip_decompress Sample.parse_fails Sample.format_exc Sample.env
                  [x0a; x00; x00; x00; x00; x00; x00; x00; x00; x00]
                  [x0a; x00; x00; x00; x00; x00; x00; x00; x00; x00]
                  false (LibraryError "unexpected end of data")
                  eq_refl eq_refl eq_refl eq_refl)).
Defined.

(** The analysis of scenario A ends without an error and its root has
    the key Width, so the result lists additional keys. *)
Lemma scenario_a_additional_keys :
  Dict.mem "additional_nbt_keys" (analysis_result (analyze_sample Sample.scenario_a)) = true.
Proof.
  apply (proj1 (additional_keys_presence Sample.str_other Sample.mul_other
                  Sample.local_date Sample.gzip_decompress
                  (Sample.parse_as Sample.scenario_a) Sample.format_exc Sample.env
                  [x0a; x00; x00; x00; x00; x00; x00; x00; x00; x00]
                  [x0a; x00; x00; x00; x00; x00; x00; x00; x00; x00]
                  false (mkNbtFile Sample.scenario_a false) Sample.scenario_a
                  eq_refl eq_refl eq_refl eq_refl eq_refl)).
  split; [vm_compute; reflexivity |].
  exists "Width". split; [simpl; tauto |].
  simpl. intuition discriminate.
Defined.

(** A root with the key Width, which is outside the reserved set, and
    an integer as Metadata: the metadata pass raises, the analysis ends
    with an error before the residual scan, and the result has no
    [additional_nbt_keys]. *)
Lemma unreserved_key_without_entry :
  key_in "Width" (Dict.keys Sample.width_and_numeric_metadata) = true
  /\ key_in "Width" ["Palette"; "BlockData"; "Blocks"; "Data"; "Regions"; "Metadata"] = false
  /\ Dict.mem "additional_nbt_keys"
       (analysis_result (analyze_sample Sample.width_and_numeric_metadata)) = false
  /\ Dict.mem "error"
       (analysis_result (analyze_sample Sample.width_and_numeric_metadata)) = true.
Proof. repeat split; vm_compute; reflexivity. Qed.

(** ** Worked inputs of the further properties *)

Local Abbreviation analyze_in env fields :=
  (analyze_schematic Sample.str_other Sample.mul_other Sample.local_date
     Sample.gzip_decompress (Sample.parse_as fields) Sample.format_exc env).

Local Abbreviation main_sample argv :=
  (main Sample.str_other Sample.mul_other Sample.local_date Sample.gzip_decompress
     (Sample.parse_as Sample.scenario_a) Sample.format_exc Sample.world argv).

(** The two regions Main and Annex of a litematica root are both
    recorded. *)
Lemma two_regions_recorded :
  Dict.mem "Main" (regions_record Sample.str_other Sample.two_regions []) = true
  /\ Dict.mem "Annex" (regions_record Sample.str_other Sample.two_regions []) = true.
Proof.
  destruct (every_region_recorded Sample.str_other Sample.litematic_two_regions
              Sample.two_regions (mkState [] []) eq_refl) as [_ Hall].
  - repeat constructor; eexists; (split; [reflexivity | repeat split; exact I]).
  - split; apply Hall; simpl; tauto.
Defined.

(** A file that cannot be read gives an error and no format. *)
Lemma unreadable_file_result :
  Dict.mem "error" (analysis_result (analyze_in Sample.env_unreadable Sample.scenario_a))
  = true
  /\ Dict.mem "format" (analysis_result (analyze_in Sample.env_unreadable Sample.scenario_a))
     = false.
Proof.
  destruct (load_failure_truncates Sample.str_other Sample.mul_other Sample.local_date
              Sample.gzip_decompress (Sample.parse_as Sample.scenario_a) Sample.format_exc
              Sample.env_unreadable) as (He & Hf & _).
  - intros nbt st. vm_compute. discriminate.
  - split; assumption.
Defined.

(** The complete analysis of scenario A lists the three dimension keys. *)
Lemma scenario_a_completed_keys :
  Dict.get "additional_nbt_keys" (analysis_result (analyze_in Sample.env Sample.scenario_a))
  = Some (VList [VStr "Width"; VStr "Height"; VStr "Length"]).
Proof.
  refine (completed_analysis_additional_keys Sample.str_other Sample.mul_other
            Sample.local_date Sample.gzip_decompress (Sample.parse_as Sample.scenario_a)
            Sample.format_exc Sample.env
            [x0a; x00; x00; x00; x00; x00; x00; x00; x00; x00]
            [x0a; x00; x00; x00; x00; x00; x00; x00; x00; x00]
            false (mkNbtFile Sample.scenario_a false) Sample.scenario_a
            eq_refl eq_refl eq_refl eq_refl eq_refl _).
  vm_compute. reflexivity.
Defined.

(** A file with the gzip magic that gzip rejects. *)
Lemma rejected_gzip_analysis :
  Dict.mem "decompressed_size"
    (analysis_result (analyze_in Sample.env_gzip_magic Sample.scenario_a)) = false
  /\ Dict.mem "format"
       (analysis_result (analyze_in Sample.env_gzip_magic Sample.scenario_a)) = false.
Proof.
  exact (proj2 (decompress_failure_aborts Sample.str_other Sample.mul_other
                  Sample.local_date Sample.gzip_decompress
                  (Sample.parse_as Sample.scenario_a) Sample.format_exc
                  Sample.env_gzip_magic Sample.gzip_magic_bytes
                  (LibraryError "Not a gzipped file") eq_refl eq_refl eq_refl)).
Defined.


(** The check of the key x on a coordinate compound. *)
Lemma check_on_compound :
  (exists v, Py.getitem (TagCompound Sample.coords_x1_z3) "x" = Returns v)
  <-> Py.is_dict (TagCompound Sample.coords_x1_z3) = true.
Proof.
  exact (proj1 (safe_check_guards_compounds_only (TagCompound Sample.coords_x1_z3) "x"
                  eq_refl)).
Defined.

(** The key Name of the sample Metadata is recorded by the first pass. *)
Lemma sample_metadata_keys :
  Dict.mem "Name"
    (metadata_record Sample.str_other Sample.local_date Sample.metadata_entries []) = true.
Proof.
  destruct (metadata_pass_records_every_key Sample.str_other Sample.local_date
              Sample.with_metadata Sample.metadata_entries (mkState [] []) eq_refl)
    as [_ Hkeys].
  apply Hkeys. split; [simpl; tauto | discriminate].
Defined.

(** A root whose Metadata is the integer 3 ends with an error. *)
Lemma numeric_metadata_aborts :
  Dict.mem "error" (analysis_result (analyze_in Sample.env Sample.metadata_is_number)) = true.
Proof.
  exact (proj2 (metadata_of_wrong_kind_aborts Sample.str_other Sample.mul_other
                  Sample.local_date Sample.gzip_decompress
                  (Sample.parse_as Sample.metadata_is_number) Sample.format_exc Sample.env
                  [x0a; x00; x00; x00; x00; x00; x00; x00; x00; x00]
                  [x0a; x00; x00; x00; x00; x00; x00; x00; x00; x00]
                  false (mkNbtFile Sample.metadata_is_number false)
                  Sample.metadata_is_number (TagInt 3)
                  eq_refl eq_refl eq_refl eq_refl eq_refl eq_refl eq_refl)).
Defined.

(** The key Origin of the sample WorldEdit entry is recorded by the
    second pass. *)
Lemma sample_worldedit_pass :
  Dict.mem "Origin" (worldedit_record Sample.str_other Sample.worldedit_entries []) = true.
Proof.
  pose proof (worldedit_pass_by_entry Sample.str_other Sample.with_metadata
                Sample.metadata_entries (mkState [] []) eq_refl) as H.
  hnf in H. destruct H as [_ Hkeys].
  apply Hkeys. simpl. tauto.
Defined.

(** The palette of scenario A is listed without an exception. *)
Lemma scenario_a_palette :
  fst (extract_palette Sample.str_other (TagCompound Sample.scenario_a) (mkState [] []))
  = Returns tt.
Proof.
  rewrite (proj1 (palette_is_listed_in_full Sample.str_other Sample.scenario_a
                    [("minecraft:stone", TagInt 0); ("minecraft:air", TagInt 1)]
                    (mkState [] []) eq_refl)).
  reflexivity.
Defined.

(** A Palette that is a list of one name. *)
Lemma list_palette_stats :
  exists n,
    Py.len (TagList [TagString "minecraft:stone"]) = Returns n
    /\ fst (extract_palette Sample.str_other (TagCompound Sample.palette_is_list)
              (mkState [] [])) = Returns tt.
Proof.
  pose proof (palette_of_wrong_kind Sample.str_other Sample.palette_is_list
                (TagList [TagString "minecraft:stone"]) (mkState [] []) eq_refl eq_refl)
    as H.
  hnf in H. destruct H as (n & Hlen & Hrun).
  exists n. split; [exact Hlen | now rewrite Hrun].
Defined.

(** The root whose only key is Blocks, a compound with a Palette. *)
Lemma nested_sample_not_listed :
  extract_block_stats Sample.str_other modern_worldedit_nested
    (TagCompound Sample.nested_palette) (mkState [] [])
  = (Returns tt, mkState [] []).
Proof.
  exact (proj1 (nested_palette_is_not_listed Sample.str_other Sample.nested_palette
                  (mkState [] []) eq_refl eq_refl)).
Defined.

(** Scenario A lists additional keys, so its result has no error. *)
Lemma scenario_a_has_no_error :
  Dict.mem "error" (analysis_result (analyze_in Sample.env Sample.scenario_a)) = false.
Proof.
  apply (additional_keys_mean_no_error Sample.str_other Sample.mul_other Sample.local_date
           Sample.gzip_decompress (Sample.parse_as Sample.scenario_a) Sample.format_exc
           Sample.env).
  vm_compute. reflexivity.
Defined.

(** The litematica root with an integer Size ends in an error and still
    names its format. *)
Lemma failed_extraction_keeps_format :
  Dict.get "format" (analysis_result (analyze_in Sample.env Sample.litematic_int_size))
  = Some (VStr "litematica").
Proof.
  exact (format_survives_failures Sample.str_other Sample.mul_other Sample.local_date
           Sample.gzip_decompress (Sample.parse_as Sample.litematic_int_size)
           Sample.format_exc Sample.env
           [x0a; x00; x00; x00; x00; x00; x00; x00; x00; x00]
           [x0a; x00; x00; x00; x00; x00; x00; x00; x00; x00]
           false (mkNbtFile Sample.litematic_int_size false) Sample.litematic_int_size
           eq_refl eq_refl eq_refl eq_refl eq_refl).
Defined.

(** The options [--full --json out.json] give no log name. *)
Lemma options_of_sample_command :
  fst (parse_options ["--full"; "--json"; "out.json"] None None) = None.
Proof.
  apply (proj1 (options_come_from_arguments ["--full"; "--json"; "out.json"] None None)).
  reflexivity.
Defined.

(** The log [run.log] gives the JSON file [run.json]. *)
Lemma json_name_of_sample_log :
  json_name Sample.world ["--log"; "run.log"] = Some "run.json".
Proof.
  apply (proj1 (json_name_follows_log_name Sample.world ["--log"; "run.log"] eq_refl)
           "run" "log"); reflexivity.
Defined.


(** The command [schemInfoPy.py a.schem --log ''] only prints. *)
Lemma empty_log_option_run :
  forallb is_print (fst (main_sample ["schemInfoPy.py"; "a.schem"; "--log"; EmptyString]))
  = true.
Proof.
  exact (empty_log_name_writes_nothing Sample.str_other Sample.mul_other Sample.local_date
           Sample.gzip_decompress (Sample.parse_as Sample.scenario_a) Sample.format_exc
           Sample.world "schemInfoPy.py" "a.schem" ["--log"; EmptyString]
           eq_refl eq_refl).
Defined.

(** The command [schemInfoPy.py a.schem] empties its default log. *)
Lemma default_log_is_emptied :
  exists rest,
    fst (main_sample ["schemInfoPy.py"; "a.schem"])
    = Truncate "schematic_analysis_20260101_000000.log"
      :: Append "schematic_analysis_20260101_000000.log"
           ("Schematic Analysis Log - 2026-01-01 00:00:00" ++ nl)
      :: Append "schematic_analysis_20260101_000000.log"
           ("Command: schemInfoPy.py a.schem" ++ nl ++ nl)
      :: rest.
Proof.
  refine (log_is_emptied_first Sample.str_other Sample.mul_other Sample.local_date
            Sample.gzip_decompress (Sample.parse_as Sample.scenario_a) Sample.format_exc
            Sample.world "schemInfoPy.py" "a.schem" [] _).
  discriminate.
Defined.
